(** * Dashboard Harga Komoditas: the data pipeline of [app.py]

    A shallow embedding of the loaders, the user input store and the
    merge-and-filter code of [src/app.py], with the properties the
    specification states about them.

    Tables are modelled the way the program sees them: a worksheet is a grid
    of cells under a header of labels, a long-format [DataFrame] is a list of
    column names with a list of rows, and a row is a finite map from column
    name to value (a Python [dict] in [append_input_row]); a key that is
    absent from a row is the missing value ([NaN], [None], [NaT]).  Failures
    of the program (a missing worksheet, a [KeyError], a [TypeError]) are
    values of [result]. *)

From stdpp Require Import base option list gmap strings sorting.
From Stdlib Require Import Ascii ZArith Lia DecimalString DecimalZ DecimalPos.

Open Scope string_scope.
Open Scope Z_scope.
Open Scope list_scope.


(** ** Exceptions *)

Inductive error :=
  | KeyError (key : string)
  | WorksheetNotFound (sheet : string)
  | EmptyDataError
  | MissingDateColumn (col : string)
  | AttributeError (msg : string)
  | TypeError (msg : string).

Inductive result (A : Type) :=
  | Ok (a : A)
  | Raise (e : error).
Arguments Ok {A} a.
Arguments Raise {A} e.

#[global] Instance result_ret : MRet result := λ A a, Ok a.
#[global] Instance result_bind : MBind result := λ A B f m,
  match m with
  | Ok a => f a
  | Raise e => Raise e
  end.
#[global] Instance result_fmap : FMap result := λ A B f m,
  match m with
  | Ok a => Ok (f a)
  | Raise e => Raise e
  end.

Definition raises {A} (m : result A) : Prop :=
  match m with
  | Ok _ => False
  | Raise _ => True
  end.

(** ** Dates *)

(** A [datetime.date], by its proleptic Gregorian ordinal ([date.toordinal]);
    the order of dates is the order of ordinals. *)
Definition date := Z.

(** A [pd.Timestamp]: a calendar date and the time of day in nanoseconds. *)
Record Timestamp := mkTimestamp { ts_date : date; ts_time : Z }.

#[global] Instance Timestamp_eq_dec : EqDecision Timestamp.
Proof. solve_decision. Defined.

(** ** The library's text conversions

    The numeric type and the conversions between values and text belong to
    Python and pandas, not to the program.  They are taken as an interface:
    nothing below depends on how a number is printed or which texts parse
    as numbers. *)

Class PyLib := {
  (** a number that is not [NaN] (an [int] or a [float]) *)
  number : Type;
  number_eq_dec :: EqDecision number;
  (** [0 <= x] *)
  num_nonneg : number → bool;
  (** [float(b)] for a [bool], as [pd.to_numeric] converts it *)
  num_of_bool : bool → number;
  (** [str(x)]; it is also the text [to_csv] writes *)
  num_str : number → string;
  date_str : date → string;
  stamp_str : Timestamp → string;
  (** [pd.to_numeric] on a [str]: [None] when the text is not a number *)
  to_numeric_str : string → option number;
  (** [read_csv]: the number a field denotes, if it denotes one *)
  csv_number : string → option number;
  (** [read_csv]: the boolean a field denotes, if it denotes one *)
  csv_bool : string → option bool;
  (** [read_csv]: whether a field is one of the markers of a missing value
      (the empty field, [NA], [NaN], ...) *)
  csv_na : string → bool;
  (** [read_csv(parse_dates=...)]: the time stamp a field denotes when it is
      read in the format of the first field of its column that is not
      missing (the format is guessed once, from that field) *)
  csv_datetime : string → string → option Timestamp;
  (** [c.isspace()] for a character *)
  isspace : ascii → bool;
}.

(** [numpy.argsort(kind="quicksort")] on an array of dates, the sort that
    [sort_values] calls when it is given no [kind]: the positions of the
    keys in the order of the sorted keys.  Its algorithm is numpy's; what
    is proved of the display holds for any sort (see [ArgsortSorts]). *)
Class Argsort := argsort : list date → list nat.

Section App.
Context {L : PyLib} {Srt : Argsort}.

(** ** Values and tables *)

(** What a cell holds when it is not missing. *)
Inductive value :=
  | VNum (x : number)
  | VStr (s : string)
  | VBool (b : bool)
  | VDate (d : date)
  | VStamp (t : Timestamp).

#[global] Instance value_eq_dec : EqDecision value.
Proof. solve_decision. Defined.

(** A cell: [None] is the missing value. *)
Definition cell := option value.

(** A column label of a worksheet: text, or a date that [read_excel] reads as
    a [pd.Timestamp]. *)
Inductive label :=
  | LStr (s : string)
  | LStamp (t : Timestamp).

#[global] Instance label_eq_dec : EqDecision label.
Proof. solve_decision. Defined.

(** A worksheet as [read_excel] returns it (wide format). *)
Record Sheet := mkSheet {
  sheet_columns : list label;
  sheet_rows : list (list cell);
}.

(** A row of a long-format table; an absent key is a missing value. *)
Abbreviation Row := (gmap string value).

(** A long-format table. *)
Record DataFrame := mkDataFrame {
  columns : list string;
  rows : list Row;
}.

(** The spreadsheet [DATA_FILE]: its worksheets by name. *)
Abbreviation Workbook := (gmap string Sheet).

(** ** pandas operations on a worksheet *)

(** [pd.read_excel(DATA_FILE, sheet_name=s)] *)
Definition read_excel (wb : Workbook) (s : string) : result Sheet :=
  match wb !! s with
  | Some df => Ok df
  | None => Raise (WorksheetNotFound s)
  end.

(** The position of a label in a header. *)
Definition get_loc (c : label) (cols : list label) : option nat :=
  fst <$> list_find (λ c', c' = c) cols.

(** The cell of a row of the grid at a position; short rows are padded with
    missing values. *)
Definition cell_at (i : nat) (r : list cell) : cell := mjoin (r !! i).

(** [df[c]] on a worksheet, for a text label. *)
Definition sheet_getitem (df : Sheet) (c : string) : result (list cell) :=
  match get_loc (LStr c) (sheet_columns df) with
  | Some i => Ok (cell_at i <$> sheet_rows df)
  | None => Raise (KeyError c)
  end.

(** [Series.dropna()] *)
Definition dropna (col : list cell) : list value := omap id col.

(** [str(v)], as [Series.astype(str)] applies it to each value. *)
Definition astype_str (v : value) : string :=
  match v with
  | VNum x => num_str x
  | VStr s => s
  | VBool true => "True"
  | VBool false => "False"
  | VDate d => date_str d
  | VStamp t => stamp_str t
  end.

(** [Series.unique()]: a hash table of the values seen so far; a value is
    kept when it is met for the first time. *)
Fixpoint unique_from (seen : list string) (l : list string) : list string :=
  match l with
  | [] => []
  | x :: l' =>
      if decide (x ∈ seen) then unique_from seen l'
      else x :: unique_from (x :: seen) l'
  end.

Definition unique (l : list string) : list string := unique_from [] l.

(** [df[c].dropna().astype(str).unique().tolist()] *)
Definition choice_list (col : list cell) : list string :=
  unique (astype_str <$> dropna col).

(** [load_choice] *)
Definition load_choice (wb : Workbook)
  : result (list string * list string * list string) :=
  df ← read_excel wb "choice";
  komoditi ← choice_list <$> sheet_getitem df "komoditi";
  tingkatan ← choice_list <$> sheet_getitem df "tingkatan";
  provinsi ← choice_list <$> sheet_getitem df "Provinsi";
  mret (komoditi, tingkatan, provinsi).

(** ** pandas operations on a long-format table *)

(** [r[k] = c]: the cell of a row at a column is replaced. *)
Definition row_set (k : string) (c : cell) (r : Row) : Row :=
  partial_alter (λ _, c) k r.

(** [pd.concat(frames, ignore_index=True)]: the rows of the frames one
    after the other, under the union of their columns in the order in which
    they are first met; a row has no value at a column its frame lacks. *)
Definition concat (frames : list DataFrame) : DataFrame :=
  {| columns := unique (mjoin (columns <$> frames));
     rows := mjoin (rows <$> frames) |}.

(** [pd.isna] of the cell of a row *)
Definition isna (c : string) (r : Row) : bool :=
  bool_decide (r !! c = None).

Definition notna (c : string) (r : Row) : bool := negb (isna c r).

(** [df[mask]]: the rows at which the boolean mask is [True]. *)
Fixpoint boolean_index (rs : list Row) (mask : list bool) : list Row :=
  match rs, mask with
  | r :: rs', b :: mask' =>
      if b then r :: boolean_index rs' mask' else boolean_index rs' mask'
  | _, _ => []
  end.

(** [df.dropna(subset=[c])] *)
Definition df_dropna (c : string) (df : DataFrame) : result DataFrame :=
  if decide (c ∈ columns df)
  then Ok {| columns := columns df;
             rows := boolean_index (rows df) (notna c <$> rows df) |}
  else Raise (KeyError c).

(** [pd.to_numeric(..., errors="coerce")] on one value: a number stays, a
    text is parsed, a boolean counts as 0 or 1, and what is not a number
    becomes missing.  (A date among the values of an object column is not a
    number.) *)
Definition to_numeric (v : value) : cell :=
  match v with
  | VNum x => Some (VNum x)
  | VStr s => VNum <$> to_numeric_str s
  | VBool b => Some (VNum (num_of_bool b))
  | VDate _ | VStamp _ => None
  end.

(** [df[c] = f(df[c])] for an operation that works value by value. *)
Definition assign_map (c : string) (f : value → cell) (df : DataFrame)
  : result DataFrame :=
  if decide (c ∈ columns df)
  then Ok {| columns := columns df;
             rows := (λ r, row_set c (r !! c ≫= f) r) <$> rows df |}
  else Raise (KeyError c).

(** [df.rename(columns={old: new})] for one entry: nothing happens when the
    frame has no column [old]. *)
Definition rename_column (old new : string) (df : DataFrame) : DataFrame :=
  if decide (old ∈ columns df)
  then {| columns := (λ c, if decide (c = old) then new else c) <$> columns df;
          rows := (λ r, row_set new (r !! old) (delete old r)) <$> rows df |}
  else df.

(** [pd.to_datetime(v)] followed by [.dt.date] on one value.  (Texts and
    numbers, which [to_datetime] would parse, do not occur where the program
    calls it: the column holds the Timestamp labels of the worksheet.) *)
Definition to_date (v : value) : result value :=
  match v with
  | VStamp t => Ok (VDate (ts_date t))
  | VDate d => Ok (VDate d)
  | _ => Raise (TypeError "to_datetime")
  end.

(** [df[c] = pd.to_datetime(df[c]).dt.date] *)
Definition assign_date (c : string) (df : DataFrame) : result DataFrame :=
  if decide (c ∈ columns df)
  then
    rs ← mapM (λ r : Row,
                 match r !! c with
                 | Some v => (λ d, <[c:=d]> r) <$> to_date v
                 | None => Ok r
                 end) (rows df);
    mret {| columns := columns df; rows := rs |}
  else Raise (KeyError c).

(** ** The historical series loader *)

Definition is_timestamp (c : label) : bool :=
  match c with
  | LStamp _ => true
  | LStr _ => false
  end.

(** [[c for c in df.columns if isinstance(c, pd.Timestamp)]] *)
Definition date_cols (df : Sheet) : list label :=
  filter (λ c, is_timestamp c) (sheet_columns df).

(** [[c for c in base_cols if c in df.columns]] *)
Definition base_cols (df : Sheet) : list string :=
  filter (λ c, LStr c ∈ sheet_columns df)
         [" "; "Komoditi"; "Tingkat"; "Prov/Kab/Kota"].

(** The cell of a row of the worksheet under a label. *)
Definition sheet_cell (df : Sheet) (c : label) (r : list cell) : cell :=
  i ← get_loc c (sheet_columns df); cell_at i r.

(** The value a label has as an entry of the [var_name] column. *)
Definition label_value (c : label) : value :=
  match c with
  | LStr s => VStr s
  | LStamp t => VStamp t
  end.

(** One row of [melt]: the identifier cells of a row of the worksheet, the
    label of a value column and the cell under it. *)
Definition melt_row (df : Sheet) (ids : list string) (c : label)
    (r : list cell) : Row :=
  row_set "Harga" (sheet_cell df c r)
    (<["Tanggal" := label_value c]>
       (foldr (λ b acc, row_set b (sheet_cell df (LStr b) r) acc) ∅ ids)).

(** [df[base_cols + date_cols].melt(id_vars=base_cols, var_name="Tanggal",
    value_name="Harga")]: for each value column in turn, one row per row of
    the worksheet. *)
Definition melt (df : Sheet) : DataFrame :=
  {| columns := base_cols df ++ ["Tanggal"; "Harga"];
     rows := c ← date_cols df; melt_row df (base_cols df) c <$> sheet_rows df |}.

(** [load_daily_data] *)
Definition load_daily_data (wb : Workbook) : result DataFrame :=
  frames ← mapM (λ s, melt <$> read_excel wb s) ["jan26"; "feb26"];
  let out := concat frames in
  out ← df_dropna "Harga" out;
  out ← assign_map "Harga" to_numeric out;
  out ← df_dropna "Harga" out;
  let out := rename_column "Prov/Kab/Kota" "Provinsi"
               (rename_column " " "Sumber" out) in
  assign_date "Tanggal" out.

(** ** The user input store *)

(** The file [INPUT_CSV] as a table of text fields (the quoting of the file
    format is not modelled: a field is the text between the separators,
    unquoted).  A line that is shorter than the header is padded with empty
    fields; the names of the header are taken to be distinct, as [read_csv]
    makes them. *)
Record CsvFile := mkCsvFile {
  csv_header : list string;
  csv_lines : list (list string);
}.

(** The store: the file, when it exists. *)
Abbreviation Store := (option CsvFile).

Definition canonical_columns : list string :=
  ["Sumber"; "Komoditi"; "Tingkat"; "Provinsi"; "Tanggal"; "Harga"].

Definition field_at (j : nat) (line : list string) : string :=
  default "" (line !! j).

Definition present (f : string) : bool := negb (csv_na f).

(** The type inference of [read_csv] on the fields of a column: numbers when
    every field that is not missing is a number, else booleans when every
    such field is a boolean, else texts. *)
Definition infer_column (fs : list string) : list cell :=
  let ps := filter (λ f, present f) fs in
  if forallb (λ f, bool_decide (is_Some (csv_number f))) ps
  then (λ f, if csv_na f then None else VNum <$> csv_number f) <$> fs
  else if forallb (λ f, bool_decide (is_Some (csv_bool f))) ps
  then (λ f, if csv_na f then None else VBool <$> csv_bool f) <$> fs
  else (λ f, if csv_na f then None else Some (VStr f)) <$> fs.

(** The date conversion of [read_csv(parse_dates=[c])] on the fields of the
    column: every field that is not missing is read in the format of the
    first one; [None] when one of them cannot be, and the column then stays
    as [infer_column] reads it. *)
Definition parse_dates (fs : list string) : option (list cell) :=
  match filter (λ f, present f) fs with
  | [] => Some ((λ _, None) <$> fs)
  | f0 :: _ =>
      mapM (λ f, if csv_na f then Some None
                 else (λ t, Some (VStamp t)) <$> csv_datetime f0 f) fs
  end.

Definition read_column (f : CsvFile) (date_col : string) (j : nat)
    (c : string) : list cell :=
  let fs := field_at j <$> csv_lines f in
  if decide (c = date_col) then default (infer_column fs) (parse_dates fs)
  else infer_column fs.

(** The row of a table given by its columns, at a position. *)
Definition row_of_columns (cols : list (string * list cell)) (i : nat) : Row :=
  foldr (λ '(c, cells) acc, row_set c (mjoin (cells !! i)) acc) ∅ cols.

(** [pd.read_csv(INPUT_CSV, parse_dates=[date_col])] *)
Definition read_csv (f : CsvFile) (date_col : string) : result DataFrame :=
  if decide (csv_header f = []) then Raise EmptyDataError
  else if decide (date_col ∈ csv_header f) then
    let cols := imap (λ j c, (c, read_column f date_col j c)) (csv_header f) in
    Ok {| columns := csv_header f;
          rows := row_of_columns cols <$> seq 0 (length (csv_lines f)) |}
  else Raise (MissingDateColumn date_col).

Definition is_stamp (c : cell) : bool :=
  match c with
  | Some (VStamp _) | None => true
  | Some _ => false
  end.

(** [df[c] = df[c].dt.date]: the accessor exists on a column of time stamps
    only.  A table without rows has columns of type [object] (no date
    conversion takes place on it), and the accessor fails there too. *)
Definition dt_date (c : string) (df : DataFrame) : result DataFrame :=
  if decide (c ∈ columns df) then
    if bool_decide (rows df ≠ []) && forallb (λ r : Row, is_stamp (r !! c)) (rows df)
    then Ok {| columns := columns df;
               rows := (λ r : Row,
                          match r !! c with
                          | Some (VStamp t) => <[c := VDate (ts_date t)]> r
                          | _ => r
                          end) <$> rows df |}
    else Raise (AttributeError "Can only use .dt accessor with datetimelike values")
  else Raise (KeyError c).

(** [load_input_data] *)
Definition load_input_data (store : Store) : result DataFrame :=
  match store with
  | Some f =>
      df ← read_csv f "Tanggal";
      dt_date "Tanggal" df
  | None => Ok {| columns := canonical_columns; rows := [] |}
  end.

(** A Python [dict] with text keys, in the order of insertion. *)
Definition dict := list (string * value).

(** [pd.DataFrame([row])] *)
Definition frame_of_dict (row : dict) : DataFrame :=
  {| columns := row.*1; rows := [list_to_map row] |}.

(** The text [to_csv] writes for a cell: nothing for a missing value. *)
Definition csv_field (c : cell) : string :=
  match c with
  | Some v => astype_str v
  | None => ""
  end.

(** [df.to_csv(INPUT_CSV, index=False)] *)
Definition to_csv (df : DataFrame) : CsvFile :=
  {| csv_header := columns df;
     csv_lines := (λ r : Row, (λ c, csv_field (r !! c)) <$> columns df) <$> rows df |}.

(** [append_input_row]: the store after the call. *)
Definition append_input_row (row : dict) (store : Store) : result Store :=
  df ← load_input_data store;
  let df := concat [df; frame_of_dict row] in
  mret (Some (to_csv df)).

(** ** The input form *)

Fixpoint lstrip (s : string) : string :=
  match s with
  | String a s' => if isspace a then lstrip s' else s
  | EmptyString => EmptyString
  end.

Fixpoint rstrip (s : string) : string :=
  match s with
  | String a s' =>
      match rstrip s' with
      | EmptyString => if isspace a then EmptyString else String a EmptyString
      | t => String a t
      end
  | EmptyString => EmptyString
  end.

(** [s.strip()] *)
Definition strip (s : string) : string := rstrip (lstrip s).

(** What the user has entered when the form is submitted. *)
Record Form := mkForm {
  komoditi_val : string;
  harga_val : number;
  tingkat_val : string;
  tanggal_val : date;
  provinsi_val : string;
  sumber_val : string;
}.

(** The [row] that [main] builds from the form ([float(harga_val)] is the
    number itself). *)
Definition form_row (f : Form) : dict :=
  [("Sumber", VStr (strip (sumber_val f)));
   ("Komoditi", VStr (komoditi_val f));
   ("Tingkat", VStr (tingkat_val f));
   ("Provinsi", VStr (provinsi_val f));
   ("Tanggal", VDate (tanggal_val f));
   ("Harga", VNum (harga_val f))].

(** The branch [if submitted:] of [main]. *)
Definition submit (f : Form) (store : Store) : result Store :=
  append_input_row (form_row f) store.

(** ** Merge and filter *)

(** [pd.concat([daily_data, input_data], ignore_index=True)] *)
Definition combine (daily_data input_data : DataFrame) : DataFrame :=
  concat [daily_data; input_data].

(** [df[c]] *)
Definition getitem (df : DataFrame) (c : string) : result (list cell) :=
  if decide (c ∈ columns df) then Ok ((λ r : Row, r !! c) <$> rows df)
  else Raise (KeyError c).

(** [Series.isin(values)] for a list of texts *)
Definition isin (values : list string) (col : list cell) : list bool :=
  (λ c, match c with
        | Some (VStr s) => bool_decide (s ∈ values)
        | _ => false
        end) <$> col.

(** [mask1 & mask2] *)
Definition mask_and (m1 m2 : list bool) : list bool := zip_with andb m1 m2.

(** [Series >= d] and [Series <= d] against a [date] on a column of type
    [object]: a missing value compares false, a value that is not a date
    cannot be compared. *)
Definition compare_date (op : date → date → bool) (d0 : date)
    (col : list cell) : result (list bool) :=
  mapM (λ c, match c with
             | None => Ok false
             | Some (VDate d) => Ok (op d d0)
             | Some _ => Raise (TypeError "comparison with datetime.date")
             end) col.

Definition ge_date : date → list cell → result (list bool) :=
  compare_date (λ d d0, bool_decide (d0 ≤ d)).
Definition le_date : date → list cell → result (list bool) :=
  compare_date (λ d d0, bool_decide (d ≤ d0)).

(** The three category masks shared by the two tabs. *)
Definition category_mask (combined : DataFrame) (kom ting prov : list string)
  : result (list bool) :=
  k ← getitem combined "Komoditi";
  t ← getitem combined "Tingkat";
  p ← getitem combined "Provinsi";
  mret (mask_and (mask_and (isin kom k) (isin ting t)) (isin prov p)).

(** [filtered] of the tab "Rekapan Tabular" *)
Definition filtered (combined : DataFrame) (kom_filter ting_filter prov_filter : list string)
  : result DataFrame :=
  m ← category_mask combined kom_filter ting_filter prov_filter;
  mret {| columns := columns combined; rows := boolean_index (rows combined) m |}.

(** [plot_df] of the tab "Tren Harga Harian" *)
Definition plot_df (combined : DataFrame) (kom_plot ting_plot prov_plot : list string)
    (start_date end_date : date) : result DataFrame :=
  m ← category_mask combined kom_plot ting_plot prov_plot;
  d1 ← getitem combined "Tanggal";
  ge ← ge_date start_date d1;
  d2 ← getitem combined "Tanggal";
  le ← le_date end_date d2;
  mret {| columns := columns combined;
          rows := boolean_index (rows combined) (mask_and (mask_and m ge) le) |}.

(** The sort key of a row: the date at the column.  (The column holds dates
    after the loaders; values of another type do not occur.) *)
Definition date_key (c : string) (r : Row) : result date :=
  match r !! c with
  | Some (VDate d) => Ok d
  | _ => Raise (TypeError "sort key")
  end.

(** [Series.take(indexer)] *)
Definition take_rows (rs : list Row) (indexer : list nat) : list Row :=
  omap (λ i, rs !! i) indexer.

(** [df.sort_values(c)]: the rows whose key is not missing in the order
    [argsort] gives for their keys, then the rows whose key is missing
    ([na_position="last"]). *)
Definition sort_values (c : string) (df : DataFrame) : result DataFrame :=
  if decide (c ∈ columns df) then
    let non_nans := filter (λ r, notna c r) (rows df) in
    let nans := filter (λ r, isna c r) (rows df) in
    keys ← mapM (date_key c) non_nans;
    mret {| columns := columns df;
            rows := take_rows non_nans (argsort keys) ++ nans |}
  else Raise (KeyError c).

(** What the tab "Rekapan Tabular" displays. *)
Definition rekap_view (combined : DataFrame) (kom ting prov : list string)
  : result DataFrame :=
  df ← filtered combined kom ting prov;
  sort_values "Tanggal" df.

(** What the chart of the tab "Tren Harga Harian" is drawn from. *)
Definition tren_view (combined : DataFrame) (kom ting prov : list string)
    (start_date end_date : date) : result DataFrame :=
  df ← plot_df combined kom ting prov start_date end_date;
  sort_values "Tanggal" df.

(** ** What the specification asks of the results *)



(** The combined table has the three category columns. *)
Definition has_category_columns (df : DataFrame) : Prop :=
  "Komoditi" ∈ columns df ∧ "Tingkat" ∈ columns df ∧ "Provinsi" ∈ columns df.

Definition date_or_missing (c : cell) : Prop :=
  match c with
  | None | Some (VDate _) => True
  | Some _ => False
  end.

(** The table has the column "Tanggal", and it holds dates (or nothing), as
    it does after the two loaders. *)
Definition dates_ok (df : DataFrame) : Prop :=
  "Tanggal" ∈ columns df
  ∧ Forall (λ r : Row, date_or_missing (r !! "Tanggal")) (rows df).

(** The row has, at the column, one of the selected texts. *)
Definition in_selection (values : list string) (c : string) (r : Row) : bool :=
  match r !! c with
  | Some (VStr s) => bool_decide (s ∈ values)
  | _ => false
  end.

(** The row passes the three category filters. *)
Definition category_selected (kom ting prov : list string) (r : Row) : bool :=
  in_selection kom "Komoditi" r && in_selection ting "Tingkat" r
  && in_selection prov "Provinsi" r.

(** The date of the row lies in the closed range. *)
Definition date_in_range (start_date end_date : date) (r : Row) : bool :=
  match r !! "Tanggal" with
  | Some (VDate d) => bool_decide (start_date ≤ d) && bool_decide (d ≤ end_date)
  | _ => false
  end.

(** The number a cell of a price column yields: the cell is not missing and
    coerces to a number. *)
Definition price_of (c : cell) : option number :=
  v ← c;
  match to_numeric v with
  | Some (VNum x) => Some x
  | _ => None
  end.

(** The row of the reshaped table for a row of the worksheet and a date
    column, before any filtering: the four identifier cells under their
    names in the worksheet, the label of the date column and the cell
    under it. *)
Definition raw_row (df : Sheet) (c : label) (r : list cell) : Row :=
  row_set "Harga" (sheet_cell df c r)
    (<["Tanggal" := label_value c]>
       (row_set " " (sheet_cell df (LStr " ") r)
          (row_set "Komoditi" (sheet_cell df (LStr "Komoditi") r)
             (row_set "Tingkat" (sheet_cell df (LStr "Tingkat") r)
                (row_set "Prov/Kab/Kota" (sheet_cell df (LStr "Prov/Kab/Kota") r)
                   ∅))))).

(** What becomes of a row of the reshaped table in the historical dataset:
    it survives when its price is present and coerces to a number, and it
    then carries the canonical names, the calendar date and the number. *)
Definition survivor (raw : Row) : option Row :=
  match price_of (raw !! "Harga"), raw !! "Tanggal" with
  | Some x, Some (VStamp t) =>
      Some (row_set "Sumber" (raw !! " ")
             (row_set "Komoditi" (raw !! "Komoditi")
                (row_set "Tingkat" (raw !! "Tingkat")
                   (row_set "Provinsi" (raw !! "Prov/Kab/Kota")
                      (<["Tanggal" := VDate (ts_date t)]>
                         (<["Harga" := VNum x]> ∅))))))
  | _, _ => None
  end.

(** The names of the columns of a reshaped table. *)
Definition raw_names : list string :=
  [" "; "Komoditi"; "Tingkat"; "Prov/Kab/Kota"; "Tanggal"; "Harga"].

(** The canonical name of a column of the reshaped table. *)
Definition canonical_name (c : string) : string :=
  if decide (c = " ") then "Sumber"
  else if decide (c = "Prov/Kab/Kota") then "Provinsi"
  else c.

(** A row of a reshaped table with the columns [cols]: its date is a time
    stamp and it has values at columns of the table only. *)
Definition raw_ok (cols : list string) (r : Row) : Prop :=
  (∃ t, r !! "Tanggal" = Some (VStamp t))
  ∧ ∀ k, is_Some (r !! k) → k ∈ cols.

(** [.dt.date] on the time stamp of a row. *)
Definition date_of_stamp (c : string) (r : Row) : Row :=
  match r !! c with
  | Some (VStamp t) => <[c := VDate (ts_date t)]> r
  | _ => r
  end.



(** Every character of the text is white space. *)
Fixpoint all_space (s : string) : bool :=
  match s with
  | EmptyString => true
  | String a s' => isspace a && all_space s'
  end.

Definition first_char (s : string) : option ascii :=
  match s with
  | String a _ => Some a
  | EmptyString => None
  end.

Fixpoint last_char (s : string) : option ascii :=
  match s with
  | EmptyString => None
  | String a EmptyString => Some a
  | String _ s' => last_char s'
  end.

(** [t] is [s] without its leading and trailing white space. *)
Definition stripped_of (s t : string) : Prop :=
  (∃ pre post,
     s = String.append pre (String.append t post)
     ∧ all_space pre ∧ all_space post)
  ∧ (∀ a, first_char t = Some a → isspace a = false)
  ∧ (∀ a, last_char t = Some a → isspace a = false).

(** A text that [read_csv] reads back as the same text: it is not a marker
    of a missing value, not a number and not a boolean. *)
Definition plain_text (s : string) : Prop :=
  csv_na s = false ∧ csv_number s = None ∧ csv_bool s = None.

Definition text_columns : list string :=
  ["Sumber"; "Komoditi"; "Tingkat"; "Provinsi"].

Definition text_cell (c : cell) : Prop :=
  c = None ∨ ∃ s, c = Some (VStr s) ∧ csv_na s = false.

Definition date_cell (c : cell) : Prop :=
  c = None ∨ ∃ d, c = Some (VDate d).

Definition number_cell (c : cell) : Prop :=
  c = None ∨ ∃ x, c = Some (VNum x).

(** A row of the store with the types of the schema: values at the six
    canonical columns only, texts in the four text columns, a date, a
    number; any of them may be missing. *)
Definition stored_row (r : Row) : Prop :=
  (∀ k, is_Some (r !! k) → k ∈ canonical_columns)
  ∧ (∀ c, c ∈ text_columns → text_cell (r !! c))
  ∧ date_cell (r !! "Tanggal")
  ∧ number_cell (r !! "Harga").

(** A row as the form builds it, with texts that the file keeps as they
    are. *)
Definition entered_row (row : dict) : Prop :=
  ∃ s k t p d x,
    row = [("Sumber", VStr s); ("Komoditi", VStr k); ("Tingkat", VStr t);
           ("Provinsi", VStr p); ("Tanggal", VDate d); ("Harga", VNum x)]
    ∧ plain_text s ∧ plain_text k ∧ plain_text t ∧ plain_text p.

(** The time stamp [read_csv] reads for a date that [to_csv] wrote:
    midnight of that date. *)
Definition stamp_of_date (c : cell) : cell :=
  match c with
  | Some (VDate d) => Some (VStamp (mkTimestamp d 0))
  | _ => c
  end.

(** The order in which [sort_values] displays two rows: by date, a row
    whose date is missing after every other row. *)
Definition date_order (r1 r2 : Row) : Prop :=
  match r1 !! "Tanggal", r2 !! "Tanggal" with
  | Some (VDate d1), Some (VDate d2) => d1 ≤ d2
  | _, None => True
  | _, _ => False
  end.

(** The date of a row that has one. *)
Definition date_of (r : Row) : date :=
  match r !! "Tanggal" with
  | Some (VDate d) => d
  | _ => 0
  end.

(** The order of [out] is stable with respect to [inp]: two different rows
    with the same date stand in [out] in the order in which they stand in
    [inp]. *)
Definition stable_by_date (inp out : list Row) : Prop :=
  ∀ (i j i' j' : nat) (r1 r2 : Row),
    (i < j)%nat → inp !! i = Some r1 → inp !! j = Some r2 →
    r1 ≠ r2 → r1 !! "Tanggal" = r2 !! "Tanggal" →
    out !! i' = Some r1 → out !! j' = Some r2 → (i' < j')%nat.

(** ** One run of [main]

    Streamlit runs [main] from top to bottom on every interaction.  What
    the widgets return in a run is taken as the input of the run; what the
    run writes to the store and what its tables and chart are drawn from is
    its result.  ([st.cache_data] keeps the results of [load_choice] and
    [load_daily_data] for the life of the process: a run is modelled as the
    first one, which reads the spreadsheet.) *)

(** [df.empty]: an axis of the table has length 0. *)
Definition df_empty (df : DataFrame) : bool :=
  bool_decide (rows df = [] ∨ columns df = []).

(** The dates of the column on which [Series.min()] and [Series.max()]
    work.  The column has type [object]: with a value that is no date the
    comparisons fail, and so do they with a missing value, which is
    replaced by an infinite float before the elements are compared.  (When
    every date is missing the result is [NaN], and it is the date input
    that rejects it: the run fails either way.) *)
Definition dates_of_column (col : list cell) : result (list date) :=
  mapM (λ c, match c with
             | Some (VDate d) => Ok d
             | _ => Raise (TypeError "comparison with datetime.date")
             end) col.

(** [Series.min()] *)
Definition series_min (col : list cell) : result date :=
  ds ← dates_of_column col; mret (foldr Z.min (hd 0 ds) ds).

(** [Series.max()] *)
Definition series_max (col : list cell) : result date :=
  ds ← dates_of_column col; mret (foldr Z.max (hd 0 ds) ds).

(** [min_date] and [max_date] of the tab "Tren Harga Harian" *)
Definition default_range (combined : DataFrame) (today : date)
  : result (date * date) :=
  if df_empty combined then Ok (today, today)
  else
    c1 ← getitem combined "Tanggal";
    min_date ← series_min c1;
    c2 ← getitem combined "Tanggal";
    max_date ← series_max c2;
    mret (min_date, max_date).

(** [start_date] and [end_date]: the two dates of the date input when it
    returns a tuple of two dates, the default range otherwise. *)
Definition chosen_range (date_range : list date) (min_date max_date : date)
  : date * date :=
  match date_range with
  | [start_date; end_date] => (start_date, end_date)
  | _ => (min_date, max_date)
  end.

(** What the widgets return in a run. *)
Record Inputs := mkInputs {
  submitted : option Form;
  kom_filter : list string;
  ting_filter : list string;
  prov_filter : list string;
  kom_plot : list string;
  ting_plot : list string;
  prov_plot : list string;
  date_range : list date;
  today : date;
}.

(** What a run displays: the table "Data Input Tersimpan", the table of the
    tab "Rekapan Tabular", and the table the chart is drawn from ([None]
    when the warning is shown instead). *)
Record Page := mkPage {
  saved_table : DataFrame;
  rekap_table : DataFrame;
  chart_table : option DataFrame;
}.

(** The tabs "Rekapan Tabular" and "Tren Harga Harian": both work on
    [daily_data] and [input_data] as they were loaded at the start of the
    run. *)
Definition tabs (daily_data input_data : DataFrame) (inp : Inputs)
  : result (DataFrame * option DataFrame) :=
  let combined := combine daily_data input_data in
  flt ← filtered combined (kom_filter inp) (ting_filter inp) (prov_filter inp);
  rekap ← sort_values "Tanggal" flt;
  let combined := combine daily_data input_data in
  '(min_date, max_date) ← default_range combined (today inp);
  let '(start_date, end_date) :=
    chosen_range (date_range inp) min_date max_date in
  plot ← plot_df combined (kom_plot inp) (ting_plot inp) (prov_plot inp)
           start_date end_date;
  chart ← (if df_empty plot then Ok None
           else Some <$> sort_values "Tanggal" plot);
  mret (rekap, chart).

(** [main]: the store after the run, and what the run displays ([Ok None]
    is the message that the data file is not found).  A failure stops the
    run where it occurs: what was written before stays written. *)
Definition main (data_file : option Workbook) (store : Store) (inp : Inputs)
  : Store * result (option Page) :=
  match data_file with
  | None => (store, Ok None)
  | Some wb =>
      match (choice ← load_choice wb;
             daily_data ← load_daily_data wb;
             input_data ← load_input_data store;
             mret (choice, daily_data, input_data)) with
      | Raise e => (store, Raise e)
      | Ok (_, daily_data, input_data) =>
          match (match submitted inp with
                 | Some f => submit f store
                 | None => Ok store
                 end) with
          | Raise e => (store, Raise e)
          | Ok store' =>
              (store',
               saved ← load_input_data store';
               '(rekap, chart) ← tabs daily_data input_data inp;
               mret (Some {| saved_table := saved; rekap_table := rekap;
                             chart_table := chart |}))
          end
      end
  end.

(** The store after forms are submitted one after the other, each in a run
    of its own. *)
Fixpoint submit_all (fs : list Form) (store : Store) : result Store :=
  match fs with
  | [] => Ok store
  | f :: fs' => store' ← submit f store; submit_all fs' store'
  end.

(** The inputs of a run, with the form that is submitted (or none). *)
Definition with_submitted (o : option Form) (inp : Inputs) : Inputs :=
  {| submitted := o;
     kom_filter := kom_filter inp; ting_filter := ting_filter inp;
     prov_filter := prov_filter inp;
     kom_plot := kom_plot inp; ting_plot := ting_plot inp;
     prov_plot := prov_plot inp;
     date_range := date_range inp; today := today inp |}.

End App.

(** ** What the text conversions are assumed to satisfy

    [to_csv] writes a number and a date as texts that [read_csv] reads back
    as the same number and date, and that it does not take for a missing
    value; the empty field is a missing value. *)
Class PyLibLaws (L : PyLib) : Prop := {
  csv_na_empty : csv_na "" = true;
  csv_na_num_str : ∀ x, csv_na (num_str x) = false;
  csv_number_num_str : ∀ x, csv_number (num_str x) = Some x;
  csv_na_date_str : ∀ d, csv_na (date_str d) = false;
  csv_datetime_date_str :
    ∀ d0 d, csv_datetime (date_str d0) (date_str d) = Some (mkTimestamp d 0);
}.

(** What [argsort] is assumed to return, whatever its algorithm: the
    positions of the keys, each once, in an order in which the keys
    ascend. *)
Class ArgsortSorts (S : Argsort) : Prop :=
  argsort_sorts : ∀ keys : list date,
    argsort keys ≡ₚ seq 0 (length keys)
    ∧ StronglySorted Z.le (omap (λ i, keys !! i) (argsort keys)).

(** * The sort behind [sort_values]

    [DataFrame.sort_values] is called without [kind], so the keys that are
    not missing are ordered by [numpy.argsort(kind="quicksort")].  On an
    array of Python objects (the dates of the column "Tanggal") that is
    numpy's generic introsort on an array of positions, [npy_aquicksort]:
    median-of-three quicksort on the segments longer than 16, insertion
    sort on the others, and heapsort on a segment that is reached after
    more than [2 * floor(log2 n)] partitions.  It is transcribed here with
    the names of the C code. *)

Module Numpy.
Section Sort.
(** the keys, [v] *)
Variable v : list Z.

Definition key (i : nat) : Z := default 0 (v !! i).

(** [cmp(v + a*elsize, v + b*elsize, arr) < 0] *)
Definition less (a b : nat) : bool := bool_decide (key a < key b).

(** [tosort[p]] *)
Definition get (tosort : list nat) (p : nat) : nat :=
  default 0%nat (tosort !! p).

Definition INTP_SWAP (tosort : list nat) (p q : nat) : list nat :=
  <[q := get tosort p]> (<[p := get tosort q]> tosort).

Definition SMALL_QUICKSORT : nat := 16.

(** [do { ++pi; } while (cmp(v[*pi], vp) < 0);] *)
Fixpoint scan_up (fuel : nat) (a : list nat) (vp pi : nat) : nat :=
  match fuel with
  | O => pi
  | S fuel' =>
      let pi' := S pi in
      if less (get a pi') vp then scan_up fuel' a vp pi' else pi'
  end.

(** [do { --pj; } while (cmp(vp, v[*pj]) < 0);] *)
Fixpoint scan_down (fuel : nat) (a : list nat) (vp pj : nat) : nat :=
  match fuel with
  | O => pj
  | S fuel' =>
      let pj' := pred pj in
      if less vp (get a pj') then scan_down fuel' a vp pj' else pj'
  end.

(** [for (;;) { scan up; scan down; if (pi >= pj) break;
    swap the two positions; }] *)
Fixpoint partition_loop (fuel : nat) (a : list nat) (vp pi pj : nat)
  : list nat * nat :=
  match fuel with
  | O => (a, pi)
  | S fuel' =>
      let pi' := scan_up (length a) a vp pi in
      let pj' := scan_down (length a) a vp pj in
      if (pj' <=? pi')%nat then (a, pi')
      else partition_loop fuel' (INTP_SWAP a pi' pj') vp pi' pj'
  end.

(** The partition of the segment [pl..pr]: the rearranged array and the
    final place [pi] of the pivot. *)
Definition partition (a : list nat) (pl pr : nat) : list nat * nat :=
  let pm := (pl + (pr - pl) / 2)%nat in
  let a := if less (get a pm) (get a pl) then INTP_SWAP a pm pl else a in
  let a := if less (get a pr) (get a pm) then INTP_SWAP a pr pm else a in
  let a := if less (get a pm) (get a pl) then INTP_SWAP a pm pl else a in
  let vp := get a pm in
  let pj := (pr - 1)%nat in
  let a := INTP_SWAP a pm pj in
  let '(a, pi) := partition_loop (length a) a vp pl pj in
  (INTP_SWAP a pi (pr - 1), pi).

(** [while (pj > pl && cmp(vp, v[*pk]) < 0) { *pj-- = *pk--; } *pj = vi;] *)
Fixpoint shift_down (fuel : nat) (a : list nat) (vi pl pj : nat) : list nat :=
  match fuel with
  | O => <[pj := vi]> a
  | S fuel' =>
      if bool_decide (pl < pj)%nat && less vi (get a (pj - 1))
      then shift_down fuel' (<[pj := get a (pj - 1)]> a) vi pl (pj - 1)
      else <[pj := vi]> a
  end.

(** [for (pi = pl + 1; pi <= pr; ++pi) { ... }] *)
Fixpoint insertion_loop (n : nat) (a : list nat) (pl pi : nat) : list nat :=
  match n with
  | O => a
  | S n' =>
      insertion_loop n' (shift_down (length a) a (get a pi) pl pi) pl (S pi)
  end.

Definition insertion_sort (a : list nat) (pl pr : nat) : list nat :=
  insertion_loop (pr - pl) a pl (S pl).

(** [npy_aheapsort] on the segment that starts at [pl]: [a = tosort - 1],
    so that its positions count from 1. *)
Definition hget (a : list nat) (pl k : nat) : nat := get a (pl + k - 1).
Definition hset (a : list nat) (pl k x : nat) : list nat :=
  <[(pl + k - 1)%nat := x]> a.

(** [for (; j <= n;) { if (j < n && a[j] < a[j+1]) j += 1;
    if (tmp < a[j]) { a[i] = a[j]; i = j; j += j; } else break; }
    a[i] = tmp;] *)
Fixpoint sift (fuel : nat) (a : list nat) (pl n tmp i j : nat) : list nat :=
  match fuel with
  | O => hset a pl i tmp
  | S fuel' =>
      if (j <=? n)%nat then
        let j := if (j <? n)%nat && less (hget a pl j) (hget a pl (j + 1))
                 then (j + 1)%nat else j in
        if less tmp (hget a pl j)
        then sift fuel' (hset a pl i (hget a pl j)) pl n tmp j (j + j)
        else hset a pl i tmp
      else hset a pl i tmp
  end.

(** [for (l = n >> 1; l > 0; --l) { tmp = a[l]; sift from l }] *)
Fixpoint heapify (l : nat) (a : list nat) (pl n : nat) : list nat :=
  match l with
  | O => a
  | S l' => heapify l' (sift n a pl n (hget a pl l) l (l * 2)) pl n
  end.

(** [for (; n > 1;) { tmp = a[n]; a[n] = a[1]; n -= 1; sift from 1 }] *)
Fixpoint extract (n : nat) (a : list nat) (pl : nat) : list nat :=
  match n with
  | O => a
  | S n' =>
      match n' with
      | O => a
      | S _ =>
          let tmp := hget a pl n in
          let a := hset a pl n (hget a pl 1) in
          extract n' (sift n' a pl n' tmp 1 2) pl
      end
  end.

Definition heapsort (a : list nat) (pl pr : nat) : list nat :=
  let n := (pr - pl + 1)%nat in
  extract n (heapify (n / 2) a pl n) pl.

(** The loop of [npy_aquicksort] on the segment [pl..pr]: while it is
    longer than [SMALL_QUICKSORT] it is partitioned, the larger part is
    pushed on the stack with the decremented depth and the smaller part
    is continued with; a part that is popped from the stack is heap
    sorted when its depth is negative. *)
Fixpoint quicksort (fuel : nat) (a : list nat) (pl pr : nat) (cdepth : Z)
  : list nat :=
  match fuel with
  | O => a
  | S fuel' =>
      if (SMALL_QUICKSORT <? pr - pl)%nat then
        let '(a, pi) := partition a pl pr in
        let cdepth := cdepth - 1 in
        let '(sl, sr, ll, lr) :=
          if (pi - pl <? pr - pi)%nat
          then (pl, (pi - 1)%nat, (pi + 1)%nat, pr)
          else ((pi + 1)%nat, pr, pl, (pi - 1)%nat) in
        let a := quicksort fuel' a sl sr cdepth in
        if cdepth <? 0 then heapsort a ll lr
        else quicksort fuel' a ll lr cdepth
      else insertion_sort a pl pr
  end.

(** [np.argsort(v, kind="quicksort")]: [tosort] starts as [0..num-1] and
    the depth as [2 * npy_get_msb(num)]. *)
Definition argsort : list nat :=
  let num := length v in
  match num with
  | O => []
  | S _ => quicksort (S num) (seq 0 num) 0 (num - 1) (2 * Z.log2 (Z.of_nat num))
  end.
End Sort.
End Numpy.

(** * An instance of the text conversions

    For the examples below: numbers are integers, written in decimal; a date
    is written as the letter D followed by its ordinal; the markers of a
    missing value and the booleans are those of [read_csv]. *)

Module Example.

Definition na_values : list string :=
  [""; "#N/A"; "#N/A N/A"; "#NA"; "-1.#IND"; "-1.#QNAN"; "-NaN"; "-nan";
   "1.#IND"; "1.#QNAN"; "<NA>"; "N/A"; "NA"; "NULL"; "NaN"; "None"; "n/a";
   "nan"; "null"].

Definition text_of_Z (z : Z) : string :=
  DecimalString.NilZero.string_of_int (Z.to_int z).

Definition Z_of_text (s : string) : option Z :=
  Z.of_int <$> DecimalString.NilZero.int_of_string s.

Definition text_of_date (d : date) : string := String "D" (text_of_Z d).

Definition date_of_text (s : string) : option Timestamp :=
  match s with
  | String "D" s' => (λ d, mkTimestamp d 0) <$> Z_of_text s'
  | _ => None
  end.

Definition bool_of_text (s : string) : option bool :=
  if bool_decide (s ∈ ["True"; "TRUE"; "true"]) then Some true
  else if bool_decide (s ∈ ["False"; "FALSE"; "false"]) then Some false
  else None.

Definition white_space (a : ascii) : bool :=
  bool_decide (nat_of_ascii a ∈ [9; 10; 11; 12; 13; 28; 29; 30; 31; 32]%nat).

(** The conversions. *)
#[export] Instance lib : PyLib :=
  {| number := Z;
     num_nonneg := λ x, bool_decide (0 ≤ x);
     num_of_bool := λ b, if b then 1 else 0;
     num_str := text_of_Z;
     date_str := text_of_date;
     stamp_str := λ t, String.append (text_of_date (ts_date t))
                         (String "T" (text_of_Z (ts_time t)));
     to_numeric_str := Z_of_text;
     csv_number := Z_of_text;
     csv_bool := bool_of_text;
     csv_na := λ s, bool_decide (s ∈ na_values);
     csv_datetime := λ _ s, date_of_text s;
     isspace := white_space |}.

(** numpy's sort, as the program runs. *)
Definition numpy_argsort : Argsort := Numpy.argsort.

(** A merge sort of the positions by their keys. *)
Definition key_le (p q : Z * nat) : Prop := (p.1 ≤ q.1)%Z.

#[global] Instance key_le_dec : RelDecision key_le.
Proof. intros p q. unfold key_le. apply _. Defined.

Definition merge_argsort : Argsort := λ keys,
  snd <$> merge_sort key_le (zip keys (seq 0 (length keys))).

(** ** Example data *)

Definition jan1 : Timestamp := mkTimestamp 739617 0.
Definition jan2 : Timestamp := mkTimestamp 739618 0.

(** A sheet with three rows and two date columns; one price is blank, one
    is a text that is not a number, one is negative. *)
Definition jan : Sheet :=
  {| sheet_columns :=
       [LStr " "; LStr "Komoditi"; LStr "Tingkat"; LStr "Prov/Kab/Kota";
        LStamp jan1; LStamp jan2];
     sheet_rows :=
       [[Some (VStr "SP2KP"); Some (VStr "Beras"); Some (VStr "Eceran");
         Some (VStr "Kalbar"); Some (VNum 15000); None];
        [Some (VStr "SP2KP"); Some (VStr "Gula"); Some (VStr "Eceran");
         Some (VStr "Kalbar"); Some (VStr "-"); Some (VNum 17500)];
        [Some (VStr "SP2KP"); Some (VStr "Telur"); Some (VStr "Grosir");
         Some (VStr "Pontianak"); Some (VNum (-5)); Some (VStr "28000")]] |}.

(** A sheet with three rows and no date column. *)
Definition feb : Sheet :=
  {| sheet_columns :=
       [LStr " "; LStr "Komoditi"; LStr "Tingkat"; LStr "Prov/Kab/Kota"];
     sheet_rows :=
       [[Some (VStr "SP2KP"); Some (VStr "Beras"); Some (VStr "Eceran");
         Some (VStr "Kalbar")];
        [Some (VStr "SP2KP"); Some (VStr "Gula"); Some (VStr "Eceran");
         Some (VStr "Kalbar")];
        [Some (VStr "SP2KP"); Some (VStr "Telur"); Some (VStr "Grosir");
         Some (VStr "Pontianak")]] |}.

(** The sheet of the reference values, with repeated and missing cells. *)
Definition choice : Sheet :=
  {| sheet_columns := [LStr "komoditi"; LStr "tingkatan"; LStr "Provinsi"];
     sheet_rows :=
       [[Some (VStr "Beras"); Some (VStr "Eceran"); Some (VStr "Kalbar")];
        [Some (VStr "Gula"); Some (VStr "Grosir"); Some (VStr "Pontianak")];
        [Some (VStr "Beras"); None; Some (VStr "Kalbar")];
        [Some (VStr "Telur"); None; None]] |}.

Definition workbook : gmap string Sheet :=
  {[ "choice" := choice; "jan26" := jan; "feb26" := feb ]}.

(** A price observation. *)
Definition observation (sumber komoditi tingkat provinsi : string)
    (tanggal : date) (harga : Z) : gmap string value :=
  list_to_map
    [("Sumber", VStr sumber); ("Komoditi", VStr komoditi);
     ("Tingkat", VStr tingkat); ("Provinsi", VStr provinsi);
     ("Tanggal", VDate tanggal); ("Harga", VNum harga)].

(** A combined view of four rows. *)
Definition combined : DataFrame :=
  {| columns := canonical_columns;
     rows := [observation "SP2KP" "Beras" "Eceran" "Kalbar" 739618 15100;
              observation "SP2KP" "Gula" "Eceran" "Kalbar" 739617 17500;
              observation "SP2KP" "Beras" "Eceran" "Kalbar" 739617 15000;
              observation "Test" "Beras" "Eceran" "Kalbar" 739676 15200] |}.

(** Eighteen observations of the same day, with the prices 0 to 17. *)
Definition same_day : DataFrame :=
  {| columns := canonical_columns;
     rows := (λ i : nat, observation "SP2KP" "Beras" "Eceran" "Kalbar" 739617
                           (Z.of_nat i)) <$> seq 0 18 |}.

(** The form of the scenario of the specification. *)
Definition form_test : Form :=
  {| komoditi_val := "Beras"; harga_val := 15000; tingkat_val := "Eceran";
     tanggal_val := 739676; provinsi_val := "DKI Jakarta";
     sumber_val := " Test " |}.

(** The same form with a source left blank. *)
Definition form_blank : Form :=
  {| komoditi_val := "Beras"; harga_val := 15000; tingkat_val := "Eceran";
     tanggal_val := 739676; provinsi_val := "DKI Jakarta";
     sumber_val := "  " |}.

(** The row that is read back after the blank form is submitted: it has no
    source. *)
Definition blank_read_back : gmap string value :=
  list_to_map
    [("Komoditi", VStr "Beras"); ("Tingkat", VStr "Eceran");
     ("Provinsi", VStr "DKI Jakarta"); ("Tanggal", VDate 739676);
     ("Harga", VNum 15000)].




End Example.

(** ** Example runs *)

Module ExampleRun.
Import Example.

(** What the widgets return in a run of the example: one commodity in the
    table tab, two in the chart, the first two days of January as range,
    nothing submitted. *)
Definition inputs : Inputs :=
  {| submitted := None;
     kom_filter := ["Beras"]; ting_filter := ["Eceran"];
     prov_filter := ["Kalbar"];
     kom_plot := ["Beras"; "Gula"]; ting_plot := ["Eceran"];
     prov_plot := ["Kalbar"];
     date_range := [739617; 739618]; today := 739700 |}.

(** A row that is read from a line of the store whose date is empty. *)
Definition undated_row : gmap string value :=
  list_to_map
    [("Sumber", VStr "Test"); ("Komoditi", VStr "Beras");
     ("Tingkat", VStr "Eceran"); ("Provinsi", VStr "Kalbar");
     ("Harga", VNum 15000)].

Definition undated : DataFrame :=
  {| columns := canonical_columns; rows := [undated_row] |}.

Definition no_table : DataFrame := {| columns := []; rows := [] |}.

End ExampleRun.

(** ** What the parts of the sort establish *)

Module NumpySpec.
Import Numpy.
Section Sort.
(** the keys, [v] *)
Variable v : list Z.

(** [a'] is [a] rearranged within the places [lo..hi]. *)
Definition rearranged (a a' : list nat) (lo hi : nat) : Prop :=
  a' ≡ₚ a ∧ ∀ p, (p < lo ∨ hi < p)%nat → a' !! p = a !! p.

(** The keys ascend on the places [lo..hi]. *)
Definition ascending (a : list nat) (lo hi : nat) : Prop :=
  ∀ p q, (lo ≤ p)%nat → (p ≤ q)%nat → (q ≤ hi)%nat →
    key v (get a p) ≤ key v (get a q).

(** The node [k] of the heap of size [n] that starts at the place [pl] is
    not below its children. *)
Definition heap_ok (pl : nat) (a : list nat) (n k : nat) : Prop :=
  ((2 * k ≤ n)%nat → key v (hget a pl (2 * k)) ≤ key v (hget a pl k))
  ∧ ((2 * k + 1 ≤ n)%nat →
     key v (hget a pl (2 * k + 1)) ≤ key v (hget a pl k)).

End Sort.
End NumpySpec.

(** * The sort behind [sort_values] sorts

    [Numpy.argsort] returns the positions of the keys, each once, in an
    order in which the keys ascend: the partition, the insertion sort and
    the heap sort are verified on the array of positions. *)

Module NumpyFacts.
Import Numpy NumpySpec.
Local Open Scope nat_scope.

Section Sort.
Variable v : list Z.

(** The key at a place of the array of positions. *)
Local Abbreviation kat a p := (key v (get a p)).

(** ** Reading and writing the array *)

Lemma get_insert (a : list nat) (i j x : nat) :
  get (<[i := x]> a) j = if decide (i = j ∧ i < length a) then x else get a j.
Proof. unfold get. rewrite list_lookup_insert. by case_decide. Qed.

Lemma get_lookup (a : list nat) (p : nat) :
  p < length a → a !! p = Some (get a p).
Proof.
  intros Hp. unfold get. by destruct (lookup_lt_is_Some_2 a p Hp) as [x ->].
Qed.

Lemma get_swap (a : list nat) (p q r : nat) :
  p < length a → q < length a →
  get (INTP_SWAP a p q) r
  = if decide (r = q) then get a p else if decide (r = p) then get a q
    else get a r.
Proof.
  intros Hp Hq. unfold INTP_SWAP. rewrite !get_insert, length_insert.
  repeat case_decide; try done; lia.
Qed.

Lemma lookup_swap_ne (a : list nat) (p q r : nat) :
  r ≠ p → r ≠ q → INTP_SWAP a p q !! r = a !! r.
Proof.
  intros Hp Hq. unfold INTP_SWAP. by rewrite !list_lookup_insert_ne.
Qed.

Lemma length_swap (a : list nat) (p q : nat) :
  length (INTP_SWAP a p q) = length a.
Proof. unfold INTP_SWAP. by rewrite !length_insert. Qed.

(** Overwriting a place replaces one element by another. *)
Lemma insert_Permutation (a : list nat) (i x y : nat) :
  a !! i = Some x → x :: <[i := y]> a ≡ₚ y :: a.
Proof.
  revert i. induction a as [|z a IH]; intros [|i] Hi; try done.
  - injection Hi as ->. simpl. apply perm_swap.
  - simpl in *. rewrite (perm_swap z x), (IH i Hi). apply perm_swap.
Qed.

Lemma swap_Permutation (a : list nat) (p q : nat) :
  p < length a → q < length a → INTP_SWAP a p q ≡ₚ a.
Proof.
  intros Hp Hq. unfold INTP_SWAP.
  apply (Permutation_cons_inv (a := get a q)).
  pose proof (insert_Permutation a p (get a p) (get a q) (get_lookup a p Hp)) as H1.
  assert (H2 : <[p := get a q]> a !! q = Some (get a q)).
  { rewrite list_lookup_insert. case_decide; [done|]. by apply get_lookup. }
  pose proof (insert_Permutation _ q _ (get a p) H2) as H3.
  rewrite H3, H1. done.
Qed.

(** ** Segments of the array *)

Lemma rearranged_refl a lo hi : rearranged a a lo hi.
Proof. by split. Qed.

Lemma rearranged_trans a a1 a2 lo hi :
  rearranged a a1 lo hi → rearranged a1 a2 lo hi → rearranged a a2 lo hi.
Proof.
  intros [H1 H2] [H3 H4]. split; [by rewrite H3|].
  intros p Hp. by rewrite H4, H2.
Qed.

Lemma rearranged_mono a a' lo hi lo' hi' :
  lo' ≤ lo → hi ≤ hi' → rearranged a a' lo hi → rearranged a a' lo' hi'.
Proof. intros ?? [H1 H2]. split; [done|]. intros p Hp. apply H2. lia. Qed.

Lemma rearranged_length a a' lo hi :
  rearranged a a' lo hi → length a' = length a.
Proof. intros [H _]. by rewrite H. Qed.

Lemma rearranged_get a a' lo hi p :
  rearranged a a' lo hi → p < lo ∨ hi < p → get a' p = get a p.
Proof. intros [_ H] Hp. unfold get. by rewrite H. Qed.

(** An element of the segment after the rearrangement is an element of the
    segment before. *)
Lemma rearranged_from a a' lo hi p :
  NoDup a → rearranged a a' lo hi → hi < length a → lo ≤ p → p ≤ hi →
  ∃ q, lo ≤ q ∧ q ≤ hi ∧ get a' p = get a q.
Proof.
  intros Hnd [Hperm Hout] Hhi Hlo Hp.
  assert (Hlen : length a' = length a) by by rewrite Hperm.
  assert (Hnd' : NoDup a') by by rewrite Hperm.
  assert (Hp' : a' !! p = Some (get a' p)) by (apply get_lookup; lia).
  assert (Hin : get a' p ∈ a).
  { rewrite <-Hperm. by eapply list_elem_of_lookup_2. }
  apply list_elem_of_lookup_1 in Hin as [q Hq].
  exists q. destruct (decide (lo ≤ q ∧ q ≤ hi)) as [[??]|Hn].
  - split_and!; [done..|]. unfold get at 2. by rewrite Hq.
  - assert (Hq' : a' !! q = Some (get a' p)) by (rewrite Hout; [done|lia]).
    pose proof (NoDup_lookup _ _ _ _ Hnd' Hp' Hq'). lia.
Qed.

Lemma rearranged_le a a' lo hi (K : Z) :
  NoDup a → rearranged a a' lo hi → hi < length a →
  (∀ q, lo ≤ q → q ≤ hi → (kat a q ≤ K)%Z) →
  ∀ p, lo ≤ p → p ≤ hi → (kat a' p ≤ K)%Z.
Proof.
  intros Hnd Hr Hhi Hall p Hlo Hp.
  destruct (rearranged_from a a' lo hi p Hnd Hr Hhi Hlo Hp) as (q & ? & ? & ->).
  by apply Hall.
Qed.

Lemma rearranged_ge a a' lo hi (K : Z) :
  NoDup a → rearranged a a' lo hi → hi < length a →
  (∀ q, lo ≤ q → q ≤ hi → (K ≤ kat a q)%Z) →
  ∀ p, lo ≤ p → p ≤ hi → (K ≤ kat a' p)%Z.
Proof.
  intros Hnd Hr Hhi Hall p Hlo Hp.
  destruct (rearranged_from a a' lo hi p Hnd Hr Hhi Hlo Hp) as (q & ? & ? & ->).
  by apply Hall.
Qed.

Lemma rearranged_NoDup a a' lo hi : NoDup a → rearranged a a' lo hi → NoDup a'.
Proof. intros Hnd [Hperm _]. by rewrite Hperm. Qed.

Lemma less_spec (x y : nat) : less v x y = true ↔ (key v x < key v y)%Z.
Proof. unfold less. by rewrite bool_decide_eq_true. Qed.

Lemma less_false (x y : nat) : less v x y = false ↔ (key v y ≤ key v x)%Z.
Proof. unfold less. rewrite bool_decide_eq_false. lia. Qed.

(** ** Insertion sort *)

Lemma shift_down_spec (pl hi vi : nat) (fuel : nat) :
  ∀ (a : list nat) (pj : nat),
    pl ≤ pj → pj ≤ hi → hi < length a → pj - pl ≤ fuel →
    (∀ p q, pl ≤ p → p ≤ q → q < pj → (kat a p ≤ kat a q)%Z) →
    (∀ p q, pj < p → p ≤ q → q ≤ hi → (kat a p ≤ kat a q)%Z) →
    (∀ q, pj < q → q ≤ hi → (key v vi < kat a q)%Z) →
    (∀ p q, pl ≤ p → p < pj → pj < q → q ≤ hi → (kat a p ≤ kat a q)%Z) →
    rearranged (<[pj := vi]> a) (shift_down v fuel a vi pl pj) pl hi
    ∧ ascending v (shift_down v fuel a vi pl pj) pl hi.
Proof.
  assert (Hstop : ∀ (a : list nat) (pj : nat),
    pl ≤ pj → pj ≤ hi → hi < length a →
    (pl < pj → (kat a (pj - 1) ≤ key v vi)%Z) →
    (∀ p q, pl ≤ p → p ≤ q → q < pj → (kat a p ≤ kat a q)%Z) →
    (∀ p q, pj < p → p ≤ q → q ≤ hi → (kat a p ≤ kat a q)%Z) →
    (∀ q, pj < q → q ≤ hi → (key v vi < kat a q)%Z) →
    (∀ p q, pl ≤ p → p < pj → pj < q → q ≤ hi → (kat a p ≤ kat a q)%Z) →
    ascending v (<[pj := vi]> a) pl hi).
  { intros a pj Hpl Hhi Hlen Hstop Hlo Hup Hgt Hcross p q Hp Hpq Hq.
    rewrite !get_insert.
    destruct (decide (p = pj)) as [->|Hpj], (decide (q = pj)) as [->|Hqj];
      repeat case_decide; try lia.
    - specialize (Hgt q). lia.
    - specialize (Hlo p (pj - 1)). lia.
    - destruct (decide (q < pj)); [apply Hlo; lia|].
      destruct (decide (pj < p)); [apply Hup; lia|]. apply Hcross; lia. }
  induction fuel as [|fuel IH]; intros a pj Hpl Hhi Hlen Hfuel Hlo Hup Hgt Hcross.
  - simpl. split; [apply rearranged_refl|]. apply Hstop; try done. lia.
  - cbn [shift_down].
    destruct (bool_decide (pl < pj) && less v vi (get a (pj - 1))) eqn:Htest.
    + apply andb_true_iff in Htest as [Hlt Hless].
      apply bool_decide_eq_true in Hlt. apply less_spec in Hless.
      destruct (IH (<[pj := get a (pj - 1)]> a) (pj - 1)) as [Hr Ha].
      * lia.
      * lia.
      * by rewrite length_insert.
      * lia.
      * intros p q ???. rewrite !get_insert. repeat case_decide; try lia.
        apply Hlo; lia.
      * intros p q ???. rewrite !get_insert. repeat case_decide; try lia.
        -- apply Hcross; lia.
        -- apply Hup; lia.
      * intros q ??. rewrite !get_insert. repeat case_decide; try lia.
        apply Hgt; lia.
      * intros p q ????. rewrite !get_insert. repeat case_decide; try lia.
        -- apply Hlo; lia.
        -- apply Hcross; lia.
      * split; [|done]. eapply rearranged_trans; [|exact Hr].
        assert (<[pj - 1 := vi]> (<[pj := get a (pj - 1)]> a)
                = INTP_SWAP (<[pj := vi]> a) pj (pj - 1)) as ->.
        { unfold INTP_SWAP. rewrite !get_insert.
          rewrite decide_True, decide_False by lia.
          f_equal. rewrite list_insert_insert. by rewrite decide_True. }
        split.
        -- apply swap_Permutation; rewrite length_insert; lia.
        -- intros p Hp. apply lookup_swap_ne; lia.
    + split; [apply rearranged_refl|]. apply Hstop; try done.
      intros Hlt. apply andb_false_iff in Htest as [Htest|Htest].
      * apply bool_decide_eq_false in Htest. lia.
      * by apply less_false in Htest.
Qed.

Lemma insertion_loop_spec (pl pr : nat) (n : nat) :
  ∀ (a : list nat) (pi : nat),
    pl < pi → pi + n = S pr → pr < length a →
    ascending v a pl (pi - 1) →
    rearranged a (insertion_loop v n a pl pi) pl pr
    ∧ ascending v (insertion_loop v n a pl pi) pl pr.
Proof.
  induction n as [|n IH]; intros a pi Hpl Hn Hlen Hasc.
  - simpl. split; [apply rearranged_refl|].
    intros p q ???. apply Hasc; lia.
  - cbn [insertion_loop].
    destruct (shift_down_spec pl pi (get a pi) (length a) a pi) as [Hr Ha];
      try lia.
    + intros p q ???. apply Hasc; lia.
    + rewrite list_insert_id in Hr by (apply get_lookup; lia).
      destruct (IH (shift_down v (length a) a (get a pi) pl pi) (S pi))
        as [Hr' Ha'].
      * lia.
      * lia.
      * rewrite (rearranged_length _ _ _ _ Hr). lia.
      * intros p q ???. apply Ha; lia.
      * split; [|done]. eapply rearranged_trans; [|exact Hr'].
        eapply rearranged_mono; [| |exact Hr]; lia.
Qed.

Lemma insertion_sort_spec (a : list nat) (pl pr : nat) :
  pl ≤ pr → pr < length a →
  rearranged a (insertion_sort v a pl pr) pl pr
  ∧ ascending v (insertion_sort v a pl pr) pl pr.
Proof.
  intros Hpl Hlen. unfold insertion_sort.
  apply insertion_loop_spec; try lia.
  intros p q ???. assert (p = q) as -> by lia. lia.
Qed.

(** ** The partition *)

(** The scan to the right stops at the latest at a place [s] whose key is
    not below the pivot's. *)
Lemma scan_up_spec (a : list nat) (vp s : nat) (fuel : nat) :
  ∀ pi, pi < s → s - pi ≤ fuel → (key v vp ≤ kat a s)%Z →
    pi < scan_up v fuel a vp pi ∧ scan_up v fuel a vp pi ≤ s
    ∧ (key v vp ≤ kat a (scan_up v fuel a vp pi))%Z
    ∧ ∀ p, pi < p → p < scan_up v fuel a vp pi → (kat a p < key v vp)%Z.
Proof.
  induction fuel as [|fuel IH]; intros pi Hs Hfuel Hstop; [lia|].
  cbn [scan_up]. destruct (less v (get a (S pi)) vp) eqn:Hless.
  - apply less_spec in Hless.
    destruct (decide (S pi = s)) as [<-|Hne]; [lia|].
    destruct (IH (S pi)) as (H1 & H2 & H3 & H4); [lia..|done|].
    split_and!; [lia|done|done|].
    intros p Hp1 Hp2. destruct (decide (p = S pi)) as [->|]; [done|].
    apply H4; lia.
  - apply less_false in Hless. split_and!; [lia|lia|done|]. intros p ??. lia.
Qed.

(** The scan to the left stops at the latest at a place [s] whose key is
    not above the pivot's. *)
Lemma scan_down_spec (a : list nat) (vp s : nat) (fuel : nat) :
  ∀ pj, s < pj → pj - s ≤ fuel → (kat a s ≤ key v vp)%Z →
    s ≤ scan_down v fuel a vp pj ∧ scan_down v fuel a vp pj < pj
    ∧ (kat a (scan_down v fuel a vp pj) ≤ key v vp)%Z
    ∧ ∀ p, scan_down v fuel a vp pj < p → p < pj → (key v vp < kat a p)%Z.
Proof.
  induction fuel as [|fuel IH]; intros pj Hs Hfuel Hstop; [lia|].
  cbn [scan_down]. destruct (less v vp (get a (pred pj))) eqn:Hless.
  - apply less_spec in Hless.
    destruct (decide (pred pj = s)) as [<-|Hne]; [lia|].
    destruct (IH (pred pj)) as (H1 & H2 & H3 & H4); [lia..|done|].
    split_and!; [done|lia|done|].
    intros p Hp1 Hp2. destruct (decide (p = pred pj)) as [->|]; [done|].
    apply H4; lia.
  - apply less_false in Hless. split_and!; [lia|lia|done|]. intros p ??. lia.
Qed.

Lemma partition_loop_spec (pl pr vp : nat) (fuel : nat) :
  ∀ (a : list nat) (pi pj : nat),
    pl ≤ pi → pi < pj → pj < pr → pr < length a → pj - pi < fuel →
    get a (pr - 1) = vp →
    (∀ p, pl ≤ p → p ≤ pi → (kat a p ≤ key v vp)%Z) →
    (∀ p, pj ≤ p → p ≤ pr → (key v vp ≤ kat a p)%Z) →
    let r := partition_loop v fuel a vp pi pj in
    rearranged a r.1 (S pl) (pr - 2)
    ∧ pl < r.2 ∧ r.2 < pr
    ∧ (∀ p, pl ≤ p → p < r.2 → (kat r.1 p ≤ key v vp)%Z)
    ∧ (∀ p, r.2 ≤ p → p ≤ pr → (key v vp ≤ kat r.1 p)%Z).
Proof.
  induction fuel as [|fuel IH]; intros a pi pj Hpl Hij Hjr Hlen Hfuel Hpiv Hle Hge;
    [lia|].
  cbn [partition_loop].
  destruct (scan_up_spec a vp pj (length a) pi) as (Hu1 & Hu2 & Hu3 & Hu4);
    [lia|lia|apply Hge; lia|].
  destruct (scan_down_spec a vp pi (length a) pj) as (Hd1 & Hd2 & Hd3 & Hd4);
    [lia|lia|apply Hle; lia|].
  set (pi' := scan_up v (length a) a vp pi) in *.
  set (pj' := scan_down v (length a) a vp pj) in *.
  destruct (pj' <=? pi') eqn:Hcmp.
  - apply Nat.leb_le in Hcmp. cbn [fst snd]. split_and!.
    + apply rearranged_refl.
    + lia.
    + lia.
    + intros p ??. destruct (decide (p ≤ pi)); [apply Hle; lia|].
      specialize (Hu4 p). lia.
    + intros p ??. destruct (decide (p = pi')) as [->|]; [done|].
      destruct (decide (pj ≤ p)); [apply Hge; lia|].
      specialize (Hd4 p). lia.
  - apply Nat.leb_gt in Hcmp.
    destruct (IH (INTP_SWAP a pi' pj') pi' pj') as (Hr & H1 & H2 & H3 & H4).
    + lia.
    + lia.
    + lia.
    + by rewrite length_swap.
    + lia.
    + rewrite get_swap by lia. rewrite !decide_False by lia. done.
    + intros p ??. rewrite get_swap by lia. repeat case_decide; try lia.
      destruct (decide (p ≤ pi)); [apply Hle; lia|].
      specialize (Hu4 p). lia.
    + intros p ??. rewrite get_swap by lia. repeat case_decide; try lia.
      destruct (decide (pj ≤ p)); [apply Hge; lia|].
      specialize (Hd4 p). lia.
    + split_and!; try done.
      eapply rearranged_trans; [|exact Hr]. split.
      * apply swap_Permutation; lia.
      * intros p Hp. apply lookup_swap_ne; lia.
Qed.

(** A swap of two places made when their keys are out of order. *)
Lemma cswap_spec (b : list nat) (p q : nat) :
  p ≠ q → p < length b → q < length b →
  let b' := if less v (get b p) (get b q) then INTP_SWAP b p q else b in
  (kat b' q ≤ kat b' p)%Z
  ∧ ((kat b' p = kat b p ∧ kat b' q = kat b q)
     ∨ (kat b' p = kat b q ∧ kat b' q = kat b p))
  ∧ ∀ r, r ≠ p → r ≠ q → kat b' r = kat b r.
Proof.
  intros Hpq Hp Hq. simpl. destruct (less v (get b p) (get b q)) eqn:E.
  - apply less_spec in E. rewrite !get_swap by lia.
    rewrite !decide_True, !decide_False by lia. rewrite decide_True by lia.
    split_and!; [lia|by right|].
    intros r ??. rewrite get_swap by lia. by rewrite !decide_False.
  - apply less_false in E. split_and!; [lia|by left|done].
Qed.

(** The partition of a segment of more than two places: the pivot ends at
    the place [pi] inside the segment, the keys before it are not above
    the pivot's and the keys after it are not below. *)
Lemma partition_spec (a : list nat) (pl pr : nat) :
  pl + 2 < pr → pr < length a →
  let r := partition v a pl pr in
  rearranged a r.1 pl pr
  ∧ pl < r.2 ∧ r.2 < pr
  ∧ (∀ p, pl ≤ p → p < r.2 → (kat r.1 p ≤ kat r.1 r.2)%Z)
  ∧ (∀ p, r.2 < p → p ≤ pr → (kat r.1 r.2 ≤ kat r.1 p)%Z).
Proof.
  intros Hlr Hlen. unfold partition.
  set (pm := pl + (pr - pl) / 2).
  assert (Hpm : pl < pm ∧ pm < pr - 1).
  { unfold pm. pose proof (Nat.div_mod_eq (pr - pl) 2).
    pose proof (Nat.mod_upper_bound (pr - pl) 2). lia. }
  set (a1 := if less v (get a pm) (get a pl) then INTP_SWAP a pm pl else a).
  set (a2 := if less v (get a1 pr) (get a1 pm) then INTP_SWAP a1 pr pm else a1).
  set (a3 := if less v (get a2 pm) (get a2 pl) then INTP_SWAP a2 pm pl else a2).
  assert (Hswap : ∀ (b : list nat) (p q : nat) (c : bool),
            p < length b → q < length b → pl ≤ p → p ≤ pr → pl ≤ q → q ≤ pr →
            rearranged b (if c then INTP_SWAP b p q else b) pl pr).
  { intros b p q c ??????. destruct c; [|apply rearranged_refl]. split.
    - by apply swap_Permutation.
    - intros r Hr. apply lookup_swap_ne; lia. }
  assert (H1 : rearranged a a1 pl pr) by (apply Hswap; lia).
  pose proof (rearranged_length _ _ _ _ H1) as Hl1.
  assert (H2 : rearranged a1 a2 pl pr) by (apply Hswap; lia).
  pose proof (rearranged_length _ _ _ _ H2) as Hl2.
  assert (H3 : rearranged a2 a3 pl pr) by (apply Hswap; lia).
  pose proof (rearranged_length _ _ _ _ H3) as Hl3.
  assert (Hmed : (kat a3 pl ≤ kat a3 pm)%Z ∧ (kat a3 pm ≤ kat a3 pr)%Z).
  { destruct (cswap_spec a pm pl) as (A1 & A2 & A3); [lia..|].
    destruct (cswap_spec a1 pr pm) as (B1 & B2 & B3); [lia..|].
    destruct (cswap_spec a2 pm pl) as (C1 & C2 & C3); [lia..|].
    fold a1 in A1, A2, A3. fold a2 in B1, B2, B3. fold a3 in C1, C2, C3.
    pose proof (B3 pl). pose proof (C3 pr). lia. }
  clearbody a3 a2 a1. destruct Hmed as [Hm1 Hm2].
  set (vp := get a3 pm).
  set (a4 := INTP_SWAP a3 pm (pr - 1)).
  assert (H4 : rearranged a3 a4 pl pr).
  { split; [apply swap_Permutation; lia|].
    intros r Hr. apply lookup_swap_ne; lia. }
  pose proof (rearranged_length _ _ _ _ H4) as Hl4.
  destruct (partition_loop_spec pl pr vp (length a4) a4 pl (pr - 1))
    as (Hr & Hp1 & Hp2 & Hle & Hge); try lia.
  { unfold a4. rewrite get_swap by lia. by rewrite decide_True. }
  { intros p ??. assert (p = pl) as -> by lia. unfold a4.
    rewrite get_swap by lia. rewrite !decide_False by lia. done. }
  { intros p ??. unfold a4. rewrite get_swap by lia.
    destruct (decide (p = pr - 1)); [done|].
    assert (p = pr) as -> by lia. rewrite decide_False by lia. done. }
  destruct (partition_loop v (length a4) a4 vp pl (pr - 1)) as [a5 pi].
  cbn [fst snd] in *.
  pose proof (rearranged_length _ _ _ _ Hr) as Hl5.
  assert (Hpiv : get a5 (pr - 1) = vp).
  { rewrite (rearranged_get _ _ _ _ _ Hr) by lia.
    unfold a4. rewrite get_swap by lia. by rewrite decide_True. }
  assert (Hk : ∀ p, kat (INTP_SWAP a5 pi (pr - 1)) p
                    = if decide (p = pi) then key v vp
                      else if decide (p = pr - 1) then kat a5 pi else kat a5 p).
  { intros p. rewrite get_swap by lia.
    repeat case_decide; try done; try lia; rewrite <-?Hpiv; do 2 f_equal; lia. }
  assert (Hkpi : kat (INTP_SWAP a5 pi (pr - 1)) pi = key v vp).
  { by rewrite Hk, decide_True. }
  split_and!.
  - eapply rearranged_trans; [exact H1|].
    eapply rearranged_trans; [exact H2|].
    eapply rearranged_trans; [exact H3|].
    eapply rearranged_trans; [exact H4|].
    eapply rearranged_trans; [eapply rearranged_mono; [| |exact Hr]; lia|].
    split; [apply swap_Permutation; lia|].
    intros r Hr'. apply lookup_swap_ne; lia.
  - done.
  - done.
  - intros p ??. rewrite Hkpi, (Hk p).
    repeat case_decide; try lia. by apply Hle.
  - intros p ??. rewrite Hkpi, (Hk p).
    repeat case_decide; try lia; apply Hge; lia.
Qed.

(** ** Heap sort *)

Section Heap.
(** the start of the segment; the places of the heap count from 1 *)
Variable pl : nat.

Local Abbreviation hk a k := (key v (hget a pl k)).

Lemma hget_hset (a : list nat) (i k x : nat) :
  1 ≤ i → 1 ≤ k → pl + i ≤ length a →
  hget (hset a pl i x) pl k = if decide (k = i) then x else hget a pl k.
Proof.
  intros Hi Hk Hlen. unfold hget, hset. rewrite get_insert.
  repeat case_decide; try done; lia.
Qed.

Lemma sift_spec (l n tmp : nat) (fuel : nat) :
  ∀ (a : list nat) (i j : nat),
    1 ≤ l → l ≤ i → i ≤ n → j = 2 * i → pl + n ≤ length a → n < fuel + j →
    (∀ k, l ≤ k → k ≤ n → k ≠ l ∨ i ≠ l → heap_ok v pl a n k) →
    (∀ k, l ≤ k → i = 2 * k ∨ i = 2 * k + 1 → (key v tmp ≤ hk a k)%Z) →
    let r := sift v fuel a pl n tmp i j in
    (∀ k, l ≤ k → k ≤ n → heap_ok v pl r n k)
    ∧ r ≡ₚ hset a pl i tmp
    ∧ (∀ p, p < pl + l - 1 ∨ pl + n - 1 < p → r !! p = a !! p).
Proof.
  assert (Hexit : ∀ (a : list nat) (i : nat),
    1 ≤ l → l ≤ i → i ≤ n → pl + n ≤ length a →
    (∀ k, l ≤ k → k ≤ n → k ≠ l ∨ i ≠ l → heap_ok v pl a n k) →
    (∀ k, l ≤ k → i = 2 * k ∨ i = 2 * k + 1 → (key v tmp ≤ hk a k)%Z) →
    (∀ c, c = 2 * i ∨ c = 2 * i + 1 → c ≤ n → (hk a c ≤ key v tmp)%Z) →
    (∀ k, l ≤ k → k ≤ n → heap_ok v pl (hset a pl i tmp) n k)
    ∧ hset a pl i tmp ≡ₚ hset a pl i tmp
    ∧ (∀ p, p < pl + l - 1 ∨ pl + n - 1 < p → hset a pl i tmp !! p = a !! p)).
  { intros a i Hl Hi Hn Hlen Hheap Hpar Hch. split_and!; [|done|].
    - intros k Hk1 Hk2. unfold heap_ok. rewrite !hget_hset by lia.
      destruct (decide (k = i)) as [->|Hki].
      + rewrite !decide_False by lia. split; intros ?; apply Hch; lia.
      + destruct (Hheap k) as [Ha Hb]; [lia..|].
        split; intros ?; case_decide; try (apply Hpar; lia); auto.
    - intros p Hp. unfold hset. apply list_lookup_insert_ne. lia. }
  induction fuel as [|fuel IH]; intros a i j Hl Hi Hn -> Hlen Hfuel Hheap Hpar.
  - simpl. apply Hexit; try done. intros c ??. lia.
  - cbn [sift]. destruct (2 * i <=? n) eqn:Hjn.
    + apply Nat.leb_le in Hjn.
      set (j := if (2 * i <? n) && less v (hget a pl (2 * i)) (hget a pl (2 * i + 1))
                then 2 * i + 1 else 2 * i).
      assert (Hj : (j = 2 * i ∨ j = 2 * i + 1) ∧ j ≤ n
                   ∧ (hk a (2 * i) ≤ hk a j)%Z
                   ∧ (2 * i + 1 ≤ n → (hk a (2 * i + 1) ≤ hk a j)%Z)).
      { unfold j. destruct (2 * i <? n) eqn:Hlt; cbn [andb].
        - apply Nat.ltb_lt in Hlt.
          destruct (less v (hget a pl (2 * i)) (hget a pl (2 * i + 1))) eqn:Hless.
          + apply less_spec in Hless. split_and!; [right; lia|lia|lia|lia].
          + apply less_false in Hless. split_and!; [left; lia|lia|lia|done].
        - apply Nat.ltb_ge in Hlt. split_and!; [left; lia|lia|lia|lia]. }
      clearbody j. destruct Hj as (Hj1 & Hj2 & Hj3 & Hj4).
      destruct (less v tmp (hget a pl j)) eqn:Hless.
      * apply less_spec in Hless.
        destruct (IH (hset a pl i (hget a pl j)) j (j + j))
          as (Hh & Hp & Ho); try lia.
        -- unfold hset. rewrite length_insert. lia.
        -- intros k Hk1 Hk2 _. unfold heap_ok. rewrite !hget_hset by lia.
           destruct (decide (k = i)) as [->|Hki].
           ++ rewrite !decide_False by lia. split; intros ?; lia.
           ++ destruct (Hheap k) as [Ha Hb]; [lia..|].
              split; intros ?; case_decide; auto.
              ** destruct (Hheap i) as [Hc Hd]; [lia..|].
                 assert (hk a j ≤ hk a i)%Z by (destruct Hj1 as [->| ->]; auto).
                 assert (hk a i ≤ hk a k)%Z by (subst i; auto). lia.
              ** destruct (Hheap i) as [Hc Hd]; [lia..|].
                 assert (hk a j ≤ hk a i)%Z by (destruct Hj1 as [->| ->]; auto).
                 assert (hk a i ≤ hk a k)%Z by (subst i; auto). lia.
        -- intros k Hk1 Hk2. assert (k = i) as -> by lia.
           rewrite hget_hset by lia. rewrite decide_True by done. lia.
        -- split_and!; [done| |].
           ++ rewrite Hp.
              assert (hset (hset a pl i (hget a pl j)) pl j tmp
                      = INTP_SWAP (hset a pl i tmp) (pl + i - 1) (pl + j - 1))
                as ->.
              { unfold INTP_SWAP, hset, hget. rewrite !get_insert.
                rewrite decide_True, decide_False by lia.
                f_equal. rewrite list_insert_insert. by rewrite decide_True. }
              apply swap_Permutation; unfold hset; rewrite length_insert; lia.
           ++ intros p Hp'. rewrite Ho by lia. unfold hset.
              apply list_lookup_insert_ne. lia.
      * apply less_false in Hless. apply Hexit; try done.
        intros c [-> | ->] ?; lia.
    + apply Nat.leb_gt in Hjn. apply Hexit; try done. intros c ??. lia.
Qed.

Lemma heapify_spec (n : nat) (l : nat) :
  ∀ a : list nat,
    2 * l ≤ n → pl + n ≤ length a →
    (∀ k, l < k → k ≤ n → heap_ok v pl a n k) →
    let r := heapify v l a pl n in
    (∀ k, 1 ≤ k → k ≤ n → heap_ok v pl r n k)
    ∧ rearranged a r pl (pl + n - 1).
Proof.
  induction l as [|l IH]; intros a Hl Hlen Hheap.
  - simpl. split; [|apply rearranged_refl]. intros k ??. apply Hheap; lia.
  - cbn [heapify].
    destruct (sift_spec (S l) n (hget a pl (S l)) n a (S l) (S l * 2))
      as (Hh & Hp & Ho); try lia.
    + intros k ?? [?|?]; [|done]. apply Hheap; lia.
    + assert (Hr : rearranged a (sift v n a pl n (hget a pl (S l)) (S l) (S l * 2))
                     pl (pl + n - 1)).
      { split.
        - rewrite Hp. unfold hset, hget. rewrite list_insert_id; [done|].
          apply get_lookup. lia.
        - intros p Hp'. apply Ho. lia. }
      destruct (IH (sift v n a pl n (hget a pl (S l)) (S l) (S l * 2)))
        as [Hh' Hr']; try lia.
      * rewrite (rearranged_length _ _ _ _ Hr). lia.
      * intros k ??. apply Hh; lia.
      * split; [done|]. by eapply rearranged_trans.
Qed.

(** The root of a heap has the greatest key. *)
Lemma heap_root_max (a : list nat) (n : nat) :
  (∀ k, 1 ≤ k → k ≤ n → heap_ok v pl a n k) →
  ∀ k, 1 ≤ k → k ≤ n → (hk a k ≤ hk a 1)%Z.
Proof.
  intros Hheap k. induction k as [k IH] using lt_wf_ind. intros Hk1 Hk2.
  destruct (decide (k = 1)) as [->|Hne]; [lia|].
  pose proof (Nat.div_mod_eq k 2) as Hdiv.
  pose proof (Nat.mod_upper_bound k 2) as Hmod.
  assert (Hparent : (hk a (k / 2) ≤ hk a 1)%Z) by (apply IH; lia).
  destruct (Hheap (k / 2)) as [Ha Hb]; [lia..|].
  destruct (decide (k mod 2 = 0)) as [Hz|Hz].
  - assert (k = 2 * (k / 2)) as Hk by lia. rewrite Hk at 1.
    etransitivity; [apply Ha; lia|done].
  - assert (k = 2 * (k / 2) + 1) as Hk by lia. rewrite Hk at 1.
    etransitivity; [apply Hb; lia|done].
Qed.

Lemma extract_spec (N : nat) (n : nat) :
  ∀ a : list nat,
    n ≤ N → pl + N ≤ length a → NoDup a →
    (∀ k, 1 ≤ k → k ≤ n → heap_ok v pl a n k) →
    (∀ p q, n < p → p ≤ q → q ≤ N → (hk a p ≤ hk a q)%Z) →
    (∀ p q, 1 ≤ p → p ≤ n → n < q → q ≤ N → (hk a p ≤ hk a q)%Z) →
    let r := extract v n a pl in
    rearranged a r pl (pl + N - 1)
    ∧ ∀ p q, 1 ≤ p → p ≤ q → q ≤ N → (hk r p ≤ hk r q)%Z.
Proof.
  induction n as [|n IH]; intros a Hn Hlen Hnd Hheap Hup Hcross.
  - simpl. split; [apply rearranged_refl|]. intros p q ???. apply Hup; lia.
  - cbn [extract]. destruct n as [|n'].
    + split; [apply rearranged_refl|]. intros p q ???.
      destruct (decide (p = q)) as [->|]; [lia|].
      destruct (decide (p = 1)) as [->|]; [apply Hcross; lia|apply Hup; lia].
    + set (n := S n') in *. set (tmp := hget a pl (S n)).
      set (a1 := hset a pl (S n) (hget a pl 1)).
      assert (Hl1 : length a1 = length a) by (unfold a1, hset; by rewrite length_insert).
      destruct (sift_spec 1 n tmp n a1 1 2) as (Hh & Hp & Ho); try lia.
      { intros k ?? [?|?]; [|done].
        destruct (Hheap k) as [Ha Hb]; [lia..|].
        unfold heap_ok, a1.
        split; intros ?; rewrite !hget_hset by lia; rewrite !decide_False by lia;
          [apply Ha|apply Hb]; lia. }
      set (a2 := sift v n a1 pl n tmp 1 2) in *.
      assert (Hr : rearranged a a2 pl (pl + S n - 1)).
      { split.
        - rewrite Hp.
          assert (hset a1 pl 1 tmp = INTP_SWAP a (pl + S n - 1) (pl + 1 - 1)) as ->.
          { unfold INTP_SWAP, a1, hset, tmp, hget. done. }
          apply swap_Permutation; lia.
        - intros p Hp'. rewrite Ho by lia. unfold a1, hset.
          apply list_lookup_insert_ne. lia. }
      assert (Hget : ∀ k, n < k → hk a2 k = if decide (k = S n) then hk a 1 else hk a k).
      { intros k Hk. unfold hget at 1, get. rewrite Ho by lia.
        change (default 0 (a1 !! (pl + k - 1))) with (hget a1 pl k).
        unfold a1. destruct (decide (1 ≤ k)); [|lia].
        rewrite hget_hset by lia. by case_decide. }
      assert (Hfrom : ∀ p, 1 ≤ p → p ≤ n →
                ∃ p', 1 ≤ p' ∧ p' ≤ S n ∧ hk a2 p = hk a p').
      { intros p ??.
        destruct (rearranged_from a a2 pl (pl + S n - 1) (pl + p - 1))
          as (q & ? & ? & Hq); [done|done|lia..|].
        exists (q - pl + 1). split_and!; [lia..|].
        unfold hget. rewrite Hq. do 2 f_equal. lia. }
      destruct (IH a2) as [Hr' Hs]; try lia.
      * rewrite (rearranged_length _ _ _ _ Hr). lia.
      * by eapply rearranged_NoDup.
      * done.
      * intros p q ???. rewrite !Hget by lia.
        repeat case_decide; try lia; [apply Hcross; lia|apply Hup; lia].
      * intros p q ????. destruct (Hfrom p) as (p' & ? & ? & ->); [lia..|].
        rewrite Hget by lia. case_decide.
        -- apply heap_root_max with (n := S n); [done|lia..].
        -- apply Hcross; lia.
      * split; [|done]. eapply rearranged_trans; [|exact Hr'].
        eapply rearranged_mono; [| |exact Hr]; lia.
Qed.

End Heap.

Lemma heapsort_spec (a : list nat) (pl pr : nat) :
  pl ≤ pr → pr < length a → NoDup a →
  rearranged a (heapsort v a pl pr) pl pr
  ∧ ascending v (heapsort v a pl pr) pl pr.
Proof.
  intros Hpl Hlen Hnd. unfold heapsort.
  set (n := pr - pl + 1).
  pose proof (Nat.div_mod_eq n 2) as Hdiv.
  pose proof (Nat.mod_upper_bound n 2) as Hmod.
  destruct (heapify_spec pl n (n / 2) a) as [Hh Hr]; try lia.
  { intros k ??. split; intros ?; lia. }
  destruct (extract_spec pl n n (heapify v (n / 2) a pl n)) as [Hr' Hs]; try lia.
  - rewrite (rearranged_length _ _ _ _ Hr). lia.
  - by eapply rearranged_NoDup.
  - done.
  - replace (pl + n - 1) with pr in * by lia. split.
    + by eapply rearranged_trans.
    + intros p q ???.
      specialize (Hs (p - pl + 1) (q - pl + 1)). unfold hget in Hs.
      replace (pl + (p - pl + 1) - 1) with p in Hs by lia.
      replace (pl + (q - pl + 1) - 1) with q in Hs by lia.
      apply Hs; lia.
Qed.

(** ** The quicksort *)

(** The two parts of a partitioned segment, sorted one after the other in
    either order. *)
Lemma sorted_parts (a1 a2 a3 : list nat) (pl pi pr l1 r1 l2 r2 : nat) :
  NoDup a1 → pr < length a1 → pl < pi → pi < pr →
  (∀ p, pl ≤ p → p < pi → (kat a1 p ≤ kat a1 pi)%Z) →
  (∀ p, pi < p → p ≤ pr → (kat a1 pi ≤ kat a1 p)%Z) →
  (l1 = pl ∧ r1 = pi - 1 ∧ l2 = pi + 1 ∧ r2 = pr)
  ∨ (l1 = pi + 1 ∧ r1 = pr ∧ l2 = pl ∧ r2 = pi - 1) →
  rearranged a1 a2 l1 r1 → ascending v a2 l1 r1 →
  rearranged a2 a3 l2 r2 → ascending v a3 l2 r2 →
  rearranged a1 a3 pl pr ∧ ascending v a3 pl pr.
Proof.
  intros Hnd Hlen Hpl Hpr Hle Hge Hparts Hr1 Ha1 Hr2 Ha2.
  pose proof (rearranged_length _ _ _ _ Hr1) as Hl1.
  pose proof (rearranged_NoDup _ _ _ _ Hnd Hr1) as Hnd2.
  assert (Hpiv : get a3 pi = get a1 pi).
  { rewrite (rearranged_get _ _ _ _ _ Hr2) by lia.
    apply (rearranged_get _ _ _ _ _ Hr1). lia. }
  assert (Hfacts :
    (∀ p, pl ≤ p → p < pi → (kat a3 p ≤ kat a1 pi)%Z)
    ∧ (∀ p, pi < p → p ≤ pr → (kat a1 pi ≤ kat a3 p)%Z)
    ∧ ascending v a3 pl (pi - 1) ∧ ascending v a3 (pi + 1) pr).
  { destruct Hparts as [(-> & -> & -> & ->)|(-> & -> & -> & ->)].
    - split_and!.
      + intros p ??. rewrite (rearranged_get _ _ _ _ _ Hr2) by lia.
        apply (rearranged_le a1 a2 pl (pi - 1)); try done; try lia.
        intros q ??. apply Hle; lia.
      + intros p ??.
        apply (rearranged_ge a2 a3 (pi + 1) pr); try done; try lia.
        intros q ??. rewrite (rearranged_get _ _ _ _ _ Hr1) by lia.
        apply Hge; lia.
      + intros p q ???. rewrite !(rearranged_get _ _ _ _ _ Hr2) by lia.
        by apply Ha1.
      + done.
    - split_and!.
      + intros p ??.
        apply (rearranged_le a2 a3 pl (pi - 1)); try done; try lia.
        intros q ??. rewrite (rearranged_get _ _ _ _ _ Hr1) by lia.
        apply Hle; lia.
      + intros p ??. rewrite (rearranged_get _ _ _ _ _ Hr2) by lia.
        apply (rearranged_ge a1 a2 (pi + 1) pr); try done; try lia.
        intros q ??. apply Hge; lia.
      + done.
      + intros p q ???. rewrite !(rearranged_get _ _ _ _ _ Hr2) by lia.
        by apply Ha1. }
  destruct Hfacts as (Hle3 & Hge3 & Hal & Har). split.
  - eapply rearranged_trans.
    + eapply rearranged_mono; [| |exact Hr1]; lia.
    + eapply rearranged_mono; [| |exact Hr2]; lia.
  - intros p q ???.
    destruct (decide (q < pi)); [apply Hal; lia|].
    destruct (decide (pi < p)); [apply Har; lia|].
    destruct (decide (p = pi)) as [->|], (decide (q = pi)) as [->|];
      rewrite ?Hpiv; try lia.
    + apply Hge3; lia.
    + apply Hle3; lia.
    + specialize (Hle3 p). specialize (Hge3 q). lia.
Qed.

Lemma quicksort_spec (fuel : nat) :
  ∀ (a : list nat) (pl pr : nat) (cdepth : Z),
    pl ≤ pr → pr < length a → pr - pl < fuel → NoDup a →
    rearranged a (quicksort v fuel a pl pr cdepth) pl pr
    ∧ ascending v (quicksort v fuel a pl pr cdepth) pl pr.
Proof.
  induction fuel as [|fuel IH]; intros a pl pr cdepth Hpl Hlen Hfuel Hnd; [lia|].
  cbn [quicksort]. destruct (SMALL_QUICKSORT <? pr - pl) eqn:Hsmall.
  - apply Nat.ltb_lt in Hsmall. unfold SMALL_QUICKSORT in Hsmall.
    destruct (partition_spec a pl pr) as (Hr & Hp1 & Hp2 & Hle & Hge); [lia..|].
    destruct (partition v a pl pr) as [a1 pi]. cbn [fst snd] in *.
    pose proof (rearranged_length _ _ _ _ Hr) as Hl1.
    pose proof (rearranged_NoDup _ _ _ _ Hnd Hr) as Hnd1.
    assert (Hcomb : ∀ l1 r1 l2 r2,
      (l1 = pl ∧ r1 = pi - 1 ∧ l2 = pi + 1 ∧ r2 = pr)
      ∨ (l1 = pi + 1 ∧ r1 = pr ∧ l2 = pl ∧ r2 = pi - 1) →
      let a2 := quicksort v fuel a1 l1 r1 (cdepth - 1) in
      let a3 := if (cdepth - 1 <? 0)%Z then heapsort v a2 l2 r2
                else quicksort v fuel a2 l2 r2 (cdepth - 1) in
      rearranged a a3 pl pr ∧ ascending v a3 pl pr).
    { intros l1 r1 l2 r2 Hparts a2 a3.
      destruct (IH a1 l1 r1 (cdepth - 1)%Z) as [Hr1 Ha1];
        [destruct Hparts as [(-> & -> & -> & ->)|(-> & -> & -> & ->)]; lia..
        |done|].
      fold a2 in Hr1, Ha1.
      pose proof (rearranged_length _ _ _ _ Hr1) as Hl2.
      pose proof (rearranged_NoDup _ _ _ _ Hnd1 Hr1) as Hnd2.
      assert (Hr2 : rearranged a2 a3 l2 r2 ∧ ascending v a3 l2 r2).
      { unfold a3. destruct (cdepth - 1 <? 0)%Z.
        - apply heapsort_spec; [..|done];
            destruct Hparts as [(-> & -> & -> & ->)|(-> & -> & -> & ->)]; lia.
        - apply IH; [..|done];
            destruct Hparts as [(-> & -> & -> & ->)|(-> & -> & -> & ->)]; lia. }
      destruct Hr2 as [Hr2 Ha2].
      destruct (sorted_parts a1 a2 a3 pl pi pr l1 r1 l2 r2) as [Hr3 Ha3];
        try done; try lia.
      split; [|done]. by eapply rearranged_trans. }
    destruct (pi - pl <? pr - pi); apply Hcomb; [by left|by right].
  - apply Nat.ltb_ge in Hsmall. by apply insertion_sort_spec.
Qed.

Lemma argsort_spec :
  Numpy.argsort v ≡ₚ seq 0 (length v)
  ∧ ∀ p q, p ≤ q → q < length v →
      (kat (Numpy.argsort v) p ≤ kat (Numpy.argsort v) q)%Z.
Proof.
  unfold Numpy.argsort. destruct (length v) as [|n] eqn:Hn.
  - split; [done|]. intros p q ??. lia.
  - destruct (quicksort_spec (S (S n)) (seq 0 (S n)) 0 (S n - 1)
                (2 * Z.log2 (Z.of_nat (S n)))) as [[Hperm _] Hasc].
    + lia.
    + rewrite length_seq. lia.
    + lia.
    + apply NoDup_seq.
    + split; [done|]. intros p q ??. apply Hasc; lia.
Qed.

Lemma ascending_StronglySorted (r : list nat) :
  (∀ p q, p ≤ q → q < length r → (kat r p ≤ kat r q)%Z) →
  StronglySorted Z.le (key v <$> r).
Proof.
  induction r as [|x r IH]; intros Hasc; [constructor|].
  rewrite fmap_cons. constructor.
  - apply IH. intros p q ??. apply (Hasc (S p) (S q)); simpl; lia.
  - apply Forall_fmap, Forall_lookup. intros i y Hy.
    specialize (Hasc 0 (S i)). unfold get in Hasc. simpl in Hasc.
    rewrite Hy in Hasc. simpl in Hasc. apply Hasc; [lia|].
    apply lookup_lt_Some in Hy. lia.
Qed.

Lemma omap_lookup_keys (r : list nat) :
  Forall (λ i, i < length v) r → omap (λ i, v !! i) r = key v <$> r.
Proof.
  induction 1 as [|i r Hi Hr IH]; [done|].
  cbn [omap list_omap fmap list_fmap]. unfold key at 1.
  destruct (lookup_lt_is_Some_2 v i Hi) as [x ->]. simpl. by f_equal.
Qed.

End Sort.

(** [numpy.argsort(kind="quicksort")] returns the positions of the keys,
    each once, in an order in which the keys ascend. *)
Lemma numpy_argsort_sorts : ArgsortSorts Numpy.argsort.
Proof.
  intros keys.
  change (Numpy.argsort keys ≡ₚ seq 0 (length keys)
          ∧ StronglySorted Z.le
              (omap (λ i, keys !! i) (Numpy.argsort keys))).
  destruct (argsort_spec keys) as [Hperm Hasc].
  split; [exact Hperm|].
  rewrite omap_lookup_keys.
  - apply ascending_StronglySorted. intros p q ??. apply Hasc; [done|].
    assert (length (Numpy.argsort keys) = length (keys : list Z))
      by (by rewrite Hperm, length_seq). lia.
  - apply Forall_forall. intros i Hi. rewrite Hperm in Hi.
    apply elem_of_seq in Hi. lia.
Qed.

End NumpyFacts.

(** * Properties *)

Section Properties.
Context {L : PyLib} {Srt : Argsort}.
Abbreviation Row := (gmap string value).
Abbreviation Workbook := (gmap string Sheet).
Abbreviation Store := (option CsvFile).

(** Membership goals over [::] and [++]. *)
Ltac elem_solver :=
  repeat (setoid_rewrite elem_of_cons || setoid_rewrite elem_of_app
          || setoid_rewrite elem_of_nil);
  naive_solver.

(** ** [unique] *)

Lemma unique_from_elem seen l x :
  x ∈ unique_from seen l ↔ x ∈ l ∧ x ∉ seen.
Proof.
  revert seen. induction l as [|y l IH]; intros seen; simpl.
  - elem_solver.
  - case_decide; [rewrite IH|rewrite elem_of_cons, IH]; clear IH;
      destruct (decide (x = y)); elem_solver.
Qed.




Lemma unique_elem l x : x ∈ unique l ↔ x ∈ l.
Proof. unfold unique. rewrite unique_from_elem. elem_solver. Qed.


Lemma unique_from_id seen l :
  NoDup l → (∀ x, x ∈ l → x ∉ seen) → unique_from seen l = l.
Proof.
  intros Hl. revert seen.
  induction Hl as [|y l Hy Hl IH]; intros seen Hs; simpl; [done|].
  case_decide.
  - exfalso. apply (Hs y); [left|done].
  - f_equal. apply IH. intros x Hx. rewrite elem_of_cons. intros [->|Hx'].
    + done.
    + apply (Hs x); [by right|done].
Qed.

Lemma unique_id l : NoDup l → unique l = l.
Proof. intros Hl. apply unique_from_id; [done|]. intros x _. apply not_elem_of_nil. Qed.


(** ** The reference data loader *)

Lemma get_loc_is_Some c cols : c ∈ cols → is_Some (get_loc c cols).
Proof.
  intros Hc. unfold get_loc.
  destruct (list_find_elem_of (λ c', c' = c) cols c Hc eq_refl) as [[i y] Hf].
  rewrite Hf. by eexists.
Qed.

Lemma get_loc_None c cols : c ∉ cols → get_loc c cols = None.
Proof.
  intros Hc. unfold get_loc.
  destruct (list_find _ cols) as [[i y]|] eqn:Hf; [|done].
  apply list_find_Some in Hf as (Hi & -> & _).
  exfalso. apply Hc. by eapply list_elem_of_lookup_2.
Qed.

Lemma sheet_getitem_Ok df c :
  LStr c ∈ sheet_columns df → ∃ col, sheet_getitem df c = Ok col.
Proof.
  intros Hc. unfold sheet_getitem.
  destruct (get_loc_is_Some _ _ Hc) as [i ->]. by eexists.
Qed.




(** ** Merge and filter *)

Lemma boolean_index_fmap (f : Row → bool) (rs : list Row) :
  boolean_index rs (f <$> rs) = filter (λ r, f r) rs.
Proof.
  induction rs as [|r rs IH]; simpl; [done|].
  rewrite filter_cons. destruct (f r) eqn:Hf; simpl; [f_equal|]; apply IH.
Qed.

Lemma mask_and_fmap {A} (f g : A → bool) (l : list A) :
  mask_and (f <$> l) (g <$> l) = (λ x, f x && g x) <$> l.
Proof. unfold mask_and. induction l; simpl; [done|]. by f_equal. Qed.

Lemma isin_fmap values c (rs : list Row) :
  isin values ((λ r : Row, r !! c) <$> rs) = in_selection values c <$> rs.
Proof. unfold isin. rewrite <-list_fmap_compose. done. Qed.

Lemma getitem_Ok df c :
  c ∈ columns df → getitem df c = Ok ((λ r : Row, r !! c) <$> rows df).
Proof. intros Hc. unfold getitem. by rewrite decide_True. Qed.

Lemma category_mask_Ok combined kom ting prov :
  has_category_columns combined →
  category_mask combined kom ting prov
  = Ok (category_selected kom ting prov <$> rows combined).
Proof.
  intros (Hk & Ht & Hp). unfold category_mask.
  rewrite !getitem_Ok by done. simpl.
  rewrite !isin_fmap, !mask_and_fmap. done.
Qed.

Lemma mapM_result_Ok {A B} (f : A → result B) (g : A → B) (l : list A) :
  Forall (λ x, f x = Ok (g x)) l → mapM f l = Ok (g <$> l).
Proof.
  induction 1 as [|x l Hx Hl IH]; [done|].
  cbn [mapM]. rewrite Hx. cbn. rewrite IH. done.
Qed.

Lemma compare_date_Ok op d0 (rs : list Row) :
  Forall (λ r : Row, date_or_missing (r !! "Tanggal")) rs →
  compare_date op d0 ((λ r : Row, r !! "Tanggal") <$> rs)
  = Ok ((λ r : Row, match r !! "Tanggal" with
                    | Some (VDate d) => op d d0
                    | _ => false
                    end) <$> rs).
Proof.
  intros Hd. unfold compare_date.
  rewrite (mapM_result_Ok _ (λ c, match c with
                                  | Some (VDate d) => op d d0
                                  | _ => false
                                  end)).
  - by rewrite <-list_fmap_compose.
  - apply Forall_fmap. eapply Forall_impl; [exact Hd|].
    intros r Hr. simpl in *. by destruct (r !! "Tanggal") as [[]|].
Qed.

Lemma filtered_Ok combined kom ting prov :
  has_category_columns combined →
  filtered combined kom ting prov
  = Ok {| columns := columns combined;
          rows := filter (λ r, category_selected kom ting prov r) (rows combined) |}.
Proof.
  intros Hc. unfold filtered. rewrite category_mask_Ok by done. simpl.
  by rewrite boolean_index_fmap.
Qed.

Lemma plot_df_Ok combined kom ting prov start_date end_date :
  has_category_columns combined → dates_ok combined →
  plot_df combined kom ting prov start_date end_date
  = Ok {| columns := columns combined;
          rows := filter (λ r, category_selected kom ting prov r
                               && date_in_range start_date end_date r)
                         (rows combined) |}.
Proof.
  intros Hc [Ht Hd]. unfold plot_df. rewrite category_mask_Ok by done. simpl.
  rewrite !getitem_Ok by done. simpl.
  unfold ge_date, le_date. rewrite !compare_date_Ok by done. simpl.
  rewrite !mask_and_fmap, boolean_index_fmap. do 2 f_equal.
  apply list_filter_iff. intros r. unfold date_in_range.
  destruct (r !! "Tanggal") as [[]|]; simpl; rewrite ?andb_false_r; try done.
  by rewrite andb_assoc.
Qed.

Lemma in_selection_nil c r : in_selection [] c r = false.
Proof.
  unfold in_selection. by destruct (r !! c) as [[]|].
Qed.

Lemma filter_none {A} (P : A → Prop) `{∀ x, Decision (P x)} (l : list A) :
  (∀ x, ¬ P x) → filter P l = [].
Proof.
  intros HP. induction l as [|x l IH]; [done|].
  rewrite filter_cons, decide_False by apply HP. done.
Qed.

(** C3. The combined view is the historical rows followed by the user's
    rows: no row is dropped or merged, so its row count is the sum of the
    two counts, and any row occurs in it as many times as in the historical
    table plus as many times as in the user's table; its columns are those
    of the two tables. *)
Theorem combine_keeps_every_row (daily_data input_data : DataFrame) :
  rows (combine daily_data input_data) = rows daily_data ++ rows input_data
  ∧ length (rows (combine daily_data input_data))
    = (length (rows daily_data) + length (rows input_data))%nat
  ∧ (∀ r : Row,
       length (filter (λ x, x = r) (rows (combine daily_data input_data)))
       = (length (filter (λ x, x = r) (rows daily_data))
          + length (filter (λ x, x = r) (rows input_data)))%nat)
  ∧ (∀ c, c ∈ columns (combine daily_data input_data)
          ↔ c ∈ columns daily_data ∨ c ∈ columns input_data).
Proof.
  assert (Hrows : rows (combine daily_data input_data)
                  = rows daily_data ++ rows input_data).
  { unfold combine, concat. simpl. by rewrite app_nil_r. }
  split_and!.
  - done.
  - by rewrite Hrows, length_app.
  - intros r. by rewrite Hrows, filter_app, length_app.
  - intros c. unfold combine, concat. simpl.
    rewrite unique_elem, app_nil_r, elem_of_app. done.
Qed.

(** C4. When the combined view has the three category columns and the
    selection on one of them is empty, the category filter keeps no row,
    whatever the two other selections are: in the table tab, and in the chart
    tab for any date range. *)
Theorem empty_selection_keeps_no_row (combined : DataFrame)
    (kom ting prov : list string) :
  has_category_columns combined →
  kom = [] ∨ ting = [] ∨ prov = [] →
  filtered combined kom ting prov
  = Ok {| columns := columns combined; rows := [] |}
  ∧ (∀ start_date end_date,
       dates_ok combined →
       plot_df combined kom ting prov start_date end_date
       = Ok {| columns := columns combined; rows := [] |}).
Proof.
  intros Hc Hsel.
  assert (Hno : ∀ r, category_selected kom ting prov r = false).
  { intros r. unfold category_selected.
    destruct Hsel as [->|[->| ->]]; rewrite in_selection_nil;
      by rewrite ?andb_false_r. }
  split.
  - rewrite filtered_Ok by done. do 2 f_equal.
    apply filter_none. intros r. rewrite ?Hno. by intros [].
  - intros start_date end_date Hd. rewrite plot_df_Ok by done. do 2 f_equal.
    apply filter_none. intros r. rewrite ?Hno. by intros [].
Qed.

(** C5. When the combined view has the category columns and its column
    "Tanggal" holds dates, the chart's filter keeps a row that passes the
    category filters exactly when its date [d] satisfies
    [start_date <= d <= end_date]: for a range with [start_date <= end_date]
    a row dated [start_date] or [end_date] is kept, and a row dated before
    [start_date] or after [end_date] is never kept. *)
Theorem plot_df_date_range_inclusive (combined : DataFrame)
    (kom ting prov : list string) (start_date end_date : date) :
  has_category_columns combined →
  dates_ok combined →
  ∃ df,
    plot_df combined kom ting prov start_date end_date = Ok df
    ∧ (∀ (r : Row) d,
         r ∈ rows combined → category_selected kom ting prov r →
         r !! "Tanggal" = Some (VDate d) →
         (r ∈ rows df ↔ start_date ≤ d ≤ end_date))
    ∧ (start_date ≤ end_date →
       ∀ r : Row,
         r ∈ rows combined → category_selected kom ting prov r →
         r !! "Tanggal" = Some (VDate start_date)
         ∨ r !! "Tanggal" = Some (VDate end_date) →
         r ∈ rows df)
    ∧ (∀ (r : Row) d,
         r !! "Tanggal" = Some (VDate d) →
         d < start_date ∨ end_date < d → r ∉ rows df).
Proof.
  intros Hc Hd. eexists. split; [by apply plot_df_Ok|]. simpl.
  assert (Hin : ∀ (r : Row) d, r !! "Tanggal" = Some (VDate d) →
            (date_in_range start_date end_date r ↔ start_date ≤ d ≤ end_date)).
  { intros r d Hr. unfold date_in_range. rewrite Hr.
    rewrite andb_True, !bool_decide_spec. done. }
  split_and!.
  - intros r d Hr Hsel Hdate. rewrite list_elem_of_filter, andb_True, (Hin r d Hdate).
    naive_solver.
  - intros Hse r Hr Hsel [Hdate|Hdate];
      rewrite list_elem_of_filter, andb_True, (Hin r _ Hdate); split_and!; try done; lia.
  - intros r d Hdate Hout. rewrite list_elem_of_filter, andb_True, (Hin r d Hdate). lia.
Qed.

(** ** The historical series loader *)

Lemma lookup_row_set k c (r : Row) j :
  row_set k c r !! j = if decide (k = j) then c else r !! j.
Proof. unfold row_set. apply lookup_partial_alter. Qed.

(** Lookups in rows built by [row_set], [insert] and [delete]. *)
Ltac lookup_solver :=
  repeat first
    [ rewrite lookup_row_set | rewrite lookup_delete | rewrite lookup_insert
    | rewrite lookup_empty | case_decide; simplify_eq ];
  try done.

Lemma lookup_foldr_row_set (g : string → cell) (l : list string) k :
  foldr (λ b acc, row_set b (g b) acc) (∅ : Row) l !! k
  = if decide (k ∈ l) then g k else None.
Proof.
  induction l as [|b l IH]; simpl.
  - by rewrite lookup_empty.
  - rewrite lookup_row_set, IH.
    destruct (decide (b = k)) as [->|Hne].
    + by rewrite decide_True by left.
    + destruct (decide (k ∈ l)).
      * by rewrite decide_True by by right.
      * rewrite decide_False; [done|]. rewrite elem_of_cons. naive_solver.
Qed.

Lemma sheet_cell_None df c r : c ∉ sheet_columns df → sheet_cell df c r = None.
Proof. intros Hc. unfold sheet_cell. by rewrite get_loc_None. Qed.

Lemma elem_of_base_cols df b :
  b ∈ base_cols df
  ↔ LStr b ∈ sheet_columns df
    ∧ b ∈ [" "; "Komoditi"; "Tingkat"; "Prov/Kab/Kota"].
Proof. unfold base_cols. by rewrite list_elem_of_filter. Qed.

(** The rows of [melt] do not depend on which identifier columns the
    worksheet has: a column it lacks gives a missing value. *)
Lemma melt_row_raw_row df c r : melt_row df (base_cols df) c r = raw_row df c r.
Proof.
  unfold melt_row, raw_row. f_equal. f_equal. apply map_eq. intros k.
  rewrite lookup_foldr_row_set, !lookup_row_set, lookup_empty.
  destruct (decide (k ∈ base_cols df)) as [Hk|Hk].
  - apply elem_of_base_cols in Hk as [_ Hk].
    repeat (apply elem_of_cons in Hk as [->|Hk]; [by repeat case_decide|]).
    by apply elem_of_nil in Hk.
  - repeat case_decide; subst; try done;
      (symmetry; apply sheet_cell_None; intros Hc; apply Hk, elem_of_base_cols;
       split; [done|]; repeat constructor).
Qed.

Lemma melt_rows df :
  rows (melt df) = c ← date_cols df; raw_row df c <$> sheet_rows df.
Proof.
  unfold melt. simpl. apply list_bind_ext; [|done].
  intros c. apply list_fmap_ext. intros _ r _. apply melt_row_raw_row.
Qed.




Lemma price_of_Some (c : cell) x :
  price_of c = Some x ↔ ∃ v, c = Some v ∧ to_numeric v = Some (VNum x).
Proof.
  unfold price_of. destruct c as [v|]; simpl; [|naive_solver].
  destruct (to_numeric v) as [[]|] eqn:Hv; naive_solver.
Qed.

Lemma to_numeric_VNum v w : to_numeric v = Some w → ∃ x, w = VNum x.
Proof.
  destruct v; simpl; try naive_solver.
  destruct (to_numeric_str s); simpl; naive_solver.
Qed.

Lemma price_of_None (c : cell) : price_of c = None ↔ c ≫= to_numeric = None.
Proof.
  unfold price_of. destruct c as [v|]; simpl; [|done].
  destruct (to_numeric v) as [w|] eqn:Hv; [|done].
  destruct (to_numeric_VNum _ _ Hv) as [x ->]. done.
Qed.

(** The last steps of [load_daily_data] on one row that has a price. *)
Lemma survivor_row (cols : list string) (r : Row) x t :
  (∀ c, c ∈ cols → c ∈ raw_names) →
  (∀ k, is_Some (r !! k) → k ∈ cols) →
  r !! "Tanggal" = Some (VStamp t) →
  price_of (r !! "Harga") = Some x →
  let r1 := row_set "Harga" (r !! "Harga" ≫= to_numeric) r in
  let r2 := row_set "Sumber" (r1 !! " ") (delete " " r1) in
  let r3 := row_set "Provinsi" (r2 !! "Prov/Kab/Kota") (delete "Prov/Kab/Kota" r2) in
  survivor r = Some (<["Tanggal" := VDate (ts_date t)]> r3).
Proof.
  intros Hcols Hkeys Ht Hx. simpl. unfold survivor. rewrite Hx, Ht. f_equal.
  apply price_of_Some in Hx as (v & Hv & Hnum).
  apply map_eq. intros k.
  assert (Hk : k ∉ raw_names → r !! k = None).
  { intros Hk. destruct (r !! k) eqn:Hrk; [|done].
    exfalso. apply Hk, Hcols, Hkeys. by rewrite Hrk. }
  rewrite Hv. simpl. rewrite Hnum.
  repeat (rewrite ?lookup_row_set, ?lookup_insert, ?lookup_delete, ?lookup_empty).
  repeat case_decide; simplify_eq; try done.
  symmetry. apply Hk. unfold raw_names. rewrite !elem_of_cons, elem_of_nil.
  naive_solver.
Qed.

Lemma df_dropna_Ok c df :
  c ∈ columns df →
  df_dropna c df
  = Ok {| columns := columns df; rows := filter (λ r, notna c r) (rows df) |}.
Proof.
  intros Hc. unfold df_dropna. rewrite decide_True by done.
  by rewrite boolean_index_fmap.
Qed.

Lemma assign_map_Ok c f df :
  c ∈ columns df →
  assign_map c f df
  = Ok {| columns := columns df;
          rows := (λ r : Row, row_set c (r !! c ≫= f) r) <$> rows df |}.
Proof. intros Hc. unfold assign_map. by rewrite decide_True. Qed.

Lemma rename_column_spec old new df :
  (old ∉ columns df →
   Forall (λ r : Row, r !! old = None ∧ r !! new = None) (rows df)) →
  rename_column old new df
  = {| columns := (λ c, if decide (c = old) then new else c) <$> columns df;
       rows := (λ r : Row, row_set new (r !! old) (delete old r)) <$> rows df |}.
Proof.
  intros Hrows. unfold rename_column. case_decide as Hold; [done|].
  destruct df as [cols rs]. simpl in *. f_equal.
  - symmetry. rewrite <-(list_fmap_id cols) at 2. apply list_fmap_ext.
    intros i c Hc. rewrite decide_False; [done|]. intros ->.
    apply Hold. by eapply list_elem_of_lookup_2.
  - symmetry. rewrite <-(list_fmap_id rs) at 2. apply list_fmap_ext.
    intros i r Hr. simpl.
    pose proof (proj1 (Forall_lookup _ _) (Hrows Hold) i r Hr) as [Ho Hn].
    apply map_eq. intros k. rewrite lookup_row_set, lookup_delete, Ho.
    repeat case_decide; by subst.
Qed.

Lemma assign_date_Ok c df :
  c ∈ columns df →
  Forall (λ r : Row, ∃ t, r !! c = Some (VStamp t)) (rows df) →
  assign_date c df
  = Ok {| columns := columns df; rows := date_of_stamp c <$> rows df |}.
Proof.
  intros Hc Hrows. unfold assign_date. rewrite decide_True by done.
  rewrite (mapM_result_Ok _ (date_of_stamp c)); [done|].
  eapply Forall_impl; [exact Hrows|]. intros r [t Ht]. simpl.
  unfold date_of_stamp. by rewrite Ht.
Qed.

Lemma notna_row_set_self c (v : cell) (r : Row) :
  notna c (row_set c v r) = bool_decide (is_Some v).
Proof.
  unfold notna, isna. rewrite lookup_row_set, decide_True by done.
  by destruct v.
Qed.

Lemma notna_spec c (r : Row) : notna c r ↔ is_Some (r !! c).
Proof.
  unfold notna, isna. destruct (r !! c) eqn:Hc; simpl.
  - naive_solver.
  - split; [done|]. by intros [? ?].
Qed.

Lemma isna_spec c (r : Row) : isna c r ↔ r !! c = None.
Proof. unfold isna. apply bool_decide_spec. Qed.

(** The steps of [load_daily_data] after the concatenation, on a reshaped
    table. *)
Lemma daily_pipeline (cols : list string) (raw : list Row) :
  "Harga" ∈ cols → "Tanggal" ∈ cols →
  (∀ c, c ∈ cols → c ∈ raw_names) →
  Forall (raw_ok cols) raw →
  (out ← df_dropna "Harga" {| columns := cols; rows := raw |};
   out ← assign_map "Harga" to_numeric out;
   out ← df_dropna "Harga" out;
   assign_date "Tanggal"
     (rename_column "Prov/Kab/Kota" "Provinsi" (rename_column " " "Sumber" out)))
  = Ok {| columns := canonical_name <$> cols; rows := omap survivor raw |}.
Proof.
  intros HH HT Hcols Hraw.
  rewrite df_dropna_Ok by done. cbn [mbind result_bind columns rows].
  rewrite assign_map_Ok by done. cbn [mbind result_bind columns rows].
  rewrite df_dropna_Ok by done. cbn [mbind result_bind columns rows].
  set (num := λ r : Row, row_set "Harga" (r !! "Harga" ≫= to_numeric) r).
  set (rs := filter (λ r, notna "Harga" r)
               (num <$> filter (λ r, notna "Harga" r) raw)).
  assert (Hrs : Forall (λ r : Row,
                  (∃ t, r !! "Tanggal" = Some (VStamp t))
                  ∧ ∀ k, is_Some (r !! k) → k ∈ cols) rs).
  { apply Forall_forall. intros r1 Hr1. unfold rs in Hr1.
    apply list_elem_of_filter in Hr1 as [_ Hr1].
    apply list_elem_of_fmap in Hr1 as (r & -> & Hr).
    apply list_elem_of_filter in Hr as [_ Hr].
    destruct (proj1 (Forall_forall _ _) Hraw r Hr) as [[t Ht] Hk].
    unfold num. split.
    - exists t. by rewrite lookup_row_set, decide_False.
    - intros k. rewrite lookup_row_set. case_decide; subst; [done|]. apply Hk. }
  assert (Hnot : ∀ k, k ∉ raw_names → Forall (λ r : Row, r !! k = None) rs).
  { intros k Hk. eapply Forall_impl; [exact Hrs|]. intros r [_ Hr]. simpl.
    destruct (r !! k) eqn:Hrk; [|done]. exfalso. apply Hk, Hcols, Hr. by rewrite Hrk. }
  assert (Habs : ∀ k, k ∉ cols → Forall (λ r : Row, r !! k = None) rs).
  { intros k Hk. eapply Forall_impl; [exact Hrs|]. intros r [_ Hr]. simpl.
    destruct (r !! k) eqn:Hrk; [|done]. exfalso. apply Hk, Hr. by rewrite Hrk. }
  rewrite (rename_column_spec " " "Sumber"); cycle 1.
  { simpl. intros Hold. apply Forall_and. split; [by apply Habs|].
    apply Hnot. unfold raw_names. rewrite !elem_of_cons, elem_of_nil. naive_solver. }
  rewrite (rename_column_spec "Prov/Kab/Kota" "Provinsi"); cycle 1.
  { simpl. intros Hold. apply Forall_fmap.
    assert (Hp : "Prov/Kab/Kota" ∉ cols).
    { intros Hp. apply Hold. apply list_elem_of_fmap.
      exists "Prov/Kab/Kota". by rewrite decide_False. }
    assert (Hn : "Provinsi" ∉ raw_names).
    { unfold raw_names. rewrite !elem_of_cons, elem_of_nil. naive_solver. }
    pose proof (Habs _ Hp) as H1. pose proof (Hnot _ Hn) as H2.
    pose proof (proj2 (Forall_and _ _) (conj H1 H2)) as H3.
    eapply Forall_impl; [exact H3|]. intros r [Hr1 Hr2]. simpl in *.
    lookup_solver. }
  cbn [columns rows].
  rewrite assign_date_Ok; cycle 1.
  { cbn [columns]. rewrite <-list_fmap_compose. apply list_elem_of_fmap.
    exists "Tanggal". split; [|done]. simpl. by repeat case_decide. }
  { cbn [rows]. rewrite <-list_fmap_compose. apply Forall_fmap.
    eapply Forall_impl; [exact Hrs|]. intros r [[t Ht] _]. exists t. simpl.
    lookup_solver. }
  cbn [columns rows]. f_equal. f_equal.
  { rewrite <-list_fmap_compose. apply list_fmap_ext. intros _ c _. simpl.
    unfold canonical_name. by repeat case_decide; subst. }
  rewrite <-!list_fmap_compose. unfold rs. clear Hrs Hnot Habs rs.
  induction Hraw as [|r raw [[t Ht] Hk] Hraw IH]; [done|].
  rewrite filter_cons. cbn [omap list_omap].
  destruct (r !! "Harga") as [v|] eqn:Hv; cycle 1.
  { rewrite decide_False by (rewrite notna_spec, Hv; by intros [? ?]).
    unfold survivor at 1. rewrite Hv. simpl. apply IH. }
  rewrite decide_True by (by rewrite notna_spec, Hv).
  rewrite fmap_cons, filter_cons.
  assert (Hn : notna "Harga" (num r) ↔ is_Some (to_numeric v)).
  { unfold num. rewrite notna_spec, lookup_row_set, decide_True by done.
    by rewrite Hv. }
  destruct (price_of (Some v)) as [x|] eqn:Hx.
  - pose proof (survivor_row cols r x t Hcols Hk Ht) as Hs.
    rewrite Hv in Hs. specialize (Hs Hx). simpl in Hs.
    apply price_of_Some in Hx as (v' & [= <-] & Hnum).
    rewrite decide_True by (apply Hn; by rewrite Hnum).
    rewrite fmap_cons, Hs. f_equal; [|apply IH].
    unfold date_of_stamp, num. simpl. rewrite Hv. simpl.
    replace (_ !! "Tanggal") with (Some (VStamp t)); [done|].
    symmetry. lookup_solver.
  - apply price_of_None in Hx as Hx'. simpl in Hx'.
    rewrite decide_False by (rewrite Hn, Hx'; by intros [? ?]).
    unfold survivor at 1. rewrite Hv, Hx. apply IH.
Qed.

Lemma elem_of_date_cols df c : c ∈ date_cols df → ∃ t, c = LStamp t.
Proof.
  unfold date_cols. rewrite list_elem_of_filter. intros [Hc _].
  destruct c; [done|by eexists].
Qed.

Lemma elem_of_melt_rows df (raw : Row) :
  raw ∈ rows (melt df)
  ↔ ∃ c r, c ∈ date_cols df ∧ r ∈ sheet_rows df ∧ raw = raw_row df c r.
Proof.
  rewrite melt_rows, list_elem_of_bind. setoid_rewrite list_elem_of_fmap.
  naive_solver.
Qed.

Lemma raw_row_ok df c r :
  c ∈ date_cols df → raw_ok (columns (melt df)) (raw_row df c r).
Proof.
  intros Hc. destruct (elem_of_date_cols _ _ Hc) as [t ->]. split.
  - exists t. unfold raw_row. lookup_solver.
  - intros k [v Hv]. unfold melt. cbn [columns].
    rewrite elem_of_app, elem_of_base_cols.
    unfold raw_row in Hv. revert Hv. rewrite !elem_of_cons, elem_of_nil.
    repeat first
      [ rewrite lookup_row_set | rewrite lookup_insert | rewrite lookup_empty
      | case_decide; subst ];
      try done; try naive_solver.
    all: intros Hv; left; split; [|naive_solver].
    all: match goal with
         | |- LStr ?b ∈ _ =>
             destruct (decide (LStr b ∈ sheet_columns df)) as [Hin|Hout];
             [exact Hin|by rewrite sheet_cell_None in Hv]
         end.
Qed.

Lemma raw_ok_mono cols cols' (r : Row) :
  (∀ c, c ∈ cols → c ∈ cols') → raw_ok cols r → raw_ok cols' r.
Proof. intros Hc [Ht Hk]. split; [done|]. intros k Hs. by apply Hc, Hk. Qed.

Lemma melt_columns_raw_names df c : c ∈ columns (melt df) → c ∈ raw_names.
Proof.
  unfold melt, raw_names. cbn [columns].
  rewrite elem_of_app, elem_of_base_cols, !elem_of_cons, !elem_of_nil.
  naive_solver.
Qed.


Lemma load_daily_data_Ok (wb : Workbook) (jan feb : Sheet) :
  wb !! "jan26" = Some jan →
  wb !! "feb26" = Some feb →
  load_daily_data wb
  = Ok {| columns := canonical_name
                       <$> unique (columns (melt jan) ++ columns (melt feb));
          rows := omap survivor (rows (melt jan) ++ rows (melt feb)) |}.
Proof.
  intros Hjan Hfeb.
  set (cols := unique (columns (melt jan) ++ columns (melt feb))).
  unfold load_daily_data. cbn [mapM]. unfold read_excel. rewrite Hjan, Hfeb.
  cbn [fmap result_fmap mbind result_bind mret result_ret].
  assert (Hconcat : concat [melt jan; melt feb]
            = {| columns := cols; rows := rows (melt jan) ++ rows (melt feb) |}).
  { unfold concat, cols. cbn. by rewrite !app_nil_r. }
  rewrite Hconcat. apply daily_pipeline.
  - apply unique_elem, elem_of_app. left. unfold melt. cbn [columns].
    apply elem_of_app. right. by right; left.
  - apply unique_elem, elem_of_app. left. unfold melt. cbn [columns].
    apply elem_of_app. right. by left.
  - intros c. unfold cols. rewrite unique_elem, elem_of_app.
    intros [Hc|Hc]; by eapply melt_columns_raw_names.
  - apply Forall_app. split; apply Forall_forall; intros raw;
      rewrite elem_of_melt_rows; intros (c & r & Hc & _ & ->);
      (eapply raw_ok_mono; [|by apply raw_row_ok]);
      intros k Hk; unfold cols; rewrite unique_elem, elem_of_app; auto.
Qed.


(** ** The user input store: reading *)

Lemma lookup_row_of_columns_cons c cells cols i k :
  row_of_columns ((c, cells) :: cols) i !! k
  = if decide (c = k) then mjoin (cells !! i) else row_of_columns cols i !! k.
Proof. unfold row_of_columns. simpl. by rewrite lookup_row_set. Qed.




Lemma read_csv_Ok f date_col :
  date_col ∈ csv_header f →
  read_csv f date_col
  = Ok {| columns := csv_header f;
          rows := row_of_columns
                    (imap (λ j c, (c, read_column f date_col j c)) (csv_header f))
                  <$> seq 0 (length (csv_lines f)) |}.
Proof.
  intros Hd. unfold read_csv. rewrite decide_False.
  - by rewrite decide_True.
  - intros Hnil. rewrite Hnil in Hd. by apply elem_of_nil in Hd.
Qed.




Lemma dt_date_Ok c df :
  c ∈ columns df → rows df ≠ [] →
  Forall (λ r : Row, is_stamp (r !! c)) (rows df) →
  dt_date c df
  = Ok {| columns := columns df;
          rows := (λ r : Row, match r !! c with
                              | Some (VStamp t) => <[c := VDate (ts_date t)]> r
                              | _ => r
                              end) <$> rows df |}.
Proof.
  intros Hc Hne Hst. unfold dt_date. rewrite decide_True by done.
  rewrite bool_decide_eq_true_2 by done. simpl.
  assert (forallb (λ r : Row, is_stamp (r !! c)) (rows df) = true) as ->; [|done].
  apply forallb_forall. intros r Hr. apply Is_true_true.
  apply (proj1 (Forall_forall _ _) Hst). by apply list_elem_of_In.
Qed.



(** ** The input form *)

Lemma lstrip_spec s :
  (∃ pre, s = String.append pre (lstrip s) ∧ all_space pre)
  ∧ (∀ a, first_char (lstrip s) = Some a → isspace a = false).
Proof.
  induction s as [|a s [(pre & Hs & Hpre) Hfirst]]; simpl.
  - split; [by exists EmptyString|done].
  - destruct (isspace a) eqn:Ha.
    + split; [|done]. exists (String a pre). simpl. rewrite Ha.
      split; [exact (f_equal (String a) Hs)|done].
    + split; [by exists EmptyString|]. simpl. by intros ? [= <-].
Qed.

Lemma rstrip_spec s :
  (∃ post, s = String.append (rstrip s) post ∧ all_space post)
  ∧ (∀ a, last_char (rstrip s) = Some a → isspace a = false)
  ∧ (∀ a, first_char (rstrip s) = Some a → first_char s = Some a).
Proof.
  induction s as [|a s [(post & Hs & Hpost) [Hlast Hfirst]]]; simpl.
  - split; [by exists EmptyString|done].
  - destruct (rstrip s) as [|b t] eqn:Hr.
    + simpl in Hs. destruct (isspace a) eqn:Ha.
      * split_and!; [|done..]. exists (String a post). simpl. rewrite Ha.
        split; [exact (f_equal (String a) Hs)|done].
      * split_and!; [|simpl; by intros ? [= <-]|done].
        exists post. simpl. split; [exact (f_equal (String a) Hs)|done].
    + split_and!; [|exact Hlast|done].
      exists post. simpl. simpl in Hs. split; [exact (f_equal (String a) Hs)|done].
Qed.

Lemma strip_spec s : stripped_of s (strip s).
Proof.
  unfold stripped_of, strip.
  destruct (lstrip_spec s) as [(pre & Hs & Hpre) Hfirst].
  destruct (rstrip_spec (lstrip s)) as [(post & Ht & Hpost) [Hlast Hfirst']].
  split_and!.
  - exists pre, post. split_and!; [|done..]. by rewrite <-Ht.
  - intros a Ha. by apply Hfirst, Hfirst'.
  - done.
Qed.

Lemma concat_with_dict df0 (row : dict) :
  columns df0 = canonical_columns → row.*1 = canonical_columns →
  concat [df0; frame_of_dict row]
  = {| columns := canonical_columns; rows := rows df0 ++ [list_to_map row] |}.
Proof.
  intros H0 Hrow. unfold concat, frame_of_dict. simpl. rewrite H0, Hrow.
  f_equal.
Qed.

(** C10. The row built from the form holds the source text without its
    leading and trailing white space and the five other inputs unchanged
    (the price as the number entered).  When the store can be read and has
    the canonical columns, [submit] rewrites the file with the lines it
    had, followed by one line that holds exactly these six fields. *)
Theorem submit_stores_form_row (f : Form) (store : Store) (df0 : DataFrame) :
  load_input_data store = Ok df0 →
  columns df0 = canonical_columns →
  stripped_of (sumber_val f) (strip (sumber_val f))
  ∧ form_row f
    = [("Sumber", VStr (strip (sumber_val f)));
       ("Komoditi", VStr (komoditi_val f));
       ("Tingkat", VStr (tingkat_val f));
       ("Provinsi", VStr (provinsi_val f));
       ("Tanggal", VDate (tanggal_val f));
       ("Harga", VNum (harga_val f))]
  ∧ ∃ f1,
      submit f store = Ok (Some f1)
      ∧ csv_header f1 = canonical_columns
      ∧ csv_lines f1
        = csv_lines (to_csv df0)
          ++ [[strip (sumber_val f); komoditi_val f; tingkat_val f;
               provinsi_val f; date_str (tanggal_val f);
               num_str (harga_val f)]].
Proof.
  intros Hload Hcols. split_and!; [apply strip_spec|done|].
  eexists. split_and!.
  - unfold submit, append_input_row. rewrite Hload. cbn [mbind result_bind].
    rewrite concat_with_dict by done. done.
  - done.
  - unfold to_csv. cbn [columns rows csv_lines]. rewrite fmap_app, Hcols.
    f_equal.
Qed.

(** ** The user input store: appending and reading back *)

Section RoundTrip.
Context {Laws : PyLibLaws L}.

Lemma forallb_false_elem {A} (p : A → bool) (l : list A) x :
  x ∈ l → p x = false → forallb p l = false.
Proof.
  intros Hx Hp. destruct (forallb p l) eqn:Hall; [|done].
  rewrite forallb_forall in Hall. rewrite <-Hp. symmetry. apply Hall.
  by apply list_elem_of_In.
Qed.

(** A column of texts comes back as it was written, when one of the texts
    is a plain text. *)
Lemma infer_column_text (cells : list cell) s :
  Forall text_cell cells → Some (VStr s) ∈ cells → plain_text s →
  infer_column (csv_field <$> cells) = cells.
Proof.
  intros Hcells Hs (Hna & Hnum & Hbool). unfold infer_column.
  assert (Hps : s ∈ filter (λ f, present f) (csv_field <$> cells)).
  { apply list_elem_of_filter. split.
    - unfold present. by rewrite Hna.
    - apply list_elem_of_fmap. by exists (Some (VStr s)). }
  rewrite (forallb_false_elem _ _ s Hps); cycle 1.
  { rewrite Hnum. apply bool_decide_eq_false_2. by intros [? ?]. }
  rewrite (forallb_false_elem _ _ s Hps); cycle 1.
  { rewrite Hbool. apply bool_decide_eq_false_2. by intros [? ?]. }
  rewrite <-list_fmap_compose. rewrite <-(list_fmap_id cells) at 2.
  apply Forall_fmap_ext_1. eapply Forall_impl; [exact Hcells|].
  intros c [->|(t & -> & Ht)]; simpl.
  - by rewrite csv_na_empty.
  - by rewrite Ht.
Qed.

(** A column of numbers comes back as it was written. *)
Lemma infer_column_number (cells : list cell) :
  Forall number_cell cells → infer_column (csv_field <$> cells) = cells.
Proof.
  intros Hcells. unfold infer_column.
  assert (forallb (λ f, bool_decide (is_Some (csv_number f)))
            (filter (λ f, present f) (csv_field <$> cells)) = true) as ->.
  { apply forallb_forall. intros f Hf. apply list_elem_of_In in Hf.
    apply list_elem_of_filter in Hf as [Hp Hf].
    apply list_elem_of_fmap in Hf as (c & -> & Hc).
    destruct (proj1 (Forall_forall _ _) Hcells c Hc) as [->|(x & ->)]; simpl in *.
    - unfold present in Hp. by rewrite csv_na_empty in Hp.
    - rewrite csv_number_num_str. by apply bool_decide_eq_true_2. }
  rewrite <-list_fmap_compose. rewrite <-(list_fmap_id cells) at 2.
  apply Forall_fmap_ext_1. eapply Forall_impl; [exact Hcells|].
  intros c [->|(x & ->)]; simpl.
  - by rewrite csv_na_empty.
  - by rewrite csv_na_num_str, csv_number_num_str.
Qed.

(** A column of dates is read as the time stamps of their midnights. *)
Lemma parse_dates_dates (cells : list cell) :
  Forall date_cell cells →
  parse_dates (csv_field <$> cells) = Some (stamp_of_date <$> cells).
Proof.
  intros Hcells. unfold parse_dates.
  destruct (filter (λ f, present f) (csv_field <$> cells)) as [|f0 fs] eqn:Hps.
  - f_equal. rewrite <-list_fmap_compose. apply Forall_fmap_ext_1.
    apply Forall_forall. intros c Hc.
    destruct (proj1 (Forall_forall _ _) Hcells c Hc) as [->|(d & ->)]; [done|].
    exfalso. assert (Hin : date_str d ∈ filter (λ f, present f) (csv_field <$> cells)).
    { apply list_elem_of_filter. split.
      - unfold present. by rewrite csv_na_date_str.
      - apply list_elem_of_fmap. by exists (Some (VDate d)). }
    rewrite Hps in Hin. by apply elem_of_nil in Hin.
  - assert (Hf0 : ∃ d0, f0 = date_str d0).
    { assert (Hin : f0 ∈ filter (λ f, present f) (csv_field <$> cells))
        by (rewrite Hps; left).
      apply list_elem_of_filter in Hin as [Hp Hin].
      apply list_elem_of_fmap in Hin as (c & -> & Hc).
      destruct (proj1 (Forall_forall _ _) Hcells c Hc) as [->|(d & ->)].
      - unfold present in Hp. simpl in Hp. by rewrite csv_na_empty in Hp.
      - by exists d. }
    destruct Hf0 as [d0 ->]. apply mapM_Some.
    apply Forall2_fmap_l, Forall2_fmap_r, Forall_Forall2_diag.
    eapply Forall_impl; [exact Hcells|].
    intros c [->|(d & ->)]; simpl.
    + by rewrite csv_na_empty.
    + by rewrite csv_na_date_str, csv_datetime_date_str.
Qed.

Lemma field_at_to_csv (rs : list Row) j c :
  canonical_columns !! j = Some c →
  field_at j <$> csv_lines (to_csv {| columns := canonical_columns; rows := rs |})
  = csv_field <$> ((λ r : Row, r !! c) <$> rs).
Proof.
  intros Hj. unfold to_csv. cbn [csv_lines columns rows].
  rewrite <-!list_fmap_compose. apply list_fmap_ext. intros _ r _. simpl.
  unfold field_at, canonical_columns in *.
  repeat (destruct j as [|j]; [by injection Hj as <-|]). done.
Qed.

Lemma stored_row_text (r : Row) c : stored_row r → c ∈ text_columns → text_cell (r !! c).
Proof. intros (_ & Ht & _) Hc. by apply Ht. Qed.

(** The columns [read_csv] reads from a file that [to_csv] wrote. *)
Lemma read_column_to_csv (rs : list Row) (r0 : Row) j c :
  Forall stored_row rs →
  r0 ∈ rs →
  (∀ c, c ∈ text_columns → ∃ s, r0 !! c = Some (VStr s) ∧ plain_text s) →
  canonical_columns !! j = Some c →
  read_column (to_csv {| columns := canonical_columns; rows := rs |}) "Tanggal" j c
  = (λ r : Row, if decide (c = "Tanggal") then stamp_of_date (r !! c) else r !! c)
    <$> rs.
Proof.
  intros Hrs Hr0 Hplain Hj. unfold read_column.
  rewrite (field_at_to_csv rs j c Hj).
  destruct (decide (c = "Tanggal")) as [->|Hne].
  - rewrite parse_dates_dates; [simpl; by rewrite <-list_fmap_compose|].
    apply Forall_fmap. eapply Forall_impl; [exact Hrs|]. by intros r (_ & _ & Hd & _).
  - destruct (decide (c = "Harga")) as [->|Hne'].
    + apply infer_column_number. apply Forall_fmap.
      eapply Forall_impl; [exact Hrs|]. by intros r (_ & _ & _ & Hn).
    + assert (Hc : c ∈ text_columns).
      { apply list_elem_of_lookup_2 in Hj. unfold canonical_columns in Hj.
        unfold text_columns. revert Hj. rewrite !elem_of_cons, !elem_of_nil.
        naive_solver. }
      destruct (Hplain c Hc) as (s & Hs & Hp).
      apply (infer_column_text _ s); [|by apply list_elem_of_fmap; exists r0|done].
      apply Forall_fmap. eapply Forall_impl; [exact Hrs|].
      intros r Hr. by apply stored_row_text.
Qed.

(** Reading a file that [to_csv] wrote from rows of the store gives these
    rows back, when one of them has a plain text in each text column. *)
Lemma read_back (rs : list Row) (r0 : Row) :
  Forall stored_row rs →
  r0 ∈ rs →
  (∀ c, c ∈ text_columns → ∃ s, r0 !! c = Some (VStr s) ∧ plain_text s) →
  load_input_data (Some (to_csv {| columns := canonical_columns; rows := rs |}))
  = Ok {| columns := canonical_columns; rows := rs |}.
Proof.
  intros Hrs Hr0 Hplain.
  set (f := to_csv {| columns := canonical_columns; rows := rs |}).
  assert (Hcols : imap (λ j c, (c, read_column f "Tanggal" j c)) (csv_header f)
            = (λ c, (c, (λ r : Row, if decide (c = "Tanggal")
                                    then stamp_of_date (r !! c) else r !! c) <$> rs))
              <$> canonical_columns).
  { unfold f at 2. cbn [to_csv csv_header columns].
    unfold canonical_columns. cbn [imap fmap list_fmap compose].
    unfold f. by rewrite !(read_column_to_csv rs r0). }
  assert (Hlen : length (csv_lines f) = length rs).
  { unfold f, to_csv. cbn. by rewrite length_fmap. }
  unfold load_input_data. rewrite read_csv_Ok by (repeat constructor).
  cbn [mbind result_bind]. rewrite Hcols, Hlen. clear Hcols Hlen.
  set (cols := (λ c, (c, _)) <$> canonical_columns).
  assert (Hrow : ∀ i (r : Row), rs !! i = Some r → ∀ k,
            row_of_columns cols i !! k
            = if decide (k = "Tanggal") then stamp_of_date (r !! k) else r !! k).
  { intros i r Hr k.
    destruct (proj1 (Forall_lookup _ _) Hrs i r Hr) as (Hkeys & _).
    unfold cols, canonical_columns. cbn [fmap list_fmap].
    rewrite !lookup_row_of_columns_cons, !list_lookup_fmap, Hr.
    unfold row_of_columns. cbn [foldr]. rewrite lookup_empty. simpl.
    repeat case_decide; simplify_eq; try done.
    destruct (r !! k) eqn:Hk; [|done].
    assert (Hin : k ∈ canonical_columns) by (apply Hkeys; by rewrite Hk).
    unfold canonical_columns in Hin. revert Hin.
    rewrite !elem_of_cons, elem_of_nil. naive_solver. }
  clearbody cols.
  assert (Hn : rs ≠ []).
  { intros ->. by apply elem_of_nil in Hr0. }
  rewrite dt_date_Ok; cycle 1.
  { repeat constructor. }
  { cbn [rows]. destruct rs; [done|]. done. }
  { cbn [rows]. apply Forall_fmap, Forall_forall. intros i Hi. simpl.
    apply elem_of_seq in Hi as [_ Hi]. simpl in Hi.
    destruct (lookup_lt_is_Some_2 rs i Hi) as [r Hr].
    rewrite (Hrow i r Hr), decide_True by done.
    destruct (proj1 (Forall_lookup _ _) Hrs i r Hr) as (_ & _ & Hd & _).
    by destruct Hd as [->|(d & ->)]. }
  cbn [columns rows]. do 2 f_equal. apply list_eq. intros i.
  rewrite !list_lookup_fmap.
  destruct (rs !! i) as [r|] eqn:Hr.
  - rewrite lookup_seq_lt by (by eapply lookup_lt_Some). simpl. f_equal.
    pose proof (Hrow i r Hr) as Hk.
    destruct (proj1 (Forall_lookup _ _) Hrs i r Hr) as (_ & _ & Hd & _).
    apply map_eq. intros k. rewrite (Hk "Tanggal"), decide_True by done.
    destruct Hd as [Hd|(d & Hd)]; rewrite Hd; simpl.
    + rewrite Hk. case_decide; subst; by rewrite ?Hd.
    + rewrite lookup_insert. case_decide; subst; [done|].
      rewrite Hk. by rewrite decide_False.
  - rewrite lookup_seq_ge; [done|]. by apply lookup_ge_None.
Qed.

Lemma entered_row_stored (row : dict) :
  entered_row row →
  stored_row (list_to_map row)
  ∧ (∀ c, c ∈ text_columns →
       ∃ s, (list_to_map row : Row) !! c = Some (VStr s) ∧ plain_text s)
  ∧ row.*1 = canonical_columns.
Proof.
  intros (s & k & t & p & d & x & -> & Hs & Hk & Ht & Hp).
  cbn [list_to_map foldr fmap list_fmap fst uncurry].
  assert (Htext : ∀ c, c ∈ text_columns →
            ∃ s', (<["Sumber":=VStr s]> (<["Komoditi":=VStr k]>
                    (<["Tingkat":=VStr t]> (<["Provinsi":=VStr p]>
                      (<["Tanggal":=VDate d]> (<["Harga":=VNum x]> ∅)))))
                    : Row) !! c = Some (VStr s') ∧ plain_text s').
  { intros c. unfold text_columns. rewrite !elem_of_cons, elem_of_nil.
    intros [->|[->|[->|[->|[]]]]]; eexists; (split; [by lookup_solver|done]). }
  split_and!; [split_and!|exact Htext|done].
  - intros c. unfold canonical_columns. rewrite !elem_of_cons, elem_of_nil.
    intros [v Hv]. revert Hv. lookup_solver; naive_solver.
  - intros c Hc. destruct (Htext c Hc) as (s' & Hs' & (Hna & _)).
    right. by exists s'.
  - right. exists d. lookup_solver.
  - right. exists x. lookup_solver.
Qed.

(** C2 (as amended). When the store can be read, has the canonical columns
    and holds rows of the schema's types, and the appended row is a row as
    the form builds it whose four texts are plain texts, then [append]
    followed by [read] returns the rows that [read] returned before,
    unchanged and in their order, followed by the appended row: the last
    row is the appended row and the row count is one greater. *)
Theorem append_then_read (store : Store) (df0 : DataFrame) (row : dict) :
  load_input_data store = Ok df0 →
  columns df0 = canonical_columns →
  Forall stored_row (rows df0) →
  entered_row row →
  ∃ store1 df1,
    append_input_row row store = Ok store1
    ∧ load_input_data store1 = Ok df1
    ∧ columns df1 = canonical_columns
    ∧ rows df1 = rows df0 ++ [list_to_map row]
    ∧ last (rows df1) = Some (list_to_map row)
    ∧ length (rows df1) = S (length (rows df0))
    ∧ Forall stored_row (rows df1).
Proof.
  intros Hload Hcols Hrows Hrow.
  destruct (entered_row_stored row Hrow) as (Hst & Hplain & Hkeys).
  eexists _, _. split_and!.
  - unfold append_input_row. rewrite Hload. cbn [mbind result_bind].
    rewrite concat_with_dict by done. done.
  - apply (read_back _ (list_to_map row)); [|by apply elem_of_app; right; left|done].
    apply Forall_app. split; [done|]. by constructor.
  - done.
  - done.
  - cbn [rows]. apply last_snoc.
  - cbn [rows]. rewrite length_app. simpl. lia.
  - cbn [rows]. apply Forall_app. split; [done|]. by constructor.
Qed.

End RoundTrip.

(** ** The displayed order *)

Section Sorting.
Context {Sorts : ArgsortSorts Srt}.

Lemma omap_lookup_seq {A} (l : list A) :
  omap (λ i, l !! i) (seq 0 (length l)) = l.
Proof.
  induction l as [|x l IH] using rev_ind; [done|].
  rewrite length_app. simpl. rewrite Nat.add_1_r, seq_S, omap_app. simpl.
  rewrite list_lookup_middle by done. simpl.
  f_equal. rewrite <-IH at 2. apply list_omap_ext.
  apply Forall_Forall2_diag, Forall_forall.
  intros i Hi. apply elem_of_seq in Hi as [_ Hi]. simpl in Hi.
  by rewrite lookup_app_l.
Qed.

Lemma take_rows_Permutation (rs : list Row) idx :
  idx ≡ₚ seq 0 (length rs) → take_rows rs idx ≡ₚ rs.
Proof. intros Hidx. unfold take_rows. by rewrite Hidx, omap_lookup_seq. Qed.

Lemma omap_lookup_fmap {A B} (f : A → B) (l : list A) (idx : list nat) :
  omap (λ i, (f <$> l) !! i) idx = f <$> omap (λ i, l !! i) idx.
Proof.
  induction idx as [|i idx IH]; [done|]. cbn [omap list_omap].
  rewrite list_lookup_fmap, IH. by destruct (l !! i).
Qed.

Lemma StronglySorted_date_order (rs : list Row) :
  Forall (λ r : Row, ∃ d, r !! "Tanggal" = Some (VDate d)) rs →
  StronglySorted Z.le (date_of <$> rs) → StronglySorted date_order rs.
Proof.
  induction 1 as [|r rs [d Hd] Hrs IH]; [constructor|].
  rewrite fmap_cons, !StronglySorted_cons. intros [Hle Hs]. split; [|by apply IH].
  apply Forall_fmap in Hle. clear IH Hs.
  induction Hrs as [|r' rs' [d' Hd'] Hrs' IH']; [constructor|].
  apply Forall_cons in Hle as [Hle Hle']. constructor; [|by apply IH'].
  unfold date_order, date_of in *. simpl in Hle. by rewrite Hd, Hd' in *.
Qed.

Lemma StronglySorted_missing (rs : list Row) :
  Forall (λ r : Row, r !! "Tanggal" = None) rs → StronglySorted date_order rs.
Proof.
  induction 1 as [|r rs Hr Hrs IH]; constructor; [done|].
  eapply Forall_impl; [exact Hrs|]. intros r' Hr'. simpl.
  unfold date_order. rewrite Hr'. by destruct (r !! "Tanggal") as [[]|].
Qed.

Lemma sort_values_spec df :
  dates_ok df →
  ∃ out,
    sort_values "Tanggal" df = Ok out
    ∧ columns out = columns df
    ∧ rows out ≡ₚ rows df
    ∧ StronglySorted date_order (rows out).
Proof.
  intros [Hc Hd]. unfold sort_values. rewrite decide_True by done.
  set (non_nans := filter (λ r, notna "Tanggal" r) (rows df)).
  set (nans := filter (λ r, isna "Tanggal" r) (rows df)).
  assert (Hdated : Forall (λ r : Row, ∃ d, r !! "Tanggal" = Some (VDate d)) non_nans).
  { apply Forall_forall. intros r Hr. apply list_elem_of_filter in Hr as [Hn Hr].
    apply notna_spec in Hn as [v Hv].
    pose proof (proj1 (Forall_forall _ _) Hd r Hr) as Hdm. simpl in Hdm.
    rewrite Hv in Hdm. destruct v; try done. by eexists. }
  assert (Hmissing : Forall (λ r : Row, r !! "Tanggal" = None) nans).
  { apply Forall_forall. intros r Hr. apply list_elem_of_filter in Hr as [Hn _].
    by apply isna_spec. }
  rewrite (mapM_result_Ok _ date_of); cycle 1.
  { eapply Forall_impl; [exact Hdated|]. intros r [d Hr]. simpl.
    unfold date_key, date_of. by rewrite Hr. }
  cbn [mbind result_bind mret result_ret].
  destruct (argsort_sorts (date_of <$> non_nans)) as [Hperm Hsorted].
  rewrite length_fmap in Hperm.
  pose proof (take_rows_Permutation non_nans _ Hperm) as Htake.
  eexists. split_and!; [done..| |]; cbn [rows].
  - rewrite Htake.
    assert (nans = filter (λ r : Row, ¬ notna "Tanggal" r) (rows df)) as ->.
    { apply list_filter_iff. intros r. unfold notna.
      destruct (isna "Tanggal" r); simpl; naive_solver. }
    apply filter_app_complement.
  - apply StronglySorted_app_2.
    + intros r1 r2 _ Hr2. pose proof (proj1 (Forall_forall _ _) Hmissing r2 Hr2) as Hn.
      simpl in Hn. unfold date_order. rewrite Hn.
      by destruct (r1 !! "Tanggal") as [[]|].
    + apply StronglySorted_date_order.
      * rewrite <-Htake in Hdated. exact Hdated.
      * unfold take_rows. by rewrite <-omap_lookup_fmap.
    + by apply StronglySorted_missing.
Qed.

Lemma dates_ok_sublist df rs :
  dates_ok df → rs ⊆ rows df → dates_ok {| columns := columns df; rows := rs |}.
Proof.
  intros [Hc Hd] Hsub. split; [done|]. cbn [rows].
  apply Forall_forall. intros r Hr. apply (proj1 (Forall_forall _ _) Hd). by apply Hsub.
Qed.

End Sorting.

(** ** The rows of the combined view *)

Lemma survivor_schema (raw r : Row) :
  survivor raw = Some r →
  (∃ x, r !! "Harga" = Some (VNum x))
  ∧ (∃ d, r !! "Tanggal" = Some (VDate d))
  ∧ (∀ k, is_Some (r !! k) → k ∈ canonical_columns).
Proof.
  unfold survivor. destruct (price_of _) as [x|]; [|done].
  destruct (raw !! "Tanggal") as [[]|]; try done. intros [= <-]. split_and!.
  - exists x. lookup_solver.
  - eexists. lookup_solver.
  - intros k [v Hv]. revert Hv. unfold canonical_columns.
    rewrite !elem_of_cons, elem_of_nil. lookup_solver; naive_solver.
Qed.


(** * Further properties of the code *)

(** ** When the loaders of the spreadsheet fail *)

Lemma sheet_getitem_KeyError df c :
  LStr c ∉ sheet_columns df → sheet_getitem df c = Raise (KeyError c).
Proof. intros Hc. unfold sheet_getitem. by rewrite get_loc_None. Qed.

Lemma sheet_getitem_Ok_iff df c :
  (∃ col, sheet_getitem df c = Ok col) ↔ LStr c ∈ sheet_columns df.
Proof.
  split; [|apply sheet_getitem_Ok].
  intros [col Hcol]. destruct (decide (LStr c ∈ sheet_columns df)) as [|Hn]; [done|].
  by rewrite sheet_getitem_KeyError in Hcol.
Qed.

(** X1. [load_choice] fails with the error of the first thing it misses:
    the sheet "choice", then the columns "komoditi", "tingkatan" and
    "Provinsi" in this order; it returns lists exactly when the sheet and
    the three columns exist, whatever the cells hold. *)
Theorem load_choice_failures (wb : Workbook) :
  (wb !! "choice" = None →
   load_choice wb = Raise (WorksheetNotFound "choice"))
  ∧ (∀ df, wb !! "choice" = Some df →
       (LStr "komoditi" ∉ sheet_columns df →
        load_choice wb = Raise (KeyError "komoditi"))
       ∧ (LStr "komoditi" ∈ sheet_columns df →
          LStr "tingkatan" ∉ sheet_columns df →
          load_choice wb = Raise (KeyError "tingkatan"))
       ∧ (LStr "komoditi" ∈ sheet_columns df →
          LStr "tingkatan" ∈ sheet_columns df →
          LStr "Provinsi" ∉ sheet_columns df →
          load_choice wb = Raise (KeyError "Provinsi")))
  ∧ ((∃ lists, load_choice wb = Ok lists)
     ↔ ∃ df, wb !! "choice" = Some df
             ∧ LStr "komoditi" ∈ sheet_columns df
             ∧ LStr "tingkatan" ∈ sheet_columns df
             ∧ LStr "Provinsi" ∈ sheet_columns df).
Proof.
  assert (Hfail : ∀ df, wb !! "choice" = Some df →
       (LStr "komoditi" ∉ sheet_columns df →
        load_choice wb = Raise (KeyError "komoditi"))
       ∧ (LStr "komoditi" ∈ sheet_columns df →
          LStr "tingkatan" ∉ sheet_columns df →
          load_choice wb = Raise (KeyError "tingkatan"))
       ∧ (LStr "komoditi" ∈ sheet_columns df →
          LStr "tingkatan" ∈ sheet_columns df →
          LStr "Provinsi" ∉ sheet_columns df →
          load_choice wb = Raise (KeyError "Provinsi"))).
  { intros df Hdf. unfold load_choice, read_excel. rewrite Hdf.
    cbn [mbind result_bind]. split_and!.
    - intros Hk. by rewrite (sheet_getitem_KeyError _ _ Hk).
    - intros Hk Ht. destruct (sheet_getitem_Ok _ _ Hk) as [ck ->].
      by rewrite (sheet_getitem_KeyError _ _ Ht).
    - intros Hk Ht Hp. destruct (sheet_getitem_Ok _ _ Hk) as [ck ->].
      destruct (sheet_getitem_Ok _ _ Ht) as [ct ->].
      by rewrite (sheet_getitem_KeyError _ _ Hp). }
  split_and!.
  - intros Hwb. unfold load_choice, read_excel. by rewrite Hwb.
  - exact Hfail.
  - split.
    + intros [lists Hl]. destruct (wb !! "choice") as [df|] eqn:Hdf; cycle 1.
      { unfold load_choice, read_excel in Hl. by rewrite Hdf in Hl. }
      destruct (Hfail df eq_refl) as (Hk & Ht & Hp).
      exists df. split; [done|].
      destruct (decide (LStr "komoditi" ∈ sheet_columns df)) as [Hk'|Hk'];
        [|by rewrite (Hk Hk') in Hl].
      destruct (decide (LStr "tingkatan" ∈ sheet_columns df)) as [Ht'|Ht'];
        [|by rewrite (Ht Hk' Ht') in Hl].
      destruct (decide (LStr "Provinsi" ∈ sheet_columns df)) as [Hp'|Hp'];
        [|by rewrite (Hp Hk' Ht' Hp') in Hl].
      done.
    + intros (df & Hdf & Hk & Ht & Hp).
      destruct (sheet_getitem_Ok _ _ Hk) as [ck Hck].
      destruct (sheet_getitem_Ok _ _ Ht) as [ct Hct].
      destruct (sheet_getitem_Ok _ _ Hp) as [cp Hcp].
      eexists. unfold load_choice, read_excel. rewrite Hdf. simpl.
      by rewrite Hck, Hct, Hcp.
Qed.

(** X2. [load_daily_data] needs the two sheets and nothing else: it fails
    with the first of "jan26" and "feb26" that is missing, and with both
    sheets it returns a table whatever the sheets hold (no metadata column,
    no date column and no row is required). *)
Theorem load_daily_data_needs_both_sheets (wb : Workbook) :
  (wb !! "jan26" = None →
   load_daily_data wb = Raise (WorksheetNotFound "jan26"))
  ∧ (is_Some (wb !! "jan26") → wb !! "feb26" = None →
     load_daily_data wb = Raise (WorksheetNotFound "feb26"))
  ∧ ((∃ out, load_daily_data wb = Ok out)
     ↔ is_Some (wb !! "jan26") ∧ is_Some (wb !! "feb26")).
Proof.
  assert (H1 : wb !! "jan26" = None →
               load_daily_data wb = Raise (WorksheetNotFound "jan26")).
  { intros Hj. unfold load_daily_data. cbn [mapM]. unfold read_excel.
    by rewrite Hj. }
  assert (H2 : is_Some (wb !! "jan26") → wb !! "feb26" = None →
               load_daily_data wb = Raise (WorksheetNotFound "feb26")).
  { intros [jan Hj] Hf. unfold load_daily_data. cbn [mapM]. unfold read_excel.
    by rewrite Hj, Hf. }
  split_and!; [done..|]. split.
  - intros [out Hout].
    destruct (wb !! "jan26") as [jan|] eqn:Hj; [|by rewrite H1 in Hout].
    destruct (wb !! "feb26") as [feb|] eqn:Hf; [done|].
    by rewrite H2 in Hout.
  - intros [[jan Hj] [feb Hf]]. eexists. by apply load_daily_data_Ok.
Qed.

(** ** What the filters keep, and when they fail *)

Lemma in_selection_spec values c (r : Row) :
  in_selection values c r ↔ ∃ s, r !! c = Some (VStr s) ∧ s ∈ values.
Proof.
  unfold in_selection. destruct (r !! c) as [[]|]; simpl;
    rewrite ?bool_decide_spec; naive_solver.
Qed.

Lemma category_selected_spec kom ting prov (r : Row) :
  category_selected kom ting prov r
  ↔ (∃ k, r !! "Komoditi" = Some (VStr k) ∧ k ∈ kom)
    ∧ (∃ t, r !! "Tingkat" = Some (VStr t) ∧ t ∈ ting)
    ∧ (∃ p, r !! "Provinsi" = Some (VStr p) ∧ p ∈ prov).
Proof.
  unfold category_selected. rewrite !andb_True, !in_selection_spec. naive_solver.
Qed.

(** X3. The table tab keeps exactly the rows whose commodity, tier and
    province are texts of the three selections: it keeps them in the order
    of the combined view, with all the columns, and it never shows a row
    whose value at one of the three columns is missing or outside the
    selection. *)
Theorem filtered_keeps_exactly_the_selected (combined : DataFrame)
    (kom ting prov : list string) :
  has_category_columns combined →
  ∃ flt,
    filtered combined kom ting prov = Ok flt
    ∧ columns flt = columns combined
    ∧ rows flt `sublist_of` rows combined
    ∧ (∀ r : Row,
         r ∈ rows flt
         ↔ r ∈ rows combined
           ∧ (∃ k, r !! "Komoditi" = Some (VStr k) ∧ k ∈ kom)
           ∧ (∃ t, r !! "Tingkat" = Some (VStr t) ∧ t ∈ ting)
           ∧ (∃ p, r !! "Provinsi" = Some (VStr p) ∧ p ∈ prov)).
Proof.
  intros Hc. eexists. split; [by apply filtered_Ok|]. cbn [columns rows].
  split_and!.
  - done.
  - apply sublist_filter.
  - intros r. rewrite list_elem_of_filter, category_selected_spec. naive_solver.
Qed.

Lemma filter_all {A} (P : A → Prop) `{∀ x, Decision (P x)} (l : list A) :
  (∀ x, x ∈ l → P x) → filter P l = l.
Proof.
  induction l as [|x l IH]; intros HP; [done|].
  rewrite filter_cons, decide_True by (apply HP; by left).
  f_equal. apply IH. intros y Hy. apply HP. by right.
Qed.

(** X4. For the same selections the chart is drawn from rows of the table
    tab: the rows of [plot_df] are rows of [filtered], in the same order;
    each has a date, which lies in the range; a row without a date is never
    plotted; and when every row of the table has a date in the range the
    two tables have the same rows. *)
Theorem plot_rows_are_table_rows (combined : DataFrame)
    (kom ting prov : list string) (start_date end_date : date) :
  has_category_columns combined →
  dates_ok combined →
  ∃ flt plot,
    filtered combined kom ting prov = Ok flt
    ∧ plot_df combined kom ting prov start_date end_date = Ok plot
    ∧ rows plot `sublist_of` rows flt
    ∧ (∀ r : Row, r ∈ rows plot →
         ∃ d, r !! "Tanggal" = Some (VDate d) ∧ start_date ≤ d ≤ end_date)
    ∧ ((∀ r : Row, r ∈ rows flt →
          ∃ d, r !! "Tanggal" = Some (VDate d) ∧ start_date ≤ d ≤ end_date) →
       rows plot = rows flt).
Proof.
  intros Hc Hd. eexists _, _.
  split; [by apply filtered_Ok|]. split; [by apply plot_df_Ok|].
  cbn [rows].
  assert (Hrange : ∀ r : Row, date_in_range start_date end_date r
            ↔ ∃ d, r !! "Tanggal" = Some (VDate d) ∧ start_date ≤ d ≤ end_date).
  { intros r. unfold date_in_range. destruct (r !! "Tanggal") as [[]|]; simpl;
      rewrite ?andb_True, ?bool_decide_spec; naive_solver. }
  assert (Heq : filter (λ r, category_selected kom ting prov r
                             && date_in_range start_date end_date r)
                  (rows combined)
                = filter (λ r, date_in_range start_date end_date r)
                    (filter (λ r, category_selected kom ting prov r)
                       (rows combined))).
  { rewrite list_filter_filter. apply list_filter_iff. intros r.
    rewrite andb_True. naive_solver. }
  rewrite Heq. split_and!.
  - apply sublist_filter.
  - intros r Hr. apply list_elem_of_filter in Hr as [Hr _]. by apply Hrange.
  - intros Hall. apply filter_all. intros r Hr. by apply Hrange, Hall.
Qed.

Lemma getitem_KeyError df c :
  c ∉ columns df → getitem df c = Raise (KeyError c).
Proof. intros Hc. unfold getitem. by rewrite decide_False. Qed.

Lemma mapM_result_Raise {A B} (f : A → result B) (l : list A) x e :
  x ∈ l → f x = Raise e → (∀ y, y ∈ l → ∀ e', f y = Raise e' → e' = e) →
  mapM f l = Raise e.
Proof.
  induction l as [|y l IH]; intros Hx Hfx Hall; [by apply elem_of_nil in Hx|].
  cbn [mapM]. destruct (f y) as [b|e'] eqn:Hy.
  - cbn. apply elem_of_cons in Hx as [->|Hx]; [congruence|].
    rewrite IH; [done..|]. intros y' Hy'. apply Hall. by right.
  - cbn. f_equal. eapply Hall; [|exact Hy]. by left.
Qed.

(** X5. The table's filter reads the three category columns and nothing
    else: it fails with a [KeyError] for the first of "Komoditi", "Tingkat"
    and "Provinsi" that the combined view lacks, and it succeeds exactly
    when the view has the three, whatever the column "Tanggal" holds.  The
    chart's filter also reads "Tanggal": it fails with a [KeyError] when
    the column is missing and with a [TypeError] when the column holds a
    value that is not a date. *)
Theorem filters_fail_on_missing_columns (combined : DataFrame)
    (kom ting prov : list string) (start_date end_date : date) :
  ("Komoditi" ∉ columns combined →
   filtered combined kom ting prov = Raise (KeyError "Komoditi"))
  ∧ ("Komoditi" ∈ columns combined → "Tingkat" ∉ columns combined →
     filtered combined kom ting prov = Raise (KeyError "Tingkat"))
  ∧ ("Komoditi" ∈ columns combined → "Tingkat" ∈ columns combined →
     "Provinsi" ∉ columns combined →
     filtered combined kom ting prov = Raise (KeyError "Provinsi"))
  ∧ ((∃ flt, filtered combined kom ting prov = Ok flt)
     ↔ has_category_columns combined)
  ∧ (has_category_columns combined → "Tanggal" ∉ columns combined →
     plot_df combined kom ting prov start_date end_date
     = Raise (KeyError "Tanggal"))
  ∧ (has_category_columns combined → "Tanggal" ∈ columns combined →
     (∃ (r : Row) v, r ∈ rows combined ∧ r !! "Tanggal" = Some v
                     ∧ ∀ d, v ≠ VDate d) →
     plot_df combined kom ting prov start_date end_date
     = Raise (TypeError "comparison with datetime.date")).
Proof.
  assert (H1 : "Komoditi" ∉ columns combined →
               filtered combined kom ting prov = Raise (KeyError "Komoditi")).
  { intros Hk. unfold filtered, category_mask. by rewrite (getitem_KeyError _ _ Hk). }
  assert (H2 : "Komoditi" ∈ columns combined → "Tingkat" ∉ columns combined →
               filtered combined kom ting prov = Raise (KeyError "Tingkat")).
  { intros Hk Ht. unfold filtered, category_mask.
    by rewrite (getitem_Ok _ _ Hk), (getitem_KeyError _ _ Ht). }
  assert (H3 : "Komoditi" ∈ columns combined → "Tingkat" ∈ columns combined →
               "Provinsi" ∉ columns combined →
               filtered combined kom ting prov = Raise (KeyError "Provinsi")).
  { intros Hk Ht Hp. unfold filtered, category_mask.
    by rewrite (getitem_Ok _ _ Hk), (getitem_Ok _ _ Ht), (getitem_KeyError _ _ Hp). }
  split_and!; [done..| | |].
  - split.
    + intros [flt Hf].
      destruct (decide ("Komoditi" ∈ columns combined)) as [Hk|Hk];
        [|by rewrite (H1 Hk) in Hf].
      destruct (decide ("Tingkat" ∈ columns combined)) as [Ht|Ht];
        [|by rewrite (H2 Hk Ht) in Hf].
      destruct (decide ("Provinsi" ∈ columns combined)) as [Hp|Hp];
        [|by rewrite (H3 Hk Ht Hp) in Hf].
      done.
    + intros Hc. eexists. by apply filtered_Ok.
  - intros Hc Ht. unfold plot_df. rewrite category_mask_Ok by done.
    cbn [mbind result_bind]. by rewrite (getitem_KeyError _ _ Ht).
  - intros Hc Ht (r & v & Hr & Hv & Hnd). unfold plot_df.
    rewrite category_mask_Ok by done. cbn [mbind result_bind].
    rewrite (getitem_Ok _ _ Ht). cbn [mbind result_bind].
    unfold ge_date, compare_date.
    rewrite (mapM_result_Raise _ _ (r !! "Tanggal")
               (TypeError "comparison with datetime.date")); [done| | |].
    + apply list_elem_of_fmap. by exists r.
    + rewrite Hv. destruct v; try done. by destruct (Hnd d).
    + intros c _ e'. destruct c as [[]|]; try done; by intros [= <-].
Qed.

(** ** When the store cannot be read *)




(** ** What the store keeps *)

Section StoreKeeps.
Context {Laws : PyLibLaws L}.

(** A column without any value comes back without any value. *)
Lemma infer_column_missing (cells : list cell) :
  Forall (λ c, c = None) cells → infer_column (csv_field <$> cells) = cells.
Proof.
  intros Hcells. apply infer_column_number.
  eapply Forall_impl; [exact Hcells|]. intros c ->. by left.
Qed.

Lemma read_column_to_csv_gen (rs : list Row) j c :
  Forall stored_row rs →
  (∀ c, c ∈ text_columns →
     (∃ (r0 : Row) s, r0 ∈ rs ∧ r0 !! c = Some (VStr s) ∧ plain_text s)
     ∨ Forall (λ r : Row, r !! c = None) rs) →
  canonical_columns !! j = Some c →
  read_column (to_csv {| columns := canonical_columns; rows := rs |}) "Tanggal" j c
  = (λ r : Row, if decide (c = "Tanggal") then stamp_of_date (r !! c) else r !! c)
    <$> rs.
Proof.
  intros Hrs Hplain Hj. unfold read_column.
  rewrite (field_at_to_csv rs j c Hj).
  destruct (decide (c = "Tanggal")) as [->|Hne].
  - rewrite parse_dates_dates; [simpl; by rewrite <-list_fmap_compose|].
    apply Forall_fmap. eapply Forall_impl; [exact Hrs|]. by intros r (_ & _ & Hd & _).
  - destruct (decide (c = "Harga")) as [->|Hne'].
    + apply infer_column_number. apply Forall_fmap.
      eapply Forall_impl; [exact Hrs|]. by intros r (_ & _ & _ & Hn).
    + assert (Hc : c ∈ text_columns).
      { apply list_elem_of_lookup_2 in Hj. unfold canonical_columns in Hj.
        unfold text_columns. revert Hj. rewrite !elem_of_cons, !elem_of_nil.
        naive_solver. }
      destruct (Hplain c Hc) as [(r0 & s & Hr0 & Hs & Hp)|Hnone].
      * apply (infer_column_text _ s); [|by apply list_elem_of_fmap; exists r0|done].
        apply Forall_fmap. eapply Forall_impl; [exact Hrs|].
        intros r Hr. by apply stored_row_text.
      * apply infer_column_missing. by apply Forall_fmap.
Qed.

(** Reading a file that [to_csv] wrote from rows of the store gives these
    rows back, when each text column holds a plain text in some row or no
    text at all. *)
Lemma read_back_gen (rs : list Row) :
  rs ≠ [] →
  Forall stored_row rs →
  (∀ c, c ∈ text_columns →
     (∃ (r0 : Row) s, r0 ∈ rs ∧ r0 !! c = Some (VStr s) ∧ plain_text s)
     ∨ Forall (λ r : Row, r !! c = None) rs) →
  load_input_data (Some (to_csv {| columns := canonical_columns; rows := rs |}))
  = Ok {| columns := canonical_columns; rows := rs |}.
Proof.
  intros Hn Hrs Hplain.
  set (f := to_csv {| columns := canonical_columns; rows := rs |}).
  assert (Hcols : imap (λ j c, (c, read_column f "Tanggal" j c)) (csv_header f)
            = (λ c, (c, (λ r : Row, if decide (c = "Tanggal")
                                    then stamp_of_date (r !! c) else r !! c) <$> rs))
              <$> canonical_columns).
  { unfold f at 2. cbn [to_csv csv_header columns].
    unfold canonical_columns. cbn [imap fmap list_fmap compose].
    unfold f. by rewrite !(read_column_to_csv_gen rs). }
  assert (Hlen : length (csv_lines f) = length rs).
  { unfold f, to_csv. cbn. by rewrite length_fmap. }
  unfold load_input_data. rewrite read_csv_Ok by (repeat constructor).
  cbn [mbind result_bind]. rewrite Hcols, Hlen. clear Hcols Hlen.
  set (cols := (λ c, (c, _)) <$> canonical_columns).
  assert (Hrow : ∀ i (r : Row), rs !! i = Some r → ∀ k,
            row_of_columns cols i !! k
            = if decide (k = "Tanggal") then stamp_of_date (r !! k) else r !! k).
  { intros i r Hr k.
    destruct (proj1 (Forall_lookup _ _) Hrs i r Hr) as (Hkeys & _).
    unfold cols, canonical_columns. cbn [fmap list_fmap].
    rewrite !lookup_row_of_columns_cons, !list_lookup_fmap, Hr.
    unfold row_of_columns. cbn [foldr]. rewrite lookup_empty. simpl.
    repeat case_decide; simplify_eq; try done.
    destruct (r !! k) eqn:Hk; [|done].
    assert (Hin : k ∈ canonical_columns) by (apply Hkeys; by rewrite Hk).
    unfold canonical_columns in Hin. revert Hin.
    rewrite !elem_of_cons, elem_of_nil. naive_solver. }
  clearbody cols.
  rewrite dt_date_Ok; cycle 1.
  { repeat constructor. }
  { cbn [rows]. destruct rs; [done|]. done. }
  { cbn [rows]. apply Forall_fmap, Forall_forall. intros i Hi. simpl.
    apply elem_of_seq in Hi as [_ Hi]. simpl in Hi.
    destruct (lookup_lt_is_Some_2 rs i Hi) as [r Hr].
    rewrite (Hrow i r Hr), decide_True by done.
    destruct (proj1 (Forall_lookup _ _) Hrs i r Hr) as (_ & _ & Hd & _).
    by destruct Hd as [->|(d & ->)]. }
  cbn [columns rows]. do 2 f_equal. apply list_eq. intros i.
  rewrite !list_lookup_fmap.
  destruct (rs !! i) as [r|] eqn:Hr.
  - rewrite lookup_seq_lt by (by eapply lookup_lt_Some). simpl. f_equal.
    pose proof (Hrow i r Hr) as Hk.
    destruct (proj1 (Forall_lookup _ _) Hrs i r Hr) as (_ & _ & Hd & _).
    apply map_eq. intros k. rewrite (Hk "Tanggal"), decide_True by done.
    destruct Hd as [Hd|(d & Hd)]; rewrite Hd; simpl.
    + rewrite Hk. case_decide; subst; by rewrite ?Hd.
    + rewrite lookup_insert. case_decide; subst; [done|].
      rewrite Hk. by rewrite decide_False.
  - rewrite lookup_seq_ge; [done|]. by apply lookup_ge_None.
Qed.

(** One submitted form: what is written and what is read back. *)
Lemma submit_read_back (store : Store) (df0 : DataFrame) (f : Form) :
  load_input_data store = Ok df0 →
  columns df0 = canonical_columns →
  Forall stored_row (rows df0) →
  entered_row (form_row f) →
  let rs := rows df0 ++ [list_to_map (form_row f)] in
  submit f store
  = Ok (Some (to_csv {| columns := canonical_columns; rows := rs |}))
  ∧ load_input_data
      (Some (to_csv {| columns := canonical_columns; rows := rs |}))
    = Ok {| columns := canonical_columns; rows := rs |}
  ∧ Forall stored_row rs.
Proof.
  intros Hload Hcols Hrows Hrow.
  destruct (entered_row_stored _ Hrow) as (Hst & Hplain & Hkeys).
  assert (Hall : Forall stored_row (rows df0 ++ [list_to_map (form_row f)])).
  { apply Forall_app. split; [done|]. by constructor. }
  split_and!.
  - unfold submit, append_input_row. rewrite Hload. cbn [mbind result_bind].
    by rewrite concat_with_dict.
  - apply (read_back _ (list_to_map (form_row f)));
      [done|by apply elem_of_app; right; left|done].
  - done.
Qed.

(** X7. The store only grows: when forms with plain texts are submitted one
    after the other to a store that can be read (canonical columns, rows of
    the schema's types), the store can be read afterwards, and it holds the
    rows it held followed by the rows of the forms in the order of
    submission. *)
Theorem submit_all_accumulates (fs : list Form) (store : Store)
    (df0 : DataFrame) :
  load_input_data store = Ok df0 →
  columns df0 = canonical_columns →
  Forall stored_row (rows df0) →
  Forall (λ f, entered_row (form_row f)) fs →
  ∃ store' df,
    submit_all fs store = Ok store'
    ∧ load_input_data store' = Ok df
    ∧ columns df = canonical_columns
    ∧ rows df = rows df0 ++ ((λ f, list_to_map (form_row f) : Row) <$> fs).
Proof.
  revert store df0.
  induction fs as [|f fs IH]; intros store df0 Hload Hcols Hrows Hfs.
  - exists store, df0. by rewrite app_nil_r.
  - apply Forall_cons in Hfs as [Hf Hfs].
    destruct (submit_read_back store df0 f Hload Hcols Hrows Hf)
      as (Hsub & Hread & Hall).
    destruct (IH _ _ Hread eq_refl Hall Hfs) as (store' & df & Hs & Hl & Hc & Hr).
    exists store', df. split_and!; try done.
    + cbn [submit_all]. rewrite Hsub. done.
    + rewrite Hr. cbn [rows]. by rewrite <-app_assoc.
Qed.

Lemma lstrip_all_space s : all_space s → lstrip s = "".
Proof.
  induction s as [|a s IH]; [done|]. simpl.
  destruct (isspace a); [|done]. exact IH.
Qed.

Lemma strip_all_space s : all_space s → strip s = "".
Proof. intros Hs. unfold strip. by rewrite lstrip_all_space. Qed.

(** X8. A source that is left blank is lost: when the source of the form
    is empty or white space only (the other texts being plain), the row
    that is appended to an absent store has the empty text as source, and
    the row that is read back has no source at all, its other five cells
    being those of the form. *)
Theorem blank_source_is_lost (f : Form) :
  all_space (sumber_val f) →
  plain_text (komoditi_val f) →
  plain_text (tingkat_val f) →
  plain_text (provinsi_val f) →
  (list_to_map (form_row f) : Row) !! "Sumber" = Some (VStr "")
  ∧ ∃ store1,
      submit f None = Ok store1
      ∧ load_input_data store1
        = Ok {| columns := canonical_columns;
                rows := [delete "Sumber" (list_to_map (form_row f) : Row)] |}.
Proof.
  intros Hs Hk Ht Hp.
  assert (Hrow : form_row f
            = [("Sumber", VStr ""); ("Komoditi", VStr (komoditi_val f));
               ("Tingkat", VStr (tingkat_val f));
               ("Provinsi", VStr (provinsi_val f));
               ("Tanggal", VDate (tanggal_val f));
               ("Harga", VNum (harga_val f))]).
  { unfold form_row. by rewrite strip_all_space. }
  rewrite Hrow. set (m := list_to_map _).
  assert (Hm : ∀ k, m !! k
            = if decide (k = "Sumber") then Some (VStr "")
              else if decide (k = "Komoditi") then Some (VStr (komoditi_val f))
              else if decide (k = "Tingkat") then Some (VStr (tingkat_val f))
              else if decide (k = "Provinsi") then Some (VStr (provinsi_val f))
              else if decide (k = "Tanggal") then Some (VDate (tanggal_val f))
              else if decide (k = "Harga") then Some (VNum (harga_val f))
              else None).
  { intros k. unfold m. cbn [list_to_map foldr uncurry]. by lookup_solver. }
  split; [by rewrite Hm|].
  eexists. split.
  { unfold submit, append_input_row. cbn [load_input_data mbind result_bind].
    rewrite concat_with_dict; [|done|by rewrite Hrow]. cbn [rows app].
    rewrite Hrow. fold m. reflexivity. }
  assert (Hfile : to_csv {| columns := canonical_columns; rows := [m] |}
                  = to_csv {| columns := canonical_columns;
                              rows := [delete "Sumber" m] |}).
  { unfold to_csv, canonical_columns. cbn [columns rows fmap list_fmap].
    rewrite !lookup_delete, !Hm. reflexivity. }
  rewrite Hfile. apply read_back_gen; [done| |].
  - constructor; [|done]. split_and!.
    + intros k [v Hv]. revert Hv. rewrite lookup_delete, Hm.
      unfold canonical_columns. rewrite !elem_of_cons, elem_of_nil.
      repeat case_decide; intros; subst; try done; auto 10.
    + intros c. unfold text_columns. rewrite !elem_of_cons, elem_of_nil.
      intros [->|[->|[->|[->|[]]]]]; rewrite lookup_delete, Hm;
        [by left|right; eexists..]; (split; [reflexivity|]);
        by destruct Hk, Ht, Hp.
    + right. eexists. by rewrite lookup_delete, Hm.
    + right. eexists. by rewrite lookup_delete, Hm.
  - intros c. unfold text_columns. rewrite !elem_of_cons, elem_of_nil.
    intros [->|[->|[->|[->|[]]]]].
    + right. constructor; [|done]. by rewrite lookup_delete.
    + left. eexists _, _. split; [by left|]. by rewrite lookup_delete, Hm.
    + left. eexists _, _. split; [by left|]. by rewrite lookup_delete, Hm.
    + left. eexists _, _. split; [by left|]. by rewrite lookup_delete, Hm.
Qed.

End StoreKeeps.

(** ** A run of [main] *)

(** X9. In a run in which a form is submitted, the new row is written to
    the store and shown in the table "Data Input Tersimpan", which is read
    after the write; the table of the tab "Rekapan Tabular" and the chart
    are those of the same run without the submission, because they are
    built from the store as it was read at the start of the run: the new
    row reaches them in the next run only. *)
Theorem submitted_row_not_in_views_of_its_run (data_file : option Workbook)
    (store s1 : Store) (inp : Inputs) (f : Form) (p1 : Page) :
  main data_file store (with_submitted (Some f) inp) = (s1, Ok (Some p1)) →
  submit f store = Ok s1
  ∧ load_input_data s1 = Ok (saved_table p1)
  ∧ ∃ p0,
      main data_file store (with_submitted None inp) = (store, Ok (Some p0))
      ∧ load_input_data store = Ok (saved_table p0)
      ∧ rekap_table p1 = rekap_table p0
      ∧ chart_table p1 = chart_table p0.
Proof.
  unfold main. destruct data_file as [wb|]; [|done].
  destruct (load_choice wb) as [c|]; [|done]. cbn [mbind result_bind].
  destruct (load_daily_data wb) as [d|]; [|done]. cbn [mbind result_bind].
  destruct (load_input_data store) as [i|] eqn:Hi; [|done].
  cbn [mbind result_bind mret result_ret submitted with_submitted].
  destruct c as [[ck ct] cp].
  destruct (submit f store) as [s|]; [|done].
  change (tabs d i (with_submitted (Some f) inp)) with (tabs d i inp).
  change (tabs d i (with_submitted None inp)) with (tabs d i inp).
  rewrite Hi. cbn [mbind result_bind].
  destruct (load_input_data s) as [saved|] eqn:Hs; [|by intros [= _ ?]].
  cbn [mbind result_bind].
  destruct (tabs d i inp) as [[rekap chart]|]; [|by intros [= _ ?]].
  cbn [mbind result_bind mret result_ret].
  intros [= <- <-]. cbn [saved_table rekap_table chart_table].
  split_and!; [done..|]. eexists. split; [reflexivity|]. done.
Qed.

(** X10. What a run writes stays written: when the spreadsheet and the
    store are read and the submitted form is appended, the store after the
    run is the store with the new row, whether the rest of the run
    succeeds or fails; in every other case the run leaves the store as it
    was. *)
Theorem run_writes_at_most_one_row (data_file : option Workbook)
    (store : Store) (inp : Inputs) :
  (∀ wb choice daily_data input_data f s1,
     data_file = Some wb →
     load_choice wb = Ok choice →
     load_daily_data wb = Ok daily_data →
     load_input_data store = Ok input_data →
     submitted inp = Some f →
     submit f store = Ok s1 →
     (main data_file store inp).1 = s1)
  ∧ (¬ (∃ wb choice daily_data f s1,
          data_file = Some wb
          ∧ load_choice wb = Ok choice
          ∧ load_daily_data wb = Ok daily_data
          ∧ submitted inp = Some f
          ∧ submit f store = Ok s1) →
     (main data_file store inp).1 = store).
Proof.
  split.
  - intros wb choice daily input f s1 -> Hc Hd Hi Hf Hs. unfold main.
    rewrite Hc, Hd, Hi. cbn [mbind result_bind mret result_ret].
    destruct choice as [[ck ct] cp]. by rewrite Hf, Hs.
  - intros Hnot. unfold main. destruct data_file as [wb|]; [|done].
    destruct (load_choice wb) as [c|] eqn:Hc; [|done].
    cbn [mbind result_bind].
    destruct (load_daily_data wb) as [d|] eqn:Hd; [|done].
    cbn [mbind result_bind].
    destruct (load_input_data store) as [i|]; [|done].
    cbn [mbind result_bind mret result_ret]. destruct c as [[ck ct] cp].
    destruct (submitted inp) as [f|]; [|done].
    destruct (submit f store) as [s1|] eqn:Hs; [|done].
    destruct Hnot. by exists wb, (ck, ct, cp), d, f, s1.
Qed.

(** ** The default range of the chart *)

Lemma mapM_result_inv {A B} (f : A → result B) (l : list A) (k : list B) :
  mapM f l = Ok k → Forall2 (λ x y, f x = Ok y) l k.
Proof.
  revert k. induction l as [|x l IH]; intros k.
  - intros [= <-]. constructor.
  - cbn [mapM]. destruct (f x) as [y|] eqn:Hx; [|done]. cbn.
    destruct (mapM f l) as [k'|]; [|done]. cbn. intros [= <-].
    constructor; [done|by apply IH].
Qed.

Lemma dates_of_column_inv (rs : list Row) (ds : list date) :
  dates_of_column ((λ r : Row, r !! "Tanggal") <$> rs) = Ok ds →
  Forall2 (λ (r : Row) d, r !! "Tanggal" = Some (VDate d)) rs ds.
Proof.
  intros H. apply mapM_result_inv, Forall2_fmap_l in H.
  eapply Forall2_impl; [exact H|]. intros r d. simpl.
  destruct (r !! "Tanggal") as [[]|]; naive_solver.
Qed.

Lemma dates_of_column_Ok (rs : list Row) :
  Forall (λ r : Row, ∃ d, r !! "Tanggal" = Some (VDate d)) rs →
  dates_of_column ((λ r : Row, r !! "Tanggal") <$> rs) = Ok (date_of <$> rs).
Proof.
  intros H. unfold dates_of_column.
  rewrite (mapM_result_Ok _ (λ c, match c with Some (VDate d) => d | _ => 0 end)).
  - by rewrite <-list_fmap_compose.
  - apply Forall_fmap. eapply Forall_impl; [exact H|].
    intros r [d Hd]. simpl. by rewrite Hd.
Qed.

Lemma foldr_min_spec (a : Z) (ds : list Z) :
  foldr Z.min a ds ≤ a
  ∧ Forall (Z.le (foldr Z.min a ds)) ds
  ∧ (foldr Z.min a ds = a ∨ foldr Z.min a ds ∈ ds).
Proof.
  induction ds as [|d ds (IH1 & IH2 & IH3)]; simpl.
  - split_and!; [lia|constructor|by left].
  - split_and!; [lia| |].
    + constructor; [lia|]. eapply Forall_impl; [exact IH2|]. simpl. lia.
    + destruct (Z.min_spec d (foldr Z.min a ds)) as [[_ ->]|[_ ->]].
      * right. by left.
      * destruct IH3 as [?|?]; [by left|right; by right].
Qed.

Lemma foldr_max_spec (a : Z) (ds : list Z) :
  a ≤ foldr Z.max a ds
  ∧ Forall (λ d, d ≤ foldr Z.max a ds) ds
  ∧ (foldr Z.max a ds = a ∨ foldr Z.max a ds ∈ ds).
Proof.
  induction ds as [|d ds (IH1 & IH2 & IH3)]; simpl.
  - split_and!; [lia|constructor|by left].
  - split_and!; [lia| |].
    + constructor; [lia|]. eapply Forall_impl; [exact IH2|]. simpl. lia.
    + destruct (Z.max_spec d (foldr Z.max a ds)) as [[_ ->]|[_ ->]].
      * destruct IH3 as [?|?]; [by left|right; by right].
      * right. by left.
Qed.

Lemma default_range_dated (combined : DataFrame) (today : date) mn mx :
  rows combined ≠ [] → columns combined ≠ [] →
  default_range combined today = Ok (mn, mx) →
  "Tanggal" ∈ columns combined
  ∧ ∃ ds, Forall2 (λ (r : Row) d, r !! "Tanggal" = Some (VDate d))
            (rows combined) ds
          ∧ mn = foldr Z.min (hd 0 ds) ds ∧ mx = foldr Z.max (hd 0 ds) ds.
Proof.
  intros Hr Hc. unfold default_range, df_empty.
  rewrite bool_decide_eq_false_2 by naive_solver.
  unfold getitem. case_decide as Ht; [|done]. cbn [mbind result_bind].
  unfold series_min, series_max.
  destruct (dates_of_column _) as [ds|] eqn:Hds; [|done].
  cbn [mbind result_bind mret result_ret]. intros [= <- <-].
  split; [done|]. exists ds. split; [|done]. by apply dates_of_column_inv.
Qed.

(** X11. When the combined view is not empty and the default range of the
    date input is computed, every row of the view has a date, the date lies
    between the bounds of the range, and each bound is the date of a row:
    the range is the span of the dates of the view. *)
Theorem default_range_is_span_of_dates (combined : DataFrame) (today : date)
    (min_date max_date : date) :
  rows combined ≠ [] →
  columns combined ≠ [] →
  default_range combined today = Ok (min_date, max_date) →
  (∀ r : Row, r ∈ rows combined →
     ∃ d, r !! "Tanggal" = Some (VDate d) ∧ min_date ≤ d ≤ max_date)
  ∧ (∃ r : Row, r ∈ rows combined ∧ r !! "Tanggal" = Some (VDate min_date))
  ∧ (∃ r : Row, r ∈ rows combined ∧ r !! "Tanggal" = Some (VDate max_date)).
Proof.
  intros Hr Hc Hd.
  destruct (default_range_dated _ _ _ _ Hr Hc Hd) as (_ & ds & Hds & -> & ->).
  destruct (foldr_min_spec (hd 0 ds) ds) as (_ & Hmin & Hmin').
  destruct (foldr_max_spec (hd 0 ds) ds) as (_ & Hmax & Hmax').
  assert (Hhd : hd 0 ds ∈ ds).
  { destruct Hds; [done|]. by left. }
  assert (Hrow : ∀ d, d ∈ ds →
            ∃ r : Row, r ∈ rows combined ∧ r !! "Tanggal" = Some (VDate d)).
  { intros d Hin. apply list_elem_of_lookup_1 in Hin as [i Hi].
    destruct (Forall2_lookup_r _ _ _ _ _ Hds Hi) as (r & Hri & Hrd).
    exists r. split; [by eapply list_elem_of_lookup_2|done]. }
  split_and!.
  - intros r Hin. apply list_elem_of_lookup_1 in Hin as [i Hi].
    destruct (Forall2_lookup_l _ _ _ _ _ Hds Hi) as (d & Hdi & Hrd).
    exists d. split; [done|].
    apply list_elem_of_lookup_2 in Hdi.
    pose proof (proj1 (Forall_forall _ _) Hmin d Hdi).
    pose proof (proj1 (Forall_forall _ _) Hmax d Hdi). simpl in *. lia.
  - apply Hrow. by destruct Hmin' as [->|?].
  - apply Hrow. by destruct Hmax' as [->|?].
Qed.

Lemma filter_ext_elem {A} (P Q : A → Prop) `{∀ x, Decision (P x)}
    `{∀ x, Decision (Q x)} (l : list A) :
  (∀ x, x ∈ l → P x ↔ Q x) → filter P l = filter Q l.
Proof.
  induction l as [|x l IH]; intros HPQ; [done|].
  rewrite !filter_cons. rewrite IH by (intros y Hy; apply HPQ; by right).
  pose proof (HPQ x (list_elem_of_here _ _)).
  repeat case_decide; naive_solver.
Qed.

(** X12. When the date input does not return two dates, the chart is drawn
    for the default range, and its table is then the one the category
    filters alone give: no row is left out for its date. *)
Theorem default_range_keeps_every_selected_row (combined : DataFrame)
    (today : date) (date_range : list date) (kom ting prov : list string)
    (min_date max_date : date) :
  has_category_columns combined →
  "Tanggal" ∈ columns combined →
  default_range combined today = Ok (min_date, max_date) →
  length date_range ≠ 2%nat →
  ∃ flt,
    filtered combined kom ting prov = Ok flt
    ∧ plot_df combined kom ting prov
        (chosen_range date_range min_date max_date).1
        (chosen_range date_range min_date max_date).2 = Ok flt.
Proof.
  intros Hc Ht Hd Hlen.
  assert (chosen_range date_range min_date max_date = (min_date, max_date))
    as ->.
  { by destruct date_range as [|? [|? [|? ?]]]. }
  cbn [fst snd].
  assert (Hall : ∀ r : Row, r ∈ rows combined →
            ∃ d, r !! "Tanggal" = Some (VDate d) ∧ min_date ≤ d ≤ max_date).
  { destruct (rows combined) as [|r0 rs] eqn:Hrows.
    - intros r Hr. by apply elem_of_nil in Hr.
    - rewrite <-Hrows. eapply default_range_dated in Hd as (_ & ds & Hds & -> & ->);
        [|by rewrite Hrows|by intros Hnil; rewrite Hnil in Ht; apply elem_of_nil in Ht].
      destruct (foldr_min_spec (hd 0 ds) ds) as (_ & Hmin & _).
      destruct (foldr_max_spec (hd 0 ds) ds) as (_ & Hmax & _).
      intros r Hin. apply list_elem_of_lookup_1 in Hin as [i Hi].
      destruct (Forall2_lookup_l _ _ _ _ _ Hds Hi) as (d & Hdi & Hrd).
      exists d. split; [done|].
      apply list_elem_of_lookup_2 in Hdi.
      pose proof (proj1 (Forall_forall _ _) Hmin d Hdi).
      pose proof (proj1 (Forall_forall _ _) Hmax d Hdi). simpl in *. lia. }
  eexists. split; [by apply filtered_Ok|].
  rewrite plot_df_Ok; [|done|].
  - do 2 f_equal. apply filter_ext_elem. intros r Hr.
    destruct (Hall r Hr) as (d & Hrd & Hle). unfold date_in_range. rewrite Hrd.
    rewrite !bool_decide_eq_true_2 by lia. rewrite andb_True. naive_solver.
  - split; [done|]. apply Forall_forall. intros r Hr.
    destruct (Hall r Hr) as (d & Hrd & _). by rewrite Hrd.
Qed.

(** X13. A row of the combined view whose date is missing (a line of the
    store with an empty date) stops the tab "Tren Harga Harian": the
    default range cannot be computed, whatever is selected, although the
    row is only one of many. *)
Theorem missing_date_stops_the_trend_tab (daily_data input_data : DataFrame)
    (inp : Inputs) (r : Row) :
  "Tanggal" ∈ columns (combine daily_data input_data) →
  r ∈ rows (combine daily_data input_data) →
  r !! "Tanggal" = None →
  (∃ e, default_range (combine daily_data input_data) (today inp) = Raise e)
  ∧ ∃ e, tabs daily_data input_data inp = Raise e.
Proof.
  intros Ht Hr Hnone.
  assert (Hd : ∃ e, default_range (combine daily_data input_data) (today inp)
                    = Raise e).
  { destruct (default_range _ _) as [[mn mx]|e] eqn:Hd; [|by eexists].
    apply default_range_dated in Hd as (_ & ds & Hds & _).
    - apply list_elem_of_lookup_1 in Hr as [i Hi].
      destruct (Forall2_lookup_l _ _ _ _ _ Hds Hi) as (d & _ & Hrd). congruence.
    - intros Hnil. rewrite Hnil in Hr. by apply elem_of_nil in Hr.
    - intros Hnil. rewrite Hnil in Ht. by apply elem_of_nil in Ht. }
  split; [done|]. destruct Hd as [e Hd]. unfold tabs.
  destruct (filtered _ _ _ _) as [flt|]; [|by eexists]. cbn [mbind result_bind].
  destruct (sort_values _ _) as [rekap|]; [|by eexists]. cbn [mbind result_bind].
  rewrite Hd. by eexists.
Qed.

Section Run.
Context {Sorts : ArgsortSorts Srt}.

Lemma default_range_Ok (combined : DataFrame) (today : date) :
  "Tanggal" ∈ columns combined →
  Forall (λ r : Row, ∃ d, r !! "Tanggal" = Some (VDate d)) (rows combined) →
  ∃ min_date max_date,
    default_range combined today = Ok (min_date, max_date).
Proof.
  intros Ht Hd. unfold default_range. destruct (df_empty combined); [by eexists _, _|].
  rewrite getitem_Ok by done. cbn [mbind result_bind].
  unfold series_min, series_max. rewrite dates_of_column_Ok by done.
  cbn [mbind result_bind mret result_ret]. by eexists _, _.
Qed.

(** X14. A run on well-formed data, nothing submitted: when the
    spreadsheet has its three sheets and the store is read as a table with
    the canonical columns whose rows all have a date, [main] succeeds and
    leaves the store as it is.  It shows the store's table; in the tab
    "Rekapan Tabular" the rows of the historical data and of the store
    that pass the three filters, in ascending order of date; and in the
    tab "Tren Harga Harian" the warning exactly when no row passes the
    filters and lies in the chosen range, the chart of these rows in
    ascending order of date otherwise. *)
Theorem run_displays_selected_rows_by_date (wb : Workbook) (jan feb : Sheet)
    (store : Store) (inp : Inputs)
    (choice : list string * list string * list string)
    (input_data : DataFrame) :
  load_choice wb = Ok choice →
  wb !! "jan26" = Some jan →
  wb !! "feb26" = Some feb →
  load_input_data store = Ok input_data →
  columns input_data = canonical_columns →
  Forall (λ r : Row, ∃ d, r !! "Tanggal" = Some (VDate d)) (rows input_data) →
  submitted inp = None →
  ∃ daily_data page min_date max_date,
    load_daily_data wb = Ok daily_data
    ∧ main (Some wb) store inp = (store, Ok (Some page))
    ∧ saved_table page = input_data
    ∧ rows (rekap_table page)
      ≡ₚ filter (λ r, category_selected (kom_filter inp) (ting_filter inp)
                        (prov_filter inp) r)
           (rows daily_data ++ rows input_data)
    ∧ StronglySorted date_order (rows (rekap_table page))
    ∧ default_range (combine daily_data input_data) (today inp)
      = Ok (min_date, max_date)
    ∧ let shown :=
        filter (λ r, category_selected (kom_plot inp) (ting_plot inp)
                       (prov_plot inp) r
                     && date_in_range
                          (chosen_range (date_range inp) min_date max_date).1
                          (chosen_range (date_range inp) min_date max_date).2 r)
          (rows daily_data ++ rows input_data) in
      match chart_table page with
      | None => shown = []
      | Some chart =>
          shown ≠ [] ∧ rows chart ≡ₚ shown
          ∧ StronglySorted date_order (rows chart)
      end.
Proof.
  intros Hchoice Hjan Hfeb Hinput Hcols Hdated Hsub.
  pose proof (load_daily_data_Ok wb jan feb Hjan Hfeb) as Hdaily.
  set (daily := {| columns := _; rows := omap survivor _ |}) in Hdaily.
  assert (Hdaily_dated :
    Forall (λ r : Row, ∃ d, r !! "Tanggal" = Some (VDate d)) (rows daily)).
  { apply Forall_forall. intros r Hr. cbn [daily rows] in Hr.
    apply list_elem_of_omap in Hr as (raw & _ & Hs).
    by destruct (survivor_schema _ _ Hs) as (_ & ? & _). }
  set (combined := combine daily input_data).
  assert (Hrows : rows combined = rows daily ++ rows input_data).
  { unfold combined, combine, concat. cbn [rows fmap list_fmap mjoin list_join].
    by rewrite app_nil_r. }
  assert (Hin : ∀ c, c ∈ canonical_columns → c ∈ columns combined).
  { intros c Hc. unfold combined, combine, concat. cbn [columns].
    apply unique_elem. cbn [fmap list_fmap mjoin list_join].
    rewrite app_nil_r, elem_of_app, Hcols. by right. }
  assert (Hcat : has_category_columns combined).
  { split_and!; apply Hin; unfold canonical_columns; elem_solver. }
  assert (Ht : "Tanggal" ∈ columns combined).
  { apply Hin. unfold canonical_columns. elem_solver. }
  assert (Hall : Forall (λ r : Row, ∃ d, r !! "Tanggal" = Some (VDate d))
                   (rows combined)).
  { rewrite Hrows. by apply Forall_app. }
  assert (Hok : dates_ok combined).
  { split; [done|]. eapply Forall_impl; [exact Hall|].
    intros r [d Hd]. simpl. by rewrite Hd. }
  destruct (default_range_Ok combined (today inp) Ht Hall) as (mn & mx & Hrange).
  pose proof (filtered_Ok combined (kom_filter inp) (ting_filter inp)
                (prov_filter inp) Hcat) as Hflt.
  set (flt := {| columns := columns combined; rows := filter _ (rows combined) |})
    in Hflt.
  destruct (sort_values_spec flt) as (rekap & Hrekap & _ & Hperm & Hsorted).
  { apply dates_ok_sublist; [done|]. intros r.
    rewrite list_elem_of_filter. naive_solver. }
  set (se := chosen_range (date_range inp) mn mx).
  pose proof (plot_df_Ok combined (kom_plot inp) (ting_plot inp) (prov_plot inp)
                se.1 se.2 Hcat Hok) as Hplot.
  set (plot := {| columns := columns combined; rows := filter _ (rows combined) |})
    in Hplot.
  assert (Hchart : ∃ chart,
    (if df_empty plot then Ok None else Some <$> sort_values "Tanggal" plot)
    = Ok chart
    ∧ match chart with
      | None => rows plot = []
      | Some c => rows plot ≠ [] ∧ rows c ≡ₚ rows plot
                  ∧ StronglySorted date_order (rows c)
      end).
  { unfold df_empty. case_bool_decide as He.
    - exists None. split; [done|]. destruct He as [He|He]; [done|].
      cbn [plot columns] in He. rewrite He in Ht. by apply elem_of_nil in Ht.
    - destruct (sort_values_spec plot) as (c & Hc & _ & Hp & Hs).
      { apply dates_ok_sublist; [done|]. intros r.
        rewrite list_elem_of_filter. naive_solver. }
      exists (Some c). rewrite Hc. split; [done|]. split_and!; [|done..].
      intros Hnil. apply He. by left. }
  destruct Hchart as (chart & Hchart & Hshown).
  exists daily, {| saved_table := input_data; rekap_table := rekap;
                   chart_table := chart |}, mn, mx.
  split_and!; [done| |done| | |done|].
  - unfold main. rewrite Hchoice, Hdaily, Hinput.
    cbn [mbind result_bind mret result_ret]. destruct choice as [[ck ct] cp].
    rewrite Hsub, Hinput. cbn [mbind result_bind]. unfold tabs.
    fold combined. rewrite Hflt. cbn [mbind result_bind]. rewrite Hrekap.
    cbn [mbind result_bind]. rewrite Hrange. cbn [mbind result_bind].
    fold se. destruct se as [start_date end_date] eqn:Hse. cbn [fst snd] in *.
    rewrite Hplot. cbn [mbind result_bind]. rewrite Hchart. done.
  - cbn [rekap_table]. rewrite Hperm. cbn [flt rows]. by rewrite Hrows.
  - done.
  - cbn [chart_table]. rewrite <-Hrows. exact Hshown.
Qed.

End Run.

End Properties.

(** * The displayed order *)

Section Display.
Context {L : PyLib}.

(** C7 (as amended). When the combined view has the category columns and
    its column "Tanggal" holds dates, each tab displays the rows of its
    filtered table, every one of them with all its cells and under the same
    columns, no row lost or repeated, in ascending order of date with the
    rows without a date last.  The sort is the one [sort_values] uses by
    default, numpy's quicksort, which returns the positions of the keys in
    ascending order of key ([numpy_argsort_sorts]); the order of rows with
    equal dates is the one it happens to give. *)
Theorem views_sorted_by_date (combined : DataFrame)
    (kom ting prov : list string) (start_date end_date : date) :
  has_category_columns combined →
  dates_ok combined →
  (∃ flt out,
     filtered combined kom ting prov = Ok flt
     ∧ rekap_view (Srt := Numpy.argsort) combined kom ting prov = Ok out
     ∧ columns out = columns combined
     ∧ rows out ≡ₚ rows flt
     ∧ StronglySorted date_order (rows out))
  ∧ (∃ flt out,
       plot_df combined kom ting prov start_date end_date = Ok flt
       ∧ tren_view (Srt := Numpy.argsort) combined kom ting prov
           start_date end_date = Ok out
       ∧ columns out = columns combined
       ∧ rows out ≡ₚ rows flt
       ∧ StronglySorted date_order (rows out)).
Proof.
  intros Hc Hd. split.
  - pose proof (filtered_Ok combined kom ting prov Hc) as Hf.
    set (flt := {| columns := columns combined;
                   rows := filter (λ r, category_selected kom ting prov r)
                             (rows combined) |}) in *.
    destruct (sort_values_spec (Srt := Numpy.argsort)
                (Sorts := NumpyFacts.numpy_argsort_sorts) flt)
      as (out & Hs & Hcols & Hperm & Hsorted).
    { apply dates_ok_sublist; [done|]. intros r.
      rewrite list_elem_of_filter. naive_solver. }
    exists flt, out. split_and!; try done.
    unfold rekap_view. by rewrite Hf.
  - pose proof (plot_df_Ok combined kom ting prov start_date end_date Hc Hd) as Hf.
    set (flt := {| columns := columns combined; rows := filter _ (rows combined) |}) in *.
    destruct (sort_values_spec (Srt := Numpy.argsort)
                (Sorts := NumpyFacts.numpy_argsort_sorts) flt)
      as (out & Hs & Hcols & Hperm & Hsorted).
    { apply dates_ok_sublist; [done|]. intros r.
      rewrite list_elem_of_filter. naive_solver. }
    exists flt, out. split_and!; try done.
    unfold tren_view. by rewrite Hf.
Qed.

End Display.

(** * The example instance satisfies the assumptions *)

Module ExampleFacts.
Import Example.

Lemma Z_of_text_of_Z z : Z_of_text (text_of_Z z) = Some z.
Proof.
  unfold Z_of_text, text_of_Z. rewrite NilZero.isi.
  - simpl. by rewrite DecimalZ.of_to.
  - destruct z; simpl; try done. intros [= Hp]. by apply DecimalPos.Unsigned.to_uint_nonnil in Hp.
  - destruct z; simpl; try done. intros [= Hp]. by apply DecimalPos.Unsigned.to_uint_nonnil in Hp.
Qed.

Lemma date_of_text_of_date d :
  date_of_text (text_of_date d) = Some (mkTimestamp d 0).
Proof. unfold date_of_text, text_of_date. by rewrite Z_of_text_of_Z. Qed.

Lemma na_values_not_numbers s : s ∈ na_values → Z_of_text s = None.
Proof.
  unfold na_values. intros Hs.
  repeat (apply elem_of_cons in Hs as [->|Hs]; [reflexivity|]).
  by apply elem_of_nil in Hs.
Qed.

Lemma lib_laws : PyLibLaws lib.
Proof.
  split; simpl.
  - done.
  - intros x. apply bool_decide_eq_false_2. intros Hx.
    apply na_values_not_numbers in Hx. by rewrite Z_of_text_of_Z in Hx.
  - apply Z_of_text_of_Z.
  - done.
  - intros _ d. apply date_of_text_of_date.
Qed.

#[global] Instance key_le_trans : Transitive key_le.
Proof. intros p q r. unfold key_le. lia. Qed.

#[global] Instance key_le_total : Total key_le.
Proof. intros p q. unfold key_le. lia. Qed.

Lemma zip_seq_lookup (keys : list Z) (k : Z) (i : nat) :
  (k, i) ∈ zip keys (seq 0 (length keys)) → keys !! i = Some k.
Proof.
  intros Hin. apply list_elem_of_lookup in Hin as [j Hj].
  apply lookup_zip_with_Some in Hj as (k' & i' & [= <- <-] & Hk & Hi).
  apply lookup_seq in Hi as [-> _]. done.
Qed.

Lemma merge_argsort_sorts : ArgsortSorts merge_argsort.
Proof.
  intros keys. unfold argsort, merge_argsort.
  set (l := zip keys (seq 0 (length keys))).
  pose proof (merge_sort_Permutation key_le l) as Hperm.
  split.
  - rewrite Hperm. unfold l. rewrite snd_zip; [done|]. by rewrite length_seq.
  - assert (Hkeys : omap (λ i, keys !! i) ((merge_sort key_le l).*2)
                    = (merge_sort key_le l).*1).
    { assert (Hall : Forall (λ p : Z * nat, keys !! p.2 = Some p.1)
                       (merge_sort key_le l)).
      { rewrite Hperm. apply Forall_forall. intros [k i] Hin. by apply zip_seq_lookup. }
      clear Hperm. induction Hall as [|[k i] m Hp Hall IH]; [done|].
      rewrite !fmap_cons. cbn [omap list_omap fst snd]. simpl in Hp.
      by rewrite Hp, IH. }
    rewrite Hkeys. apply (StronglySorted_fmap fst key_le); [done|].
    apply StronglySorted_merge_sort; apply _.
Qed.

End ExampleFacts.

(** * The theorems on the example data *)

Module Scenario.
Import Example ExampleFacts.

(** Closed goals are settled by evaluation. *)
Ltac by_compute := apply (bool_decide_unpack _); vm_cast_no_check I.
Ltac by_eval :=
  match goal with
  | |- _ = ?rhs => vm_cast_no_check (eq_refl rhs)
  end.



(** An empty selection of commodities on the example view. *)
Lemma empty_selection_keeps_no_row_example :
  has_category_columns combined
  ∧ filtered combined [] ["Eceran"] ["Kalbar"]
    = Ok {| columns := columns combined; rows := [] |}.
Proof.
  assert (Hc : has_category_columns combined) by (split_and!; by_compute).
  split; [exact Hc|].
  exact (proj1 (empty_selection_keeps_no_row combined [] ["Eceran"] ["Kalbar"]
                  Hc (or_introl eq_refl))).
Defined.

Lemma combined_dates_ok : dates_ok combined.
Proof. split; [by_compute|]. repeat (constructor; [exact I|]). constructor. Defined.

(** The chart's filter on the example view, from 1 to 2 January 2026. *)
Lemma plot_df_date_range_inclusive_example :
  has_category_columns combined
  ∧ dates_ok combined
  ∧ ∃ df,
      plot_df combined ["Beras"] ["Eceran"] ["Kalbar"] 739617 739618 = Ok df
      ∧ (∀ (r : gmap string value) d,
           r ∈ rows combined →
           category_selected ["Beras"] ["Eceran"] ["Kalbar"] r →
           r !! "Tanggal" = Some (VDate d) →
           (r ∈ rows df ↔ 739617 ≤ d ≤ 739618))
      ∧ (739617 ≤ 739618 →
         ∀ r : gmap string value,
           r ∈ rows combined →
           category_selected ["Beras"] ["Eceran"] ["Kalbar"] r →
           r !! "Tanggal" = Some (VDate 739617)
           ∨ r !! "Tanggal" = Some (VDate 739618) →
           r ∈ rows df)
      ∧ (∀ (r : gmap string value) d,
           r !! "Tanggal" = Some (VDate d) →
           d < 739617 ∨ 739618 < d → r ∉ rows df).
Proof.
  assert (Hc : has_category_columns combined) by (split_and!; by_compute).
  split; [exact Hc|]. split; [exact combined_dates_ok|].
  exact (plot_df_date_range_inclusive combined ["Beras"] ["Eceran"] ["Kalbar"]
           739617 739618 Hc combined_dates_ok).
Defined.

(** The display of the example view, with numpy's sort. *)
Lemma views_sorted_by_date_example :
  has_category_columns combined
  ∧ dates_ok combined
  ∧ ∃ flt out,
      filtered combined ["Beras"] ["Eceran"] ["Kalbar"] = Ok flt
      ∧ rekap_view (Srt := Numpy.argsort) combined
          ["Beras"] ["Eceran"] ["Kalbar"] = Ok out
      ∧ columns out = columns combined
      ∧ rows out ≡ₚ rows flt
      ∧ StronglySorted date_order (rows out).
Proof.
  assert (Hc : has_category_columns combined) by (split_and!; by_compute).
  split; [exact Hc|]. split; [exact combined_dates_ok|].
  exact (proj1 (views_sorted_by_date combined
                  ["Beras"] ["Eceran"] ["Kalbar"] 739617 739618
                  Hc combined_dates_ok)).
Defined.


(** The scenario of the specification: the form's row on an empty store. *)
Lemma submit_stores_form_row_example :
  load_input_data None = Ok {| columns := canonical_columns; rows := [] |}
  ∧ ∃ f1,
      submit form_test None = Ok (Some f1)
      ∧ csv_header f1 = canonical_columns
      ∧ csv_lines f1
        = [["Test"; "Beras"; "Eceran"; "DKI Jakarta"; "D739676"; "15000"]].
Proof.
  split; [reflexivity|].
  destruct (submit_stores_form_row form_test None
              {| columns := canonical_columns; rows := [] |} eq_refl eq_refl)
    as (_ & _ & f1 & Hsub & Hhead & Hlines).
  exists f1. split; [exact Hsub|]. split; [exact Hhead|].
  rewrite Hlines. by_eval.
Defined.

Lemma form_test_entered : entered_row (form_row form_test).
Proof.
  exists "Test", "Beras", "Eceran", "DKI Jakarta", 739676, 15000.
  split; [by_eval|]. repeat split; by_eval.
Defined.

(** The scenario of the specification: appending to an empty store, then
    reading. *)
Lemma append_then_read_example :
  PyLibLaws lib
  ∧ entered_row (form_row form_test)
  ∧ ∃ store1 df1,
      append_input_row (form_row form_test) None = Ok store1
      ∧ load_input_data store1 = Ok df1
      ∧ columns df1 = canonical_columns
      ∧ rows df1 = [] ++ [list_to_map (form_row form_test)]
      ∧ last (rows df1) = Some (list_to_map (form_row form_test))
      ∧ length (rows df1) = 1%nat
      ∧ Forall stored_row (rows df1).
Proof.
  split; [exact lib_laws|]. split; [exact form_test_entered|].
  exact (append_then_read (Laws := lib_laws) None
           {| columns := canonical_columns; rows := [] |} (form_row form_test)
           eq_refl eq_refl (Forall_nil_2 _) form_test_entered).
Defined.


(** C2 (counterexample). A form whose source is left blank: the appended
    row has the empty text as source, and the row that is read back has no
    source at all (a missing value), so it is not the appended row. *)
Lemma blank_source_is_not_read_back :
  ∃ store1 df1,
    append_input_row (form_row form_blank) None = Ok store1
    ∧ load_input_data store1 = Ok df1
    ∧ (list_to_map (form_row form_blank) : gmap string value) !! "Sumber"
      = Some (VStr "")
    ∧ last (rows df1) ≠ Some (list_to_map (form_row form_blank)).
Proof.
  exists (Some {| csv_header := canonical_columns;
                  csv_lines := [[""; "Beras"; "Eceran"; "DKI Jakarta";
                                 "D739676"; "15000"]] |}).
  exists {| columns := canonical_columns;
            rows := [blank_read_back] |}.
  split; [by_eval|]. split; [by_eval|]. split; [by_eval|].
  intros Heq.
  apply (f_equal (λ o : option (gmap string value), o ≫= (λ r, r !! "Sumber")))
    in Heq.
  assert (Hl : (last [blank_read_back]
                : option (gmap string value)) ≫= (λ r, r !! "Sumber") = None)
    by by_eval.
  assert (Hr : Some (list_to_map (form_row form_blank) : gmap string value)
               ≫= (λ r, r !! "Sumber") = Some (VStr "")) by by_eval.
  cbn [rows] in Heq. rewrite Hl, Hr in Heq. discriminate Heq.
Qed.



(** C7 (counterexample). Eighteen rows of the same day, all selected: with
    numpy's sort the displayed order is not stable (the second row of the
    table is displayed after the sixteenth). *)
Lemma numpy_sort_reorders_equal_dates :
  ∃ flt out,
    filtered same_day ["Beras"] ["Eceran"] ["Kalbar"] = Ok flt
    ∧ rekap_view (Srt := numpy_argsort) same_day ["Beras"] ["Eceran"] ["Kalbar"]
      = Ok out
    ∧ ¬ stable_by_date (rows flt) (rows out).
Proof.
  exists same_day.
  exists {| columns := canonical_columns;
            rows := (λ i : nat, observation "SP2KP" "Beras" "Eceran" "Kalbar"
                                  739617 (Z.of_nat i))
                    <$> [0; 15; 14; 13; 12; 11; 10; 9; 8; 7; 6; 5; 4; 3; 2; 1;
                         16; 17]%nat |}.
  split; [by_eval|]. split; [by_eval|].
  intros Hst.
  specialize (Hst 1%nat 15%nat 15%nat 1%nat
                (observation "SP2KP" "Beras" "Eceran" "Kalbar" 739617 1)
                (observation "SP2KP" "Beras" "Eceran" "Kalbar" 739617 15)).
  assert (Hlt : (15 < 1)%nat); [|lia].
  apply Hst.
  - lia.
  - reflexivity.
  - reflexivity.
  - intros Heq.
    apply (f_equal (λ r : gmap string value, r !! "Harga")) in Heq.
    assert (H1 : observation "SP2KP" "Beras" "Eceran" "Kalbar" 739617 1 !! "Harga"
                 = Some (VNum 1)) by by_eval.
    assert (H2 : observation "SP2KP" "Beras" "Eceran" "Kalbar" 739617 15 !! "Harga"
                 = Some (VNum 15)) by by_eval.
    rewrite H1, H2 in Heq. discriminate Heq.
  - by_eval.
  - reflexivity.
  - reflexivity.
Qed.

End Scenario.

(** * The further properties on the example data *)

Module Further.
Import Example ExampleFacts ExampleRun.

Ltac by_compute := apply (bool_decide_unpack _); vm_cast_no_check I.
Ltac by_eval :=
  match goal with
  | |- _ = ?rhs => vm_cast_no_check (eq_refl rhs)
  end.

Lemma combined_category_columns : has_category_columns combined.
Proof. split_and!; by_compute. Defined.

Lemma combined_dates : dates_ok combined.
Proof. split; [by_compute|]. repeat (constructor; [exact I|]). constructor. Defined.

(** The table tab on the example view. *)
Lemma filtered_keeps_exactly_the_selected_example :
  has_category_columns combined
  ∧ ∃ flt,
      filtered combined ["Beras"] ["Eceran"] ["Kalbar"] = Ok flt
      ∧ columns flt = columns combined
      ∧ rows flt `sublist_of` rows combined.
Proof.
  split; [exact combined_category_columns|].
  destruct (filtered_keeps_exactly_the_selected combined
              ["Beras"] ["Eceran"] ["Kalbar"] combined_category_columns)
    as (flt & Hf & Hc & Hs & _).
  exists flt. split; [exact Hf|]. split; [exact Hc|exact Hs].
Defined.

(** The chart's table on the example view. *)
Lemma plot_rows_are_table_rows_example :
  has_category_columns combined
  ∧ dates_ok combined
  ∧ ∃ flt plot,
      filtered combined ["Beras"] ["Eceran"] ["Kalbar"] = Ok flt
      ∧ plot_df combined ["Beras"] ["Eceran"] ["Kalbar"] 739617 739618
        = Ok plot
      ∧ rows plot `sublist_of` rows flt.
Proof.
  split; [exact combined_category_columns|]. split; [exact combined_dates|].
  destruct (plot_rows_are_table_rows combined ["Beras"] ["Eceran"] ["Kalbar"]
              739617 739618 combined_category_columns combined_dates)
    as (flt & plot & Hf & Hp & Hs & _).
  exists flt, plot. split; [exact Hf|]. split; [exact Hp|exact Hs].
Defined.

Lemma form_test_is_entered : entered_row (form_row form_test).
Proof.
  exists "Test", "Beras", "Eceran", "DKI Jakarta", 739676, 15000.
  split; [by_eval|]. repeat split; by_eval.
Defined.

(** The form of the scenario, submitted twice to an absent store. *)
Lemma submit_all_accumulates_example :
  PyLibLaws lib
  ∧ Forall (λ f, entered_row (form_row f)) [form_test; form_test]
  ∧ ∃ store' df,
      submit_all [form_test; form_test] None = Ok store'
      ∧ load_input_data store' = Ok df
      ∧ columns df = canonical_columns
      ∧ rows df
        = [] ++ ((λ f, list_to_map (form_row f) : gmap string value)
                   <$> [form_test; form_test]).
Proof.
  assert (Hfs : Forall (λ f, entered_row (form_row f)) [form_test; form_test]).
  { repeat (constructor; [exact form_test_is_entered|]). constructor. }
  split; [exact lib_laws|]. split; [exact Hfs|].
  exact (submit_all_accumulates (Laws := lib_laws) [form_test; form_test] None
           {| columns := canonical_columns; rows := [] |}
           eq_refl eq_refl (Forall_nil_2 _) Hfs).
Defined.

(** The form with a blank source. *)
Lemma blank_source_is_lost_example :
  PyLibLaws lib
  ∧ all_space (sumber_val form_blank)
  ∧ ∃ store1,
      submit form_blank None = Ok store1
      ∧ load_input_data store1
        = Ok {| columns := canonical_columns;
                rows := [delete "Sumber"
                           (list_to_map (form_row form_blank)
                            : gmap string value)] |}.
Proof.
  assert (Hs : all_space (sumber_val form_blank)) by vm_cast_no_check I.
  assert (Hk : plain_text (komoditi_val form_blank)) by (repeat split; by_eval).
  assert (Ht : plain_text (tingkat_val form_blank)) by (repeat split; by_eval).
  assert (Hp : plain_text (provinsi_val form_blank)) by (repeat split; by_eval).
  split; [exact lib_laws|]. split; [exact Hs|].
  exact (proj2 (blank_source_is_lost (Laws := lib_laws) form_blank Hs Hk Ht Hp)).
Defined.

(** A run of the example in which the form of the scenario is submitted. *)
Lemma submitted_row_not_in_views_of_its_run_example :
  ∃ s1 p1,
    main (Srt := numpy_argsort) (Some workbook) None
      (with_submitted (Some form_test) inputs) = (s1, Ok (Some p1))
    ∧ submit form_test None = Ok s1
    ∧ load_input_data s1 = Ok (saved_table p1)
    ∧ ∃ p0,
        main (Srt := numpy_argsort) (Some workbook) None
          (with_submitted None inputs) = (None, Ok (Some p0))
        ∧ load_input_data None = Ok (saved_table p0)
        ∧ rekap_table p1 = rekap_table p0
        ∧ chart_table p1 = chart_table p0.
Proof.
  pose (run := main (Srt := numpy_argsort) (Some workbook) None
                 (with_submitted (Some form_test) inputs)).
  exists run.1,
    (match run.2 with
     | Ok (Some p) => p
     | _ => {| saved_table := no_table; rekap_table := no_table;
               chart_table := None |}
     end).
  assert (Hrun : main (Srt := numpy_argsort) (Some workbook) None
                   (with_submitted (Some form_test) inputs)
                 = (run.1,
                    Ok (Some (match run.2 with
                              | Ok (Some p) => p
                              | _ => {| saved_table := no_table;
                                        rekap_table := no_table;
                                        chart_table := None |}
                              end)))) by by_eval.
  split; [exact Hrun|].
  exact (submitted_row_not_in_views_of_its_run (Srt := numpy_argsort)
           (Some workbook) None _ inputs form_test _ Hrun).
Defined.

(** The default range of the example view. *)
Lemma default_range_is_span_of_dates_example :
  rows combined ≠ []
  ∧ columns combined ≠ []
  ∧ default_range combined 739700 = Ok (739617, 739676)
  ∧ (∃ r : gmap string value,
       r ∈ rows combined ∧ r !! "Tanggal" = Some (VDate 739617))
  ∧ (∃ r : gmap string value,
       r ∈ rows combined ∧ r !! "Tanggal" = Some (VDate 739676)).
Proof.
  assert (H1 : rows combined ≠ []) by (intros H; discriminate H).
  assert (H2 : columns combined ≠ []) by (intros H; discriminate H).
  assert (H3 : default_range combined 739700 = Ok (739617, 739676)) by by_eval.
  split; [exact H1|]. split; [exact H2|]. split; [exact H3|].
  exact (proj2 (default_range_is_span_of_dates combined 739700 739617 739676
                  H1 H2 H3)).
Defined.

(** The example view when the date input holds one date only. *)
Lemma default_range_keeps_every_selected_row_example :
  has_category_columns combined
  ∧ "Tanggal" ∈ columns combined
  ∧ default_range combined 739700 = Ok (739617, 739676)
  ∧ ∃ flt,
      filtered combined ["Beras"] ["Eceran"] ["Kalbar"] = Ok flt
      ∧ plot_df combined ["Beras"] ["Eceran"] ["Kalbar"]
          (chosen_range [739617] 739617 739676).1
          (chosen_range [739617] 739617 739676).2 = Ok flt.
Proof.
  assert (H2 : "Tanggal" ∈ columns combined) by by_compute.
  assert (H3 : default_range combined 739700 = Ok (739617, 739676)) by by_eval.
  assert (H4 : length [739617] ≠ 2%nat) by (intros H; discriminate H).
  split; [exact combined_category_columns|]. split; [exact H2|].
  split; [exact H3|].
  exact (default_range_keeps_every_selected_row combined 739700 [739617]
           ["Beras"] ["Eceran"] ["Kalbar"] 739617 739676
           combined_category_columns H2 H3 H4).
Defined.

(** The example view with a row of the store that has no date. *)
Lemma missing_date_stops_the_trend_tab_example :
  "Tanggal" ∈ columns (combine combined undated)
  ∧ undated_row ∈ rows (combine combined undated)
  ∧ undated_row !! "Tanggal" = None
  ∧ ∃ e, tabs (Srt := numpy_argsort) combined undated inputs = Raise e.
Proof.
  assert (H1 : "Tanggal" ∈ columns (combine combined undated)) by by_compute.
  assert (H2 : undated_row ∈ rows (combine combined undated)).
  { apply (list_elem_of_lookup_2 _ 4%nat). by_eval. }
  assert (H3 : undated_row !! "Tanggal" = None) by by_eval.
  split; [exact H1|]. split; [exact H2|]. split; [exact H3|].
  exact (proj2 (missing_date_stops_the_trend_tab (Srt := numpy_argsort)
                  combined undated inputs undated_row H1 H2 H3)).
Defined.

(** A run of the example on an absent store, with a sort that is known to
    sort. *)
Lemma run_displays_selected_rows_by_date_example :
  ArgsortSorts merge_argsort
  ∧ load_choice workbook
    = Ok (["Beras"; "Gula"; "Telur"], ["Eceran"; "Grosir"],
          ["Kalbar"; "Pontianak"])
  ∧ workbook !! "jan26" = Some jan
  ∧ workbook !! "feb26" = Some feb
  ∧ submitted inputs = None
  ∧ ∃ page,
      main (Srt := merge_argsort) (Some workbook) None inputs
      = (None, Ok (Some page))
      ∧ saved_table page = {| columns := canonical_columns; rows := [] |}
      ∧ StronglySorted date_order (rows (rekap_table page)).
Proof.
  assert (H1 : load_choice workbook
               = Ok (["Beras"; "Gula"; "Telur"], ["Eceran"; "Grosir"],
                     ["Kalbar"; "Pontianak"])) by by_eval.
  assert (H2 : workbook !! "jan26" = Some jan) by by_eval.
  assert (H3 : workbook !! "feb26" = Some feb) by by_eval.
  split; [exact merge_argsort_sorts|]. split; [exact H1|]. split; [exact H2|].
  split; [exact H3|]. split; [reflexivity|].
  destruct (run_displays_selected_rows_by_date (Srt := merge_argsort)
              (Sorts := merge_argsort_sorts) workbook jan feb None inputs _
              {| columns := canonical_columns; rows := [] |}
              H1 H2 H3 eq_refl eq_refl (Forall_nil_2 _) eq_refl)
    as (daily & page & mn & mx & _ & Hmain & Hsaved & _ & Hsorted & _).
  exists page. split; [exact Hmain|]. split; [exact Hsaved|exact Hsorted].
Defined.

End Further.
